(** * Aggregation and derived-metrics engine of stride-ai

    A shallow embedding of the pure data transformations found in the
    React views of the repository:
    - [InteractiveRunningChart] (isTrailRun, yearlyData, monthlyData,
      weeklyData, dailyData);
    - [SeasonStats] (isTrailRun, timeToSeconds, getRaceCategory,
      runningStats, monthlyData, raceStats, getMedalEmoji);
    - [BibBook] (timeToSeconds, raceStats.bestTimes, getMedalEmoji);
    - [PerformanceLab] (timeToSeconds, availableDistances,
      raceProgressData);
    - [TrainingSummaryChart] (generateWeeklySummaries).

    Modelling conventions.
    - JavaScript numbers that hold measured quantities (miles, hours,
      feet, seconds) are rationals [Q]; the only place where a
      non-finite result can arise from these quantities (a division whose
      divisor may be 0) is modelled with [jsnum] below.
    - A value read with [x || 0] is a [Q] whose absent/falsy case is 0.
    - [parseFloat] and [parseInt] results are [option], [None] standing
      for [NaN].
    - Dates are local-time timestamps in milliseconds ([Z]), without
      daylight-saving shifts; [None] stands for an Invalid Date. *)

From Stdlib Require Import ZArith QArith Qabs Qround Lia Lqa List String Ascii Bool Permutation Sorted.
Import ListNotations.
Open Scope Q_scope.

(* ------------------------------------------------------------------ *)
(** ** JavaScript numbers where division by zero can occur *)

Inductive jsnum : Type :=
| JFin (q : Q)
| JPosInf
| JNegInf
| JNaN.

(** [a < b] on finite numbers. *)
Definition Qlt_bool (a b : Q) : bool := negb (Qle_bool b a).

(** [a / b] on finite JavaScript numbers. *)
Definition js_div (a b : Q) : jsnum :=
  if Qeq_bool b 0 then
    if Qlt_bool 0 a then JPosInf else if Qlt_bool a 0 then JNegInf else JNaN
  else JFin (a / b).

(** [Math.round(x * 10) / 10] on a finite number: [Math.round] rounds
    half-way cases up, i.e. [floor (y + 1/2)]. *)
Definition round1 (x : Q) : Q :=
  inject_Z (Qfloor (x * 10 + (1 # 2))) / 10.

(* ------------------------------------------------------------------ *)
(** ** Raw activity rows (activities_mapped.json) *)

Record RawActivity : Type := mkRawActivity {
  activityType : string;          (* 'Activity Type' *)
  activityDate : option Z;        (* parse('Activity Date', 'MMM dd, yyyy, h:mm:ss a') *)
  distance1 : Q;                  (* 'Distance.1', meters; 0 when absent *)
  distanceField : option Q;       (* parseFloat(Distance), miles; None = NaN *)
  movingTime : Q;                 (* 'Moving Time' || 0, seconds *)
  elevationGain : Q;              (* 'Elevation Gain' || 0, feet *)
  dirtDistance : Q                (* 'Dirt Distance' || 0, meters *)
}.

Definition meters_per_mile : Q := 160934 # 100.

(** [act['Distance.1'] ? act['Distance.1'] / 1609.34
                       : (parseFloat(act.Distance) || 0)] *)
Definition activityDistance (a : RawActivity) : Q :=
  if negb (Qeq_bool (distance1 a) 0) then distance1 a / meters_per_mile
  else match distanceField a with Some d => d | None => 0 end.

(** [(act['Moving Time'] || 0) / 3600] *)
Definition activityHours (a : RawActivity) : Q := movingTime a / 3600.

(** [isTrailRun] (InteractiveRunningChart l. 37-51, SeasonStats l. 28-43;
    the two copies are identical).  [totalDistance] is [None] when
    [parseFloat] yields NaN; [NaN > 0] is false, so that case takes the
    same branch as a zero distance. *)
Definition isTrailRun (a : RawActivity) : bool :=
  let totalDistance : option Q :=
    if negb (Qeq_bool (distance1 a) 0) then Some (distance1 a / meters_per_mile)
    else distanceField a in
  let positive := match totalDistance with Some d => Qlt_bool 0 d | None => false end in
  let d := match totalDistance with Some d => d | None => 0 end in
  let elevationPerMile := if positive then elevationGain a / d else 0 in
  let dirtPercentage :=
    if positive then (dirtDistance a / meters_per_mile) / d * 100 else 0 in
  Qlt_bool 50 elevationPerMile || Qlt_bool 50 dirtPercentage.

(** The terrain rule as the specification words it: both ratios are
    taken as 0 when the distance is 0. *)
Definition classifyTerrain_spec
    (distanceMiles elevationGainFeet dirtDistanceMiles : Q) : bool :=
  let elevationRatio :=
    if Qeq_bool distanceMiles 0 then 0 else elevationGainFeet / distanceMiles in
  let dirtRatio :=
    if Qeq_bool distanceMiles 0 then 0 else dirtDistanceMiles / distanceMiles * 100 in
  Qlt_bool 50 elevationRatio || Qlt_bool 50 dirtRatio.

(* ------------------------------------------------------------------ *)
(** ** String helpers: [includes], [split], [parseInt] *)

Definition char_eqb (a b : ascii) : bool :=
  if ascii_dec a b then true else false.

(** [s.includes(c)] for a one-character needle. *)
Fixpoint includes_char (c : ascii) (s : string) : bool :=
  match s with
  | EmptyString => false
  | String x r => char_eqb x c || includes_char c r
  end.

(** [s.split(c)] for a one-character separator: empty fields are kept
    and the empty string splits into [[""]]. *)
Fixpoint split_on (c : ascii) (s : string) : list string :=
  match s with
  | EmptyString => [EmptyString]
  | String x r =>
      if char_eqb x c then EmptyString :: split_on c r
      else match split_on c r with
           | h :: t => String x h :: t
           | [] => [String x EmptyString]
           end
  end.

(** White space skipped by [parseInt] (the Latin-1 part of it). *)
Definition is_js_space (c : ascii) : bool :=
  match nat_of_ascii c with
  | 9 | 10 | 11 | 12 | 13 | 32 | 160 => true
  | _ => false
  end%nat.

Fixpoint trim_start (s : string) : string :=
  match s with
  | String c r => if is_js_space c then trim_start r else s
  | EmptyString => EmptyString
  end.

(** Value of a digit character in radix up to 36. *)
Definition digit_value (c : ascii) : option Z :=
  let n := Z.of_nat (nat_of_ascii c) in
  if (48 <=? n)%Z && (n <=? 57)%Z then Some (n - 48)%Z
  else if (97 <=? n)%Z && (n <=? 122)%Z then Some (n - 87)%Z
  else if (65 <=? n)%Z && (n <=? 90)%Z then Some (n - 55)%Z
  else None.

(** Longest prefix of radix digits; [None] when there is none. *)
Fixpoint read_digits (radix : Z) (s : string) (acc : Z) (seen : bool) : option Z :=
  match s with
  | String c r =>
      match digit_value c with
      | Some v =>
          if (v <? radix)%Z then read_digits radix r (acc * radix + v)%Z true
          else if seen then Some acc else None
      | None => if seen then Some acc else None
      end
  | EmptyString => if seen then Some acc else None
  end.

(** [parseInt(s)] without a radix argument: leading white space, an
    optional sign, an optional [0x]/[0X] prefix selecting radix 16, then
    the longest digit prefix; [None] is [NaN]. *)
Definition parseInt (s0 : string) : option Z :=
  let s1 := trim_start s0 in
  let '(sign, s2) :=
    match s1 with
    | String "-"%char r => ((-1)%Z, r)
    | String "+"%char r => (1%Z, r)
    | _ => (1%Z, s1)
    end in
  let '(radix, s3) :=
    match s2 with
    | String "0"%char (String x r) =>
        if char_eqb x "x"%char || char_eqb x "X"%char then (16%Z, r) else (10%Z, s2)
    | _ => (10%Z, s2)
    end in
  option_map (fun v => (sign * v)%Z) (read_digits radix s3 0%Z false).

(** [parseInt(h) * 3600 + parseInt(m) * 60 + parseInt(s)]; [NaN]
    propagates through the arithmetic. *)
Definition hms_seconds (h m s : string) : option Z :=
  match parseInt h, parseInt m, parseInt s with
  | Some h, Some m, Some s => Some (h * 3600 + m * 60 + s)%Z
  | _, _, _ => None
  end.

(** [timeToSeconds] of BibBook (l. 16-25). *)
Definition timeToSeconds_bib (timeString : string) : option Z :=
  match timeString with
  | EmptyString => Some 0%Z
  | _ =>
      let timeStr :=
        if includes_char "T"%char timeString
        then nth 1 (split_on "T"%char timeString) EmptyString
        else timeString in
      match split_on ":"%char timeStr with
      | [h; m; s] => hms_seconds h m s
      | _ => Some 0%Z
      end
  end.

(** [timeToSeconds] of PerformanceLab (l. 381-388); its callers strip
    the date part themselves. *)
Definition timeToSeconds_trend (timeString : string) : option Z :=
  match timeString with
  | EmptyString => Some 0%Z
  | _ =>
      match split_on ":"%char timeString with
      | [h; m; s] => hms_seconds h m s
      | _ => Some 0%Z
      end
  end.

(** The JavaScript comparisons [a < b] and [a > 0] on possibly-NaN
    numbers. *)
Definition js_ltZ (a b : option Z) : bool :=
  match a, b with Some a, Some b => (a <? b)%Z | _, _ => false end.

Definition js_posZ (a : option Z) : bool :=
  match a with Some a => (0 <? a)%Z | None => false end.

(* ------------------------------------------------------------------ *)
(** ** Race rows (races_normalized.json) *)

Record RawRace : Type := mkRawRace {
  raceName : string;              (* race *)
  raceDate : Z;                   (* new Date(race.date).getTime() *)
  raceDistance : Q;               (* distance, miles; 0 when absent *)
  raceTime : string;              (* time; "" when absent *)
  overall_place : option Z;       (* null when absent *)
  division_place : option Z       (* null when absent *)
}.

(* ------------------------------------------------------------------ *)
(** ** Distance classes *)

Inductive DistanceLabel : Type :=
| Marathon
| HalfMarathon
| FiveK
| TenK
| FifteenK
| Miles (d : Q).                 (* the label `${race.distance} miles` *)

(** [Math.abs(distance - target) < 0.1] *)
Definition within_band (distance target : Q) : bool :=
  Qlt_bool (Qabs (distance - target)) 0.1.

(** The label chain of [availableDistances] (PerformanceLab
    l. 404-409). *)
Definition distanceLabel (distance : Q) : DistanceLabel :=
  if within_band distance 26.2 then Marathon
  else if within_band distance 13.1 then HalfMarathon
  else if within_band distance 3.1 then FiveK
  else if within_band distance 6.21371 then TenK
  else if within_band distance 9.3 then FifteenK
  else Miles distance.

(** [getDistanceValue] (PerformanceLab l. 433-440); a raw label
    [`${d} miles`] parses back to [d]. *)
Definition getDistanceValue (label : DistanceLabel) : Q :=
  match label with
  | Marathon => 26.2
  | HalfMarathon => 13.1
  | FiveK => 3.1
  | TenK => 6.21371
  | FifteenK => 9.3
  | Miles d => d
  end.

(** [getRaceCategory] of SeasonStats (l. 77-82). *)
Definition getRaceCategory (distance : Q) : string :=
  if within_band distance 26.2 then "Marathon"%string
  else if within_band distance 13.1 then "Half"%string
  else if within_band distance 3.1 then "5K"%string
  else "Other"%string.

(* ------------------------------------------------------------------ *)
(** ** Best time per distance class *)

Section BestTimes.

(** The race-time conversion the view uses ([timeToSeconds_bib] in
    BibBook; SeasonStats runs the same loop over its own conversion). *)
Variable timeToSeconds : string -> option Z.

(** One iteration of [categoryRaces.forEach]. *)
Definition bestStep (acc : RawRace * option Z) (race : RawRace) : RawRace * option Z :=
  let raceTimeSeconds := timeToSeconds (raceTime race) in
  if js_ltZ raceTimeSeconds (snd acc) && js_posZ raceTimeSeconds
  then (race, raceTimeSeconds) else acc.

(** [let bestRace = races[0]; ...; races.forEach(...)] *)
Definition bestOf (races : list RawRace) : option (RawRace * option Z) :=
  match races with
  | [] => None
  | r0 :: _ => Some (fold_left bestStep races (r0, timeToSeconds (raceTime r0)))
  end.

End BestTimes.

(** [validRaces] of BibBook: races with a truthy [time]. *)
Definition validRaces (races : list RawRace) : list RawRace :=
  filter (fun r => match raceTime r with EmptyString => false | _ => true end) races.

(** [bestTimes] of BibBook (l. 75-104): for each key of
    [distanceBreakdown], in its order, the best race of the class. *)
Definition bestTimes_bib (races : list RawRace) : list (string * (RawRace * option Z)) :=
  flat_map
    (fun '(name, target) =>
       match bestOf timeToSeconds_bib
               (filter (fun r => within_band (raceDistance r) target) (validRaces races)) with
       | Some b => [(name, b)]
       | None => []
       end)
    [("Marathon"%string, 26.2); ("Half Marathon"%string, 13.1); ("10K"%string, 6.21371);
     ("5K"%string, 3.1); ("15K"%string, 9.3)].

(* ------------------------------------------------------------------ *)
(** ** Personal-best progression *)

(** [timeStr] of raceProgressData: the part after "T" when present. *)
Definition raceTimeStr (race : RawRace) : string :=
  if includes_char "T"%char (raceTime race)
  then nth 1 (split_on "T"%char (raceTime race)) EmptyString
  else raceTime race.

(** The two [filter]s and the [map] of raceProgressData (l. 444-465):
    races of the selected distance with a time converting to a positive
    number of seconds, paired with that number. *)
Definition progressRaces (races : list RawRace) (target : Q) : list (RawRace * Z) :=
  flat_map
    (fun race =>
       if within_band (raceDistance race) target &&
          match raceTime race with EmptyString => false | _ => true end
       then match timeToSeconds_trend (raceTimeStr race) with
            | Some t => if (0 <? t)%Z then [(race, t)] else []
            | None => []
            end
       else [])
    races.

(** [.sort((a, b) => a.date - b.date)]: a stable sort by date. *)
Fixpoint insert_by_date (x : RawRace * Z) (l : list (RawRace * Z)) : list (RawRace * Z) :=
  match l with
  | [] => [x]
  | y :: l' =>
      if (raceDate (fst y) <? raceDate (fst x))%Z then y :: insert_by_date x l'
      else x :: l
  end.

Fixpoint sort_by_date (l : list (RawRace * Z)) : list (RawRace * Z) :=
  match l with
  | [] => []
  | x :: l' => insert_by_date x (sort_by_date l')
  end.

Record ProgressRow : Type := mkProgressRow {
  raceNumber : nat;
  rowTimeSeconds : Z;
  personalBest : Z
}.

(** [filteredRaces.map((race, index) => ...)]: [personalBest] is
    [race.timeSeconds] at index 0 and otherwise
    [Math.min(race.timeSeconds, ...filteredRaces.slice(0, index).map(r => r.timeSeconds))]. *)
Definition progressRows (filteredRaces : list (RawRace * Z)) : list ProgressRow :=
  let times := map snd filteredRaces in
  map (fun '(index, t) =>
         mkProgressRow (S index) t
           (match index with
            | O => t
            | _ => fold_left Z.min (firstn index times) t
            end))
      (combine (seq 0 (List.length times)) times).

(** [raceProgressData] for a selected distance label. *)
Definition raceProgressData (races : list RawRace) (selectedDistance : DistanceLabel)
  : list ProgressRow :=
  progressRows (sort_by_date (progressRaces races (getDistanceValue selectedDistance))).

(** The running minimum as the specification words it:
    [min(timeSeconds[0..i])]. *)
Definition prefix_min (times : list Z) (i : nat) : Z :=
  match firstn (S i) times with
  | [] => 0%Z
  | x :: xs => fold_left Z.min xs x
  end.

(* ------------------------------------------------------------------ *)
(** ** Medal display *)

Inductive Medal : Type := Gold | Silver | Bronze.

(** [race.overall_place && race.overall_place <= 3] *)
Definition isPodium (race : RawRace) : bool :=
  match overall_place race with
  | Some p => negb (p =? 0)%Z && (p <=? 3)%Z
  | None => false
  end.

Definition division_is (race : RawRace) (k : Z) : bool :=
  match division_place race with Some p => (p =? k)%Z | None => false end.

(** [getMedalEmoji] of BibBook (l. 472-478). *)
Definition getMedalEmoji_bib (race : RawRace) : option Medal :=
  if isPodium race then Some Gold
  else if division_is race 1 then Some Gold
  else if division_is race 2 then Some Silver
  else if division_is race 3 then Some Bronze
  else None.

(** [getMedalEmoji] of SeasonStats (l. 834-839). *)
Definition getMedalEmoji_season (race : RawRace) : option Medal :=
  if division_is race 1 || isPodium race then Some Gold
  else if division_is race 2 then Some Silver
  else if division_is race 3 then Some Bronze
  else None.

(** The medal rule as the specification words it. *)
Definition medal_spec (race : RawRace) : option Medal :=
  if match overall_place race with Some p => (p <=? 3)%Z | None => false end
  then Some Gold
  else match division_place race with
       | Some p =>
           if (p =? 1)%Z then Some Gold
           else if (p =? 2)%Z then Some Silver
           else if (p =? 3)%Z then Some Bronze
           else None
       | None => None
       end.

(** The five canonical distance classes (every label but the raw one). *)
Definition canonical_label (l : DistanceLabel) : bool :=
  match l with Miles _ => false | _ => true end.

(* ------------------------------------------------------------------ *)
(** ** Calendar: JavaScript [Date] and the date-fns helpers *)

(** Timestamps are local milliseconds; day [0] is 1970-01-01, a
    Thursday. *)
Definition ms_per_day : Z := 86400000.

(** Day number of the civil date [y-m-d] ([m] in 1..12). *)
Definition days_from_civil (y m d : Z) : Z :=
  let y' := if (m <=? 2)%Z then (y - 1)%Z else y in
  let era := (y' / 400)%Z in
  let yoe := (y' - era * 400)%Z in
  let mp := ((m + 9) mod 12)%Z in
  let doy := ((153 * mp + 2) / 5 + d - 1)%Z in
  let doe := (yoe * 365 + yoe / 4 - yoe / 100 + doy)%Z in
  (era * 146097 + doe - 719468)%Z.

(** Civil date [(y, m, d)] ([m] in 1..12) of a day number. *)
Definition civil_from_days (z : Z) : Z * Z * Z :=
  let z' := (z + 719468)%Z in
  let era := (z' / 146097)%Z in
  let doe := (z' - era * 146097)%Z in
  let yoe := ((doe - doe / 1460 + doe / 36524 - doe / 146096) / 365)%Z in
  let y := (yoe + era * 400)%Z in
  let doy := (doe - (365 * yoe + yoe / 4 - yoe / 100))%Z in
  let mp := ((5 * doy + 2) / 153)%Z in
  let d := (doy - (153 * mp + 2) / 5 + 1)%Z in
  let m := if (mp <? 10)%Z then (mp + 3)%Z else (mp - 9)%Z in
  ((if (m <=? 2)%Z then (y + 1)%Z else y), m, d).

(** [new Date(year, monthIndex, date)]: the month index and the day may
    overflow and are carried as [MakeDay] does. *)
Definition newDate (year monthIndex date : Z) : Z :=
  let ym := (year + monthIndex / 12)%Z in
  let mn := (monthIndex mod 12)%Z in
  ((days_from_civil ym (mn + 1) 1 + date - 1) * ms_per_day)%Z.

Definition dayNumber (t : Z) : Z := (t / ms_per_day)%Z.

Definition getFullYear (t : Z) : Z :=
  let '(y, _, _) := civil_from_days (dayNumber t) in y.

Definition getMonth (t : Z) : Z :=
  let '(_, m, _) := civil_from_days (dayNumber t) in (m - 1)%Z.

(** [getDay]: 0 is Sunday. *)
Definition getDay (t : Z) : Z := ((dayNumber t + 4) mod 7)%Z.

Definition startOfDay (t : Z) : Z := (dayNumber t * ms_per_day)%Z.

Definition addDays (t : Z) (n : Z) : Z := (t + n * ms_per_day)%Z.

Definition subWeeks (t : Z) (n : Z) : Z := addDays t (- 7 * n).

(** date-fns [startOfWeek(date, { weekStartsOn })]. *)
Definition startOfWeek (t : Z) (weekStartsOn : Z) : Z :=
  let day := getDay t in
  let diff := ((if (day <? weekStartsOn)%Z then 7 else 0) + day - weekStartsOn)%Z in
  startOfDay (addDays t (- diff)).

(** date-fns [endOfWeek(date, { weekStartsOn })]: 23:59:59.999 of the
    last day of the week. *)
Definition endOfWeek (t : Z) (weekStartsOn : Z) : Z :=
  let day := getDay t in
  let diff := ((if (day <? weekStartsOn)%Z then -7 else 0) + 6 - (day - weekStartsOn))%Z in
  (startOfDay (addDays t diff) + ms_per_day - 1)%Z.

Definition startOfYear (t : Z) : Z := newDate (getFullYear t) 0 1.

Definition endOfYear (t : Z) : Z := (newDate (getFullYear t + 1) 0 1 - 1)%Z.

Definition startOfMonth (t : Z) : Z := newDate (getFullYear t) (getMonth t) 1.

Definition endOfMonth (t : Z) : Z :=
  (newDate (getFullYear t) (getMonth t + 1) 1 - 1)%Z.

(** date-fns [isWithinInterval(date, { start, end })]. *)
Definition isWithinInterval (t start end_ : Z) : bool :=
  (start <=? t)%Z && (t <=? end_)%Z.

Definition isSameDay (a b : Z) : bool := (startOfDay a =? startOfDay b)%Z.

(** date-fns [eachWeekOfInterval({ start, end })] (weeks start on
    Sunday): the loop from [startOfWeek(start)] up to
    [startOfWeek(end)] by steps of one week. *)
Definition eachWeekOfInterval (start end_ : Z) : list Z :=
  let first := startOfWeek start 0 in
  let last := startOfWeek end_ 0 in
  let count := Z.to_nat ((last - first) / (7 * ms_per_day) + 1) in
  map (fun k => addDays first (7 * Z.of_nat k)) (seq 0 count).

(** date-fns [eachDayOfInterval({ start, end })]: every day from
    [startOfDay(start)] while not after [end]. *)
Definition eachDayOfInterval (start end_ : Z) : list Z :=
  let first := startOfDay start in
  let count := Z.to_nat ((end_ - first) / ms_per_day + 1) in
  map (fun k => addDays first (Z.of_nat k)) (seq 0 count).

(** [format(date, 'MMM')] *)
Definition monthName (monthIndex : Z) : string :=
  nth (Z.to_nat monthIndex)
    ["Jan"; "Feb"; "Mar"; "Apr"; "May"; "Jun";
     "Jul"; "Aug"; "Sep"; "Oct"; "Nov"; "Dec"]%string EmptyString.

(* ------------------------------------------------------------------ *)
(** ** Running activities *)

Definition lower_char (c : ascii) : ascii :=
  let n := nat_of_ascii c in
  if (65 <=? n)%nat && (n <=? 90)%nat then ascii_of_nat (n + 32) else c.

Fixpoint toLowerCase (s : string) : string :=
  match s with
  | EmptyString => EmptyString
  | String c r => String (lower_char c) (toLowerCase r)
  end.

Fixpoint starts_with (p s : string) : bool :=
  match p, s with
  | EmptyString, _ => true
  | String a p', String b s' => char_eqb a b && starts_with p' s'
  | _, _ => false
  end.

(** [s.includes(p)] *)
Fixpoint includes_str (p s : string) : bool :=
  starts_with p s ||
  match s with EmptyString => false | String _ r => includes_str p r end.

(** [isRunningActivity]; the [trim()] of the source is left out: it
    cannot change whether "run", "walk" or "hike" occur. *)
Definition isRunningActivity (activityType : string) : bool :=
  match activityType with
  | EmptyString => false
  | _ =>
      let type := toLowerCase activityType in
      includes_str "run" type && negb (includes_str "walk" type)
      && negb (includes_str "hike" type)
  end.

(** The object built by [.map(act => ({ ...act, date, distance, hours,
    isTrail }))]. *)
Record Act : Type := mkAct {
  actDate : option Z;
  actDistance : Q;
  actHours : Q;
  actIsTrail : bool
}.

Definition toAct (a : RawActivity) : Act :=
  mkAct (activityDate a) (activityDistance a) (activityHours a) (isTrailRun a).

(** [act.date.getFullYear() >= 2016] (false for an Invalid Date). *)
Definition from2016 (act : Act) : bool :=
  match actDate act with Some t => (2016 <=? getFullYear t)%Z | None => false end.

Definition actWithin (start end_ : Z) (act : Act) : bool :=
  match actDate act with Some t => isWithinInterval t start end_ | None => false end.

(** [data.activities.filter(isRunning).map(...).filter(year >= 2016)] *)
Definition runningActs (raw : list RawActivity) : list Act :=
  filter from2016
    (map toAct (filter (fun a => isRunningActivity (activityType a)) raw)).

(** [data.activities.map(...).filter(year >= 2016)] (all activity types). *)
Definition allActs (raw : list RawActivity) : list Act :=
  filter from2016 (map toAct raw).

(** [acts.reduce((sum, act) => sum + act.distance, 0)] *)
Definition sumDistance (acts : list Act) : Q :=
  fold_left (fun sum act => sum + actDistance act) acts 0.

(** [acts.reduce((sum, act) => sum + act.hours, 0)] *)
Definition sumHours (acts : list Act) : Q :=
  fold_left (fun sum act => sum + actHours act) acts 0.

Definition trailActs (acts : list Act) : list Act := filter actIsTrail acts.

Definition roadActs (acts : list Act) : list Act :=
  filter (fun act => negb (actIsTrail act)) acts.

(** [miles > 0 ? (hours * 60) / miles : null] *)
Definition pace_of (hours miles : Q) : option jsnum :=
  if Qlt_bool 0 miles then Some (js_div (hours * 60) miles) else None.

Definition js_truthy (x : jsnum) : bool :=
  match x with JFin q => negb (Qeq_bool q 0) | JNaN => false | _ => true end.

Definition round1_js (x : jsnum) : jsnum :=
  match x with JFin q => JFin (round1 q) | y => y end.

(** [pace ? Math.round(pace * 10) / 10 : null] *)
Definition report_pace (pace : option jsnum) : option jsnum :=
  match pace with
  | Some x => if js_truthy x then Some (round1_js x) else None
  | None => None
  end.

(** The numeric fields shared by every bucket of the drill-down views. *)
Record Bucket : Type := mkBucket {
  runs : nat;
  miles : Q;
  trailMiles : Q;
  roadMiles : Q;
  hours : Q;
  trailPace : option jsnum;
  roadPace : option jsnum
}.

(** The per-period reduction of yearlyData, weeklyData and dailyData
    (InteractiveRunningChart) and of SeasonStats' monthlyData. *)
Definition bucket_of (acts : list Act) : Bucket :=
  let totalMiles := sumDistance acts in
  let totalHours := sumHours acts in
  let trail := trailActs acts in
  let road := roadActs acts in
  let tMiles := sumDistance trail in
  let rMiles := sumDistance road in
  let tHours := sumHours trail in
  let rHours := sumHours road in
  mkBucket (List.length acts) (round1 totalMiles) (round1 tMiles) (round1 rMiles)
    (round1 totalHours)
    (report_pace (pace_of tHours tMiles)) (report_pace (pace_of rHours rMiles)).

(** The reduction of InteractiveRunningChart's monthlyData, whose
    [runningMiles] is [Math.round((trailMiles + roadMiles) * 10) / 10]. *)
Definition month_bucket_of (acts : list Act) : Bucket :=
  let trail := trailActs acts in
  let road := roadActs acts in
  let tMiles := sumDistance trail in
  let rMiles := sumDistance road in
  let tHours := sumHours trail in
  let rHours := sumHours road in
  mkBucket (List.length acts) (round1 (tMiles + rMiles)) (round1 tMiles) (round1 rMiles)
    (round1 (sumHours acts))
    (report_pace (pace_of tHours tMiles)) (report_pace (pace_of rHours rMiles)).

(* ------------------------------------------------------------------ *)
(** ** InteractiveRunningChart drill-down views *)

Fixpoint insert_year (y : Z) (years : list Z) : list Z :=
  match years with
  | [] => [y]
  | x :: l => if (y =? x)%Z then years
              else if (y <? x)%Z then y :: years
              else x :: insert_year y l
  end.

(** [availableYears]: the sorted set of years of the running activities. *)
Definition availableYears (raw : list RawActivity) : list Z :=
  fold_left (fun years act =>
               match actDate act with
               | Some t => insert_year (getFullYear t) years
               | None => years
               end)
            (runningActs raw) [].

(** The running activities of one year of [yearlyData]. *)
Definition yearRunning (raw : list RawActivity) (year : Z) : list Act :=
  let yearStart := startOfYear (newDate year 0 1) in
  let yearEnd := endOfYear yearStart in
  filter (actWithin yearStart yearEnd) (runningActs raw).

(** [yearlyData] (l. 69-124). *)
Definition yearlyData (raw : list RawActivity) : list (Z * Bucket) :=
  map (fun year => (year, bucket_of (yearRunning raw year))) (availableYears raw).

(** The running activities of one month of [monthlyData]. *)
Definition chartMonthRunning (raw : list RawActivity) (currentYear month : Z) : list Act :=
  let yearStart := startOfYear (newDate currentYear 0 1) in
  let yearEnd := endOfYear yearStart in
  let running := filter (actWithin yearStart yearEnd) (runningActs raw) in
  let monthStart := startOfMonth (newDate currentYear month 1) in
  let monthEnd := endOfMonth monthStart in
  filter (actWithin monthStart monthEnd) running.

(** [monthlyData] (l. 127-181): entries [(monthNumber, month, bucket)]. *)
Definition monthlyData (raw : list RawActivity) (currentYear : Z) : list (Z * string * Bucket) :=
  map (fun month =>
         (month, monthName month, month_bucket_of (chartMonthRunning raw currentYear month)))
      (map Z.of_nat (seq 0 12)).

(** The activities of one week of [weeklyData]. *)
Definition weekActivities (raw : list RawActivity) (currentYear selectedMonth weekStart : Z)
  : list Act :=
  let monthStart := newDate currentYear selectedMonth 1 in
  let monthEnd := newDate currentYear (selectedMonth + 1) 0 in
  filter (actWithin weekStart (endOfWeek weekStart 0))
    (filter (actWithin monthStart monthEnd) (runningActs raw)).

(** [weeklyData] (l. 184-239): entries [(weekIndex, weekStart, bucket)]. *)
Definition weeklyData (raw : list RawActivity) (currentYear selectedMonth : Z)
  : list (nat * Z * Bucket) :=
  let monthStart := newDate currentYear selectedMonth 1 in
  let monthEnd := newDate currentYear (selectedMonth + 1) 0 in
  let weeks := eachWeekOfInterval monthStart monthEnd in
  map (fun '(index, weekStart) =>
         (index, weekStart,
          bucket_of (weekActivities raw currentYear selectedMonth weekStart)))
      (combine (seq 0 (List.length weeks)) weeks).

(** The activities of one day of [dailyData]. *)
Definition dayActivities (raw : list RawActivity) (weekStart day : Z) : list Act :=
  filter (fun act => match actDate act with Some t => isSameDay t day | None => false end)
    (filter (actWithin weekStart (endOfWeek weekStart 0)) (runningActs raw)).

(** [dailyData] (l. 242-305): entries [(fullDate, bucket)]; the tooltip
    list of single activities is not modelled. *)
Definition dailyData (raw : list RawActivity) (weekStart : Z) : list (Z * Bucket) :=
  map (fun day => (day, bucket_of (dayActivities raw weekStart day)))
      (eachDayOfInterval weekStart (endOfWeek weekStart 0)).

(* ------------------------------------------------------------------ *)
(** ** SeasonStats aggregates *)

Record SeasonMonth : Type := mkSeasonMonth {
  smMonthNumber : Z;
  smMonth : string;
  smBucket : Bucket;              (* runs, runningMiles, trail/road miles, runningHours, paces *)
  smAllActivities : nat;
  smAllHours : Q;
  smAvgPace : option jsnum
}.

(** [avgPace > 0 ? Math.round(avgPace * 10) / 10 : null] *)
Definition report_positive (x : jsnum) : option jsnum :=
  match x with
  | JFin q => if Qlt_bool 0 q then Some (JFin (round1 q)) else None
  | JPosInf => Some JPosInf
  | _ => None
  end.

(** The running activities of one month of SeasonStats' [monthlyData];
    [monthEnd] is [new Date(year, month + 1, 0)], midnight of the last
    day of the month. *)
Definition seasonMonthRunning (raw : list RawActivity) (selectedYear month : Z) : list Act :=
  let yearStart := startOfYear (newDate selectedYear 0 1) in
  let yearEnd := endOfYear yearStart in
  let monthStart := newDate selectedYear month 1 in
  let monthEnd := newDate selectedYear (month + 1) 0 in
  filter (actWithin monthStart monthEnd)
    (filter (actWithin yearStart yearEnd) (runningActs raw)).

(** [monthlyData] of SeasonStats (l. 249-323). *)
Definition seasonMonthlyData (raw : list RawActivity) (selectedYear : Z) : list SeasonMonth :=
  let yearStart := startOfYear (newDate selectedYear 0 1) in
  let yearEnd := endOfYear yearStart in
  let all := filter (actWithin yearStart yearEnd) (allActs raw) in
  map (fun month =>
         let monthStart := newDate selectedYear month 1 in
         let monthEnd := newDate selectedYear (month + 1) 0 in
         let monthRunning := seasonMonthRunning raw selectedYear month in
         let monthAll := filter (actWithin monthStart monthEnd) all in
         let totalRunningHours := sumHours monthRunning in
         let totalRunningMiles := sumDistance monthRunning in
         let avgPace :=
           if Qlt_bool 0 totalRunningMiles
           then js_div (totalRunningHours * 60) totalRunningMiles else JFin 0 in
         mkSeasonMonth month (monthName month) (bucket_of monthRunning)
           (List.length monthAll) (round1 (sumHours monthAll))
           (report_positive avgPace))
      (map Z.of_nat (seq 0 12)).

(** [avgPace] of SeasonStats' [runningStats] (l. 112-143), as returned:
    [Math.round(avgPace * 10) / 10] with
    [avgPace = totalHours > 0 ? (totalHours * 60) / totalMiles : 0]. *)
Definition runningStats_avgPace (raw : list RawActivity) (selectedYear : Z) : jsnum :=
  let yearStart := startOfYear (newDate selectedYear 0 1) in
  let yearEnd := endOfYear yearStart in
  let yearActivities := filter (actWithin yearStart yearEnd) (runningActs raw) in
  let totalMiles := sumDistance yearActivities in
  let totalHours := sumHours yearActivities in
  let avgPace :=
    if Qlt_bool 0 totalHours then js_div (totalHours * 60) totalMiles else JFin 0 in
  round1_js avgPace.

(* ------------------------------------------------------------------ *)
(** ** TrainingSummaryChart: the last four weeks *)

Record StravaActivity : Type := mkStravaActivity {
  sDistance : Q;                  (* meters *)
  sMovingTime : Q;                (* seconds *)
  sElevation : Q;                 (* total_elevation_gain || 0, meters *)
  sStartDate : option Z           (* new Date(start_date) *)
}.

Record WeeklySummary : Type := mkWeeklySummary {
  week : Z;                       (* format(weekStart, 'yyyy-MM-dd') *)
  weekLabel : string;
  wTotalMiles : Q;
  wTotalTime : Z;
  runCount : nat;
  wAvgPace : Q;
  totalElevation : Z
}.

(** [Math.round] *)
Definition js_round (x : Q) : Z := Qfloor (x + (1 # 2)).

Fixpoint digits_of_nat (fuel n : nat) (acc : string) : string :=
  match fuel with
  | O => acc
  | S f =>
      let acc' := String (ascii_of_nat (48 + n mod 10)) acc in
      if (n <? 10)%nat then acc' else digits_of_nat f (n / 10) acc'
  end.

(** [`${n}`] for a natural number. *)
Definition string_of_nat (n : nat) : string := digits_of_nat (S n) n EmptyString.

Definition weekLabelOf (i : nat) : string :=
  match i with
  | O => "This Week"
  | 1%nat => "Last Week"
  | _ => string_of_nat i ++ " weeks ago"
  end%string.

(** One iteration of the loop of [generateWeeklySummaries]. *)
Definition weeklySummary (activities : list StravaActivity) (now : Z) (i : nat)
  : WeeklySummary :=
  let weekStart := startOfWeek (subWeeks now (Z.of_nat i)) 1 in
  let weekEnd := endOfWeek weekStart 1 in
  let weekActs :=
    filter (fun act => match sStartDate act with
                       | Some d => (weekStart <=? d)%Z && (d <=? weekEnd)%Z
                       | None => false
                       end) activities in
  let totalDistance := fold_left (fun sum act => sum + sDistance act) weekActs 0 in
  let totalMiles := totalDistance / meters_per_mile in
  let totalTimeSeconds := fold_left (fun sum act => sum + sMovingTime act) weekActs 0 in
  let totalTime := totalTimeSeconds / 60 in
  let totalElevation := fold_left (fun sum act => sum + sElevation act) weekActs 0 in
  let avgPace := if Qlt_bool 0 totalMiles then totalTime / totalMiles else 0 in
  mkWeeklySummary weekStart (weekLabelOf i) (round1 totalMiles) (js_round totalTime)
    (List.length weekActs) (inject_Z (js_round (avgPace * 100)) / 100)
    (js_round (totalElevation * (328084 # 100000))).

(** [generateWeeklySummaries]: [for (let i = 3; i >= 0; i--)], with
    [new Date()] passed in as [now]. *)
Definition generateWeeklySummaries (activities : list StravaActivity) (now : Z)
  : list WeeklySummary :=
  map (weeklySummary activities now) [3; 2; 1; 0]%nat.

(** A bucket with no run: zero counts, miles and hours, null paces. *)
Definition is_zero_bucket (b : Bucket) : Prop :=
  runs b = 0%nat /\ miles b == 0 /\ trailMiles b == 0 /\ roadMiles b == 0 /\
  hours b == 0 /\ trailPace b = None /\ roadPace b = None.

(** A reported pace is null or a finite, non-negative number. *)
Definition pace_nonneg (p : option jsnum) : Prop :=
  p = None \/ exists q, p = Some (JFin q) /\ 0 <= q.

Definition bucket_paces_ok (b : Bucket) : Prop :=
  pace_nonneg (trailPace b) /\ pace_nonneg (roadPace b).

(** The pace reported for a subset with [hours] and [miles]: null when the
    mileage is not positive or the hours are 0, the rounded quotient
    otherwise. *)
Definition pace_reported (hours miles : Q) (p : option jsnum) : Prop :=
  ((miles <= 0 \/ hours == 0) /\ p = None) \/
  (0 < miles /\ ~ hours == 0 /\ p = Some (JFin (round1 (hours * 60 / miles)))).

Definition bucket_paces_reported (acts : list Act) (b : Bucket) : Prop :=
  pace_reported (sumHours (trailActs acts)) (sumDistance (trailActs acts)) (trailPace b) /\
  pace_reported (sumHours (roadActs acts)) (sumDistance (roadActs acts)) (roadPace b).

(* ------------------------------------------------------------------ *)
(** ** Sample rows *)

(** A treadmill run of 30 minutes, 5 January 2024, whose distance was
    recorded as 0. *)
Definition tread : RawActivity :=
  mkRawActivity "Run" (Some (newDate 2024 0 5 + 7 * 3600000)%Z) 0 (Some 0) 1800 0 0.

(** A trail run of 10 miles, 5 January 2024, whose moving time was
    recorded as 24 seconds. *)
Definition glitch : RawActivity :=
  mkRawActivity "Trail Run" (Some (newDate 2024 0 5 + 7 * 3600000)%Z) 0 (Some 10) 24 600 0.


(** Marathons: 3:30:00 and a row whose time is "N/A", 3:45:00 run
    before 3:30:00, and a later 3:40:00. *)
Definition raceA : RawRace :=
  mkRawRace "City Marathon" (newDate 2023 3 16)%Z 26.2 "3:30:00" None (Some 12%Z).

Definition raceB : RawRace :=
  mkRawRace "Trail Marathon" (newDate 2023 9 1)%Z 26.2 "N/A" None None.

Definition raceC1 : RawRace :=
  mkRawRace "Spring Marathon" (newDate 2022 3 10)%Z 26.2 "3:45:00" None None.

Definition raceC3 : RawRace :=
  mkRawRace "Fall Marathon" (newDate 2024 9 13)%Z 26.2 "3:40:00" None None.

(** A race placed 2nd overall and 5th in its division. *)
Definition raceD : RawRace :=
  mkRawRace "Turkey Trot" (newDate 2023 10 23)%Z 3.1 "0:19:30" (Some 2%Z) (Some 5%Z).

(* ------------------------------------------------------------------ *)
(** ** PerformanceLab: time display and summary metrics *)

(** [`${z}`] for an integer. *)
Definition string_of_Z (z : Z) : string :=
  if (z <? 0)%Z then ("-" ++ string_of_nat (Z.to_nat (- z)))%string
  else string_of_nat (Z.to_nat z).

(** [s.padStart(2, '0')] *)
Definition padStart2 (s : string) : string :=
  match String.length s with
  | O => "00"%string
  | 1%nat => ("0" ++ s)%string
  | _ => s
  end.

(** [formatTime] of PerformanceLab (l. 391-396).  Every caller passes
    a whole number of seconds; [%] is the truncating remainder and
    [Math.floor] of a quotient of integers the floor division. *)
Definition formatTime_trend (seconds : Z) : string :=
  let hours := (seconds / 3600)%Z in
  let minutes := (Z.rem seconds 3600 / 60)%Z in
  let secs := Z.rem seconds 60 in
  (string_of_Z hours ++ ":" ++ padStart2 (string_of_Z minutes) ++ ":" ++
   padStart2 (string_of_Z secs))%string.

(** [x * 100] and [1 - x] on JavaScript numbers. *)
Definition js_times100 (x : jsnum) : jsnum :=
  match x with JFin q => JFin (q * 100) | y => y end.

Definition js_one_minus (x : jsnum) : jsnum :=
  match x with
  | JFin q => JFin (1 - q)
  | JPosInf => JNegInf
  | JNegInf => JPosInf
  | JNaN => JNaN
  end.

Record PerformanceMetrics : Type := mkPerformanceMetrics {
  totalRaces : nat;
  pmBestTime : string;
  pmFirstTime : string;
  pmLastTime : string;
  pmAvgTime : string;
  improvementFromFirstToPR : jsnum;
  improvementFromAvg : jsnum;
  consistency : jsnum
}.

(** [performanceMetrics] (l. 480-503); [None] is the [null] of an empty
    progression.  [Math.min(...times)] and [Math.max(...times)] are folds
    from the first time. *)
Definition performanceMetrics (rows : list ProgressRow) : option PerformanceMetrics :=
  match map rowTimeSeconds rows with
  | [] => None
  | firstTime :: rest =>
      let times := firstTime :: rest in
      let lastTime := last times firstTime in
      let bestTime := fold_left Z.min rest firstTime in
      let maxTime := fold_left Z.max rest firstTime in
      let minTime := fold_left Z.min rest firstTime in
      let avgTime := inject_Z (fold_left Z.add times 0%Z) / inject_Z (Z.of_nat (List.length times)) in
      Some (mkPerformanceMetrics (List.length rows)
              (formatTime_trend bestTime) (formatTime_trend firstTime)
              (formatTime_trend lastTime) (formatTime_trend (js_round avgTime))
              (js_times100 (js_div (inject_Z (firstTime - bestTime)) (inject_Z firstTime)))
              (js_times100 (js_div (avgTime - inject_Z bestTime) avgTime))
              (js_times100 (js_one_minus (js_div (inject_Z (maxTime - minTime)) avgTime))))
  end.

(** [Math.max(0, x)] *)
Definition js_max0 (x : Q) : Q := if Qle_bool x 0 then 0 else x.

(** [yAxisDomain] (l. 505-518); [None] is [['auto', 'auto']]. *)
Definition yAxisDomain (rows : list ProgressRow) : option (Q * Q) :=
  match map rowTimeSeconds rows with
  | [] => None
  | firstTime :: rest =>
      let minTime := fold_left Z.min rest firstTime in
      let maxTime := fold_left Z.max rest firstTime in
      let range := inject_Z (maxTime - minTime) in
      let padding := range * (1 # 10) in
      Some (js_max0 (inject_Z minTime - padding), inject_Z maxTime + padding)
  end.

(* ------------------------------------------------------------------ *)
(** ** BibBook: breakdown, podiums and the race table *)

(** [distanceBreakdown] of BibBook (l. 38-45): the number of valid races
    within 0.1 mile of each distance, in the object's key order. *)
Definition distanceBreakdown (races : list RawRace) : list (string * nat) :=
  let count target :=
    List.length (filter (fun r => within_band (raceDistance r) target) (validRaces races)) in
  [("Marathon"%string, count 26.2); ("Half Marathon"%string, count 13.1);
   ("10K"%string, count 6.21371); ("5K"%string, count 3.1); ("15K"%string, count 9.3)].

(** [distanceChartData] (l. 128-133):
    [Object.entries(distanceBreakdown).filter(([_, count]) => count > 0)]. *)
Definition distanceChartData (races : list RawRace) : list (string * nat) :=
  filter (fun '(_, count) => Nat.ltb 0 count) (distanceBreakdown races).

(** [race.division_place && race.division_place <= 3] *)
Definition isAgGroupPodium (race : RawRace) : bool :=
  match division_place race with
  | Some p => negb (p =? 0)%Z && (p <=? 3)%Z
  | None => false
  end.

(** [overallPodiums] and [agGroupPodiums] of BibBook (l. 48-49). *)
Definition overallPodiums (races : list RawRace) : list RawRace :=
  filter isPodium (validRaces races).

Definition agGroupPodiums (races : list RawRace) : list RawRace :=
  filter isAgGroupPodium (validRaces races).

(** The medal cell of a table row (l. 468-498):
    [(isAgGroupPodium || isPodium) && getMedalEmoji()]; [None] when the
    span is not rendered, [Some None] when it is rendered empty. *)
Definition medalSlot (race : RawRace) : option (option Medal) :=
  if isAgGroupPodium race || isPodium race then Some (getMedalEmoji_bib race) else None.

(** [filteredRacesForTable] of BibBook (l. 166-174). *)
Definition filteredRacesForTable (races : list RawRace) (raceFilter : string) : list RawRace :=
  if String.eqb raceFilter "all" then validRaces races
  else filter (fun race => String.eqb (getRaceCategory (raceDistance race)) raceFilter)
              (validRaces races).

(* ------------------------------------------------------------------ *)
(** ** SeasonStats: runningStats *)

(** [yearActivities] of SeasonStats' [runningStats] (l. 113-126). *)
Definition seasonYearActivities (raw : list RawActivity) (selectedYear : Z) : list Act :=
  let yearStart := startOfYear (newDate selectedYear 0 1) in
  let yearEnd := endOfYear yearStart in
  filter (actWithin yearStart yearEnd) (runningActs raw).

(** One step of [weeks.forEach] (l. 151-161): the state is
    [biggestWeek = { miles, date, runs }]. *)
Definition biggestWeekStep (yearActivities : list Act) (acc : Q * Z * nat) (weekStart : Z)
  : Q * Z * nat :=
  let weekEnd := endOfWeek weekStart 0 in
  let weekActivities := filter (actWithin weekStart weekEnd) yearActivities in
  let weekMiles := sumDistance weekActivities in
  if Qlt_bool (fst (fst acc)) weekMiles
  then (weekMiles, weekStart, List.length weekActivities) else acc.

(** The [longestRun] part of [yearActivities.forEach] (l. 164-171):
    the state is [(distance, date)]; the name is not modelled. *)
Definition longestRunStep (acc : Q * option Z) (act : Act) : Q * option Z :=
  if Qlt_bool (fst acc) (actDistance act) then (actDistance act, actDate act) else acc.

(** The pace [(act.hours * 60) / act.distance] of a run that counts for
    [fastestPace]: [act.hours > 0 && act.distance > 3]. *)
Definition pace_candidate (act : Act) : option Q :=
  if Qlt_bool 0 (actHours act) && Qlt_bool 3 (actDistance act)
  then Some ((actHours act * 60) / actDistance act) else None.

(** The [fastestPace] part of [yearActivities.forEach] (l. 173-178): the
    state is [(pace, date, distance)], the initial [Infinity] being
    [None]; a finite pace is always [< Infinity]. *)
Definition fastestPaceStep (acc : option Q * option Z * Q) (act : Act) : option Q * option Z * Q :=
  match pace_candidate act with
  | Some pace =>
      if match fst (fst acc) with None => true | Some p => Qlt_bool pace p end
      then (Some pace, actDate act, actDistance act) else acc
  | None => acc
  end.

Record RunningStats : Type := mkRunningStats {
  rsTotalRuns : nat;
  rsAvgRunDistance : Q;
  rsBiggestWeek : Q;
  rsBiggestWeekDate : Z;
  rsBiggestWeekRuns : nat;
  rsLongestRun : Q;
  rsLongestRunDate : option Z;
  rsFastestPace : option Q;
  rsFastestPaceDate : option Z;
  rsFastestPaceDistance : Q;
  rsTrailRuns : nat;
  rsRoadRuns : nat;
  rsTrailMiles : Q;
  rsRoadMiles : Q;
  rsTrailPercentage : Q
}.

(** [runningStats] of SeasonStats (l. 112-211), the fields that do not
    depend on the current date or on [format]. *)
Definition runningStats (raw : list RawActivity) (selectedYear : Z) : RunningStats :=
  let yearStart := startOfYear (newDate selectedYear 0 1) in
  let yearEnd := endOfYear yearStart in
  let yearActivities := seasonYearActivities raw selectedYear in
  let totalRuns := List.length yearActivities in
  let totalMiles := sumDistance yearActivities in
  let trailRuns := trailActs yearActivities in
  let roadRuns := roadActs yearActivities in
  let trailPercentage :=
    if Nat.ltb 0 totalRuns
    then inject_Z (Z.of_nat (List.length trailRuns)) / inject_Z (Z.of_nat totalRuns) * 100
    else 0 in
  let avgRunDistance :=
    if Nat.ltb 0 totalRuns then totalMiles / inject_Z (Z.of_nat totalRuns) else 0 in
  let weeks := eachWeekOfInterval yearStart yearEnd in
  let '(bwMiles, bwDate, bwRuns) := fold_left (biggestWeekStep yearActivities) weeks (0, yearStart, 0%nat) in
  let '(lrDistance, lrDate) := fold_left longestRunStep yearActivities (0, Some yearStart) in
  let '(fpPace, fpDate, fpDistance) := fold_left fastestPaceStep yearActivities (None, Some yearStart, 0) in
  mkRunningStats totalRuns (round1 avgRunDistance)
    (round1 bwMiles) bwDate bwRuns
    (round1 lrDistance) lrDate
    (match fpPace with Some p => Some (round1 p) | None => None end) fpDate (round1 fpDistance)
    (List.length trailRuns) (List.length roadRuns)
    (round1 (sumDistance trailRuns)) (round1 (sumDistance roadRuns))
    (round1 trailPercentage).

(** A 5-mile run at noon on 31 January 2024, the last day of the month. *)
Definition lastDayRun : RawActivity :=
  mkRawActivity "Run" (Some (newDate 2024 0 31 + 12 * 3600000)%Z) 0 (Some 5) 2400 0 0.

(* ------------------------------------------------------------------ *)
(** ** InteractiveRunningChart: drill-down navigation *)

(** [type DrillDownLevel = 'years' | 'months' | 'weeks' | 'days'] *)
Inductive DrillDownLevel : Type := Years | Months | Weeks | Days.

Definition level_eqb (a b : DrillDownLevel) : bool :=
  match a, b with
  | Years, Years | Months, Months | Weeks, Weeks | Days, Days => true
  | _, _ => false
  end.

(** The props read by the navigation: [initialLevel] (typed
    ['years' | 'months']) and the optional [selectedYear]. *)
Record ChartProps : Type := mkChartProps {
  initialLevel : DrillDownLevel;
  selectedYear : option Z
}.

(** The four [useState] cells; [selectedWeek] is
    [{weekStart, weekIndex} | null]. *)
Record ChartState : Type := mkChartState {
  drillDownLevel : DrillDownLevel;
  selectedYearInternal : Z;
  selectedMonth : option Z;
  selectedWeek : option (Z * nat)
}.

(** [selectedYear || y]: an absent or zero year falls through to [y]. *)
Definition year_or (p : option Z) (y : Z) : Z :=
  match p with Some v => if (v =? 0)%Z then y else v | None => y end.

(** The initial state; [thisYear] is [new Date().getFullYear()]. *)
Definition initialState (thisYear : Z) (pr : ChartProps) : ChartState :=
  mkChartState (initialLevel pr) (year_or (selectedYear pr) thisYear) None None.

(** [const currentYear = selectedYear || selectedYearInternal] *)
Definition currentYear (pr : ChartProps) (st : ChartState) : Z :=
  year_or (selectedYear pr) (selectedYearInternal st).

(** The memoised views with their level guards (l. 69-70, 127-128,
    184-185, 241-242). *)
Definition yearlyView (raw : list RawActivity) (st : ChartState) : list (Z * Bucket) :=
  if level_eqb (drillDownLevel st) Years then yearlyData raw else [].

Definition monthlyView (raw : list RawActivity) (pr : ChartProps) (st : ChartState)
  : list (Z * string * Bucket) :=
  if level_eqb (drillDownLevel st) Months then monthlyData raw (currentYear pr st) else [].

Definition weeklyView (raw : list RawActivity) (pr : ChartProps) (st : ChartState)
  : list (nat * Z * Bucket) :=
  match drillDownLevel st, selectedMonth st with
  | Weeks, Some m => weeklyData raw (currentYear pr st) m
  | _, _ => []
  end.

Definition dailyView (raw : list RawActivity) (st : ChartState) : list (Z * Bucket) :=
  match drillDownLevel st, selectedWeek st with
  | Days, Some (weekStart, _) => dailyData raw weekStart
  | _, _ => []
  end.

(** The x-axis label of a year bar, [year.toString()]. *)
Definition yearLabel (year : Z) : string := string_of_Z year.

(** The [week] field of a weeklyData entry, [`Week ${index + 1}`]. *)
Definition weekBarLabel (index : nat) : string := ("Week " ++ string_of_nat (S index))%string.

(** [handleYearClick] (l. 307-316).  A label that [parseInt] reads as
    NaN would store a NaN year; the model stops there ([None]).  The
    [onYearChange] callback acts on the parent, whose new [selectedYear]
    is a separate step below. *)
Definition handleYearClick (activeLabel : string) (st : ChartState) : option ChartState :=
  if String.eqb activeLabel "" then Some st
  else match parseInt activeLabel with
       | Some year => Some (mkChartState Months year None None)
       | None => None
       end.

(** [handleMonthClick] (l. 318-327): [monthlyData.find(m => m.month === label)]. *)
Definition handleMonthClick (raw : list RawActivity) (pr : ChartProps)
    (activeLabel : string) (st : ChartState) : ChartState :=
  if String.eqb activeLabel "" then st
  else match find (fun '(_, month, _) => String.eqb month activeLabel) (monthlyView raw pr st) with
       | Some (monthNumber, _, _) =>
           mkChartState Weeks (selectedYearInternal st) (Some monthNumber) None
       | None => st
       end.

(** [handleWeekClick] (l. 329-337): [weeklyData.find(w => w.week === label)]. *)
Definition handleWeekClick (raw : list RawActivity) (pr : ChartProps)
    (activeLabel : string) (st : ChartState) : ChartState :=
  if String.eqb activeLabel "" then st
  else match find (fun '(index, _, _) => String.eqb (weekBarLabel index) activeLabel)
                  (weeklyView raw pr st) with
       | Some (weekIndex, weekStart, _) =>
           mkChartState Days (selectedYearInternal st) (selectedMonth st)
             (Some (weekStart, weekIndex))
       | None => st
       end.

(** [handleBackClick] (l. 866-877). *)
Definition handleBackClick (thisYear : Z) (pr : ChartProps) (st : ChartState) : ChartState :=
  match drillDownLevel st with
  | Days => mkChartState Weeks (selectedYearInternal st) (selectedMonth st) None
  | Weeks => mkChartState Months (selectedYearInternal st) None (selectedWeek st)
  | Months => mkChartState (initialLevel pr) (year_or (selectedYear pr) thisYear) None
                (selectedWeek st)
  | Years => st
  end.

(** One user or parent action.  Recharts passes the category of the
    clicked bar as [activeLabel]: a year click carries the label of a
    rendered year bar; month and week clicks may carry any label, their
    handlers look it up.  The Back button is rendered only when
    [drillDownLevel !== initialLevel] (l. 887).  The parent may re-render
    with another [selectedYear] (SeasonStats passes its own year state). *)
Inductive chart_step (raw : list RawActivity) (thisYear : Z)
  : ChartProps * ChartState -> ChartProps * ChartState -> Prop :=
| step_year : forall pr st st' year b,
    In (year, b) (yearlyView raw st) ->
    handleYearClick (yearLabel year) st = Some st' ->
    chart_step raw thisYear (pr, st) (pr, st')
| step_month : forall pr st label,
    chart_step raw thisYear (pr, st) (pr, handleMonthClick raw pr label st)
| step_week : forall pr st label,
    chart_step raw thisYear (pr, st) (pr, handleWeekClick raw pr label st)
| step_back : forall pr st,
    level_eqb (drillDownLevel st) (initialLevel pr) = false ->
    chart_step raw thisYear (pr, st) (pr, handleBackClick thisYear pr st)
| step_parent : forall pr st year,
    chart_step raw thisYear (pr, st) (mkChartProps (initialLevel pr) year, st).

(** The states reachable from the first render, with [initialLevel]
    one of ['years' | 'months']. *)
Inductive chart_reachable (raw : list RawActivity) (thisYear : Z)
  : ChartProps * ChartState -> Prop :=
| reach_init : forall pr,
    (initialLevel pr = Years \/ initialLevel pr = Months) ->
    chart_reachable raw thisYear (pr, initialState thisYear pr)
| reach_step : forall s s',
    chart_reachable raw thisYear s -> chart_step raw thisYear s s' ->
    chart_reachable raw thisYear s'.

(** Depth of a level in the drill-down. *)
Definition level_depth (l : DrillDownLevel) : nat :=
  match l with Years => 0 | Months => 1 | Weeks => 2 | Days => 3 end.

(** A test path for the chart of ThePulse (part_004 l. 1307, no
    [selectedYear]): the year bar 2024, then "Jan", then "Week 1". *)
Definition navProps : ChartProps := mkChartProps Years None.

Definition navMonthsState : ChartState := mkChartState Months 2024 None None.

Definition navDaysState : ChartState :=
  handleWeekClick [lastDayRun] navProps "Week 1"
    (handleMonthClick [lastDayRun] navProps "Jan" navMonthsState).

(* ------------------------------------------------------------------ *)
(** ** SeasonStats: fitnessStats *)

(** [allYearActivities] of [fitnessStats] (SeasonStats l. 215-226): all
    activity types, dated from 2016 on, inside the selected year. *)
Definition fitnessYearActivities (raw : list RawActivity) (selectedYear : Z) : list RawActivity :=
  let yearStart := startOfYear (newDate selectedYear 0 1) in
  let yearEnd := endOfYear yearStart in
  filter (fun a => actWithin yearStart yearEnd (toAct a))
    (filter (fun a => from2016 (toAct a)) raw).

(** [list.reduce((sum, act) => sum + act.hours, 0)] over raw rows. *)
Definition sumActivityHours (acts : list RawActivity) : Q :=
  fold_left (fun sum act => sum + activityHours act) acts 0.

(** The result of [fitnessStats] (l. 214-247) without [totalCalories]
    (the rows' [Calories] column is not part of [RawActivity]). *)
Record FitnessStats : Type := mkFitnessStats {
  totalActivities : nat;
  fsTotalHours : Z;
  uniqueActivityTypes : nat;
  crossTrainingHours : Z;
  crossTrainingPercent : Z
}.

(** [new Set(types).size] is the length of the list without repeats. *)
Definition fitnessStats (raw : list RawActivity) (selectedYear : Z) : FitnessStats :=
  let allYearActivities := fitnessYearActivities raw selectedYear in
  let totalHours := sumActivityHours allYearActivities in
  let nonRunningActivities :=
    filter (fun act => negb (isRunningActivity (activityType act))) allYearActivities in
  let crossTrainingHours := sumActivityHours nonRunningActivities in
  let crossTrainingPercent :=
    if Qlt_bool 0 totalHours then (crossTrainingHours / totalHours) * 100 else 0 in
  mkFitnessStats (List.length allYearActivities) (js_round totalHours)
    (List.length (nodup string_dec (map activityType allYearActivities)))
    (js_round crossTrainingHours) (js_round crossTrainingPercent).

(* ------------------------------------------------------------------ *)
(** ** SeasonStats: the race table *)

(** [.sort((a, b) => new Date(a.date).getTime() - new Date(b.date).getTime())]
    (Array.prototype.sort is stable): insertion sort that places each
    race before the later-listed races of the same date. *)
Fixpoint insert_race (x : RawRace) (l : list RawRace) : list RawRace :=
  match l with
  | [] => [x]
  | y :: l' => if (raceDate y <? raceDate x)%Z then y :: insert_race x l' else x :: l
  end.

Fixpoint sort_races (l : list RawRace) : list RawRace :=
  match l with
  | [] => []
  | x :: l' => insert_race x (sort_races l')
  end.

(** [yearRaces] of SeasonStats (l. 453-457). *)
Definition seasonYearRaces (races : list RawRace) (selectedYear : Z) : list RawRace :=
  sort_races (filter (fun race => (getFullYear (raceDate race) =? selectedYear)%Z) races).

(** [filteredRacesForTable] of SeasonStats (l. 507-527). *)
Definition seasonFilteredRacesForTable (races : list RawRace) (selectedYear : Z)
    (raceFilter : string) : list RawRace :=
  let filtered := seasonYearRaces races selectedYear in
  if negb (String.eqb raceFilter "All") then
    let targetDistance :=
      if String.eqb raceFilter "Marathon" then 26.2
      else if String.eqb raceFilter "Half" then 13.1
      else if String.eqb raceFilter "5K" then 3.1 else 0 in
    if String.eqb raceFilter "Other" then
      filter (fun race => negb (within_band (raceDistance race) 26.2) &&
                          negb (within_band (raceDistance race) 13.1) &&
                          negb (within_band (raceDistance race) 3.1)) filtered
    else filter (fun race => within_band (raceDistance race) targetDistance) filtered
  else filtered.

(* ------------------------------------------------------------------ *)
(** ** SeasonStats' race time conversion and [Number(string)] *)

(** White space removed from the end as well ([StringToNumber] trims
    both ends). *)
Fixpoint trim_end (s : string) : string :=
  match s with
  | EmptyString => EmptyString
  | String c r =>
      let r' := trim_end r in
      match r' with
      | EmptyString => if is_js_space c then EmptyString else String c EmptyString
      | _ => String c r'
      end
  end.

(** Longest prefix of digits below [radix]: its value, its length and
    the rest of the string. *)
Fixpoint scan_digits (radix : Z) (s : string) (acc : Z) (n : nat) : Z * nat * string :=
  match s with
  | String c r =>
      match digit_value c with
      | Some v => if (v <? radix)%Z then scan_digits radix r (acc * radix + v)%Z (S n)
                  else (acc, n, s)
      | None => (acc, n, s)
      end
  | EmptyString => (acc, n, s)
  end.

(** A whole string of at least one digit below [radix]. *)
Definition all_radix_digits (radix : Z) (s : string) : option Z :=
  let '(v, n, rest) := scan_digits radix s 0%Z O in
  match n, rest with
  | O, _ => None
  | _, EmptyString => Some v
  | _, _ => None
  end.

(** [SignedInteger] of an [ExponentPart] (after the [e] or [E]). *)
Definition parse_exponent (s : string) : option Z :=
  let '(sg, s1) :=
    match s with
    | String "+"%char r => (1%Z, r)
    | String "-"%char r => ((-1)%Z, r)
    | _ => (1%Z, s)
    end in
  option_map (fun v => (sg * v)%Z) (all_radix_digits 10 s1).

(** [StrUnsignedDecimalLiteral] other than [Infinity]:
    [digits [. digits?] exponent?] or [. digits exponent?]. *)
Definition parse_unsigned_decimal (s : string) : option Q :=
  let '(ip, ni, r1) := scan_digits 10 s 0%Z O in
  let '(fp, nf, r2) :=
    match r1 with
    | String "."%char r => scan_digits 10 r 0%Z O
    | _ => (0%Z, O, r1)
    end in
  let mant := inject_Z (ip * 10 ^ Z.of_nat nf + fp)%Z in
  let scale := Qpower (inject_Z 10) (- Z.of_nat nf)%Z in
  if (ni + nf =? 0)%nat then None
  else match r2 with
       | EmptyString => Some (mant * scale)
       | String c r =>
           if char_eqb c "e"%char || char_eqb c "E"%char then
             option_map (fun e => mant * scale * Qpower (inject_Z 10) e) (parse_exponent r)
           else None
       end.

(** Radix selected by a [0x], [0o] or [0b] prefix letter. *)
Definition radix_prefix (c : ascii) : option Z :=
  if char_eqb c "x"%char || char_eqb c "X"%char then Some 16%Z
  else if char_eqb c "o"%char || char_eqb c "O"%char then Some 8%Z
  else if char_eqb c "b"%char || char_eqb c "B"%char then Some 2%Z
  else None.

(** [Number(s)] after the white space and the sign: [Infinity] or a
    decimal literal, else [NaN]. *)
Definition js_decimal (u : string) (neg : bool) : jsnum :=
  if string_dec u "Infinity" then (if neg then JNegInf else JPosInf)
  else match parse_unsigned_decimal u with
       | Some q => JFin (if neg then - q else q)
       | None => JNaN
       end.

(** [Number(s)] for a string ([StringToNumber]): white space trimmed at
    both ends; the empty string is 0; [0x]/[0o]/[0b] integers without a
    sign; otherwise an optional sign followed by [Infinity] or a decimal
    literal; anything else is [NaN].  Values are exact rationals, as
    everywhere in this development: the rounding to a double (and the
    overflow of literals beyond 1.8e308 to Infinity) is not modelled. *)
Definition jsNumber (s0 : string) : jsnum :=
  let s := trim_end (trim_start s0) in
  match s with
  | EmptyString => JFin 0
  | String "0"%char (String x r) =>
      match radix_prefix x with
      | Some radix =>
          match all_radix_digits radix r with
          | Some v => JFin (inject_Z v)
          | None => JNaN
          end
      | None => js_decimal s false
      end
  | String "-"%char r => js_decimal r true
  | String "+"%char r => js_decimal r false
  | _ => js_decimal s false
  end.

(** [a + b] and [a * k] on JavaScript numbers. *)
Definition js_add (a b : jsnum) : jsnum :=
  match a, b with
  | JNaN, _ | _, JNaN => JNaN
  | JFin x, JFin y => JFin (x + y)
  | JFin _, y => y
  | x, JFin _ => x
  | JPosInf, JPosInf => JPosInf
  | JNegInf, JNegInf => JNegInf
  | _, _ => JNaN
  end.

Definition js_mul (a : jsnum) (k : Q) : jsnum :=
  match a with
  | JFin x => JFin (x * k)
  | JNaN => JNaN
  | JPosInf => if Qlt_bool 0 k then JPosInf else if Qlt_bool k 0 then JNegInf else JNaN
  | JNegInf => if Qlt_bool 0 k then JNegInf else if Qlt_bool k 0 then JPosInf else JNaN
  end.

(** A destructured field of [parts.map(Number)]: a missing field is
    [undefined], and [undefined] in arithmetic is [NaN]. *)
Definition field_number (f : option string) : jsnum :=
  match f with Some s => jsNumber s | None => JNaN end.

(** [const [hours, minutes, seconds] = parts.map(Number);
     hours * 3600 + minutes * 60 + seconds] *)
Definition hms_number (parts : list string) : jsnum :=
  js_add (js_add (js_mul (field_number (nth_error parts 0)) 3600)
                 (js_mul (field_number (nth_error parts 1)) 60))
         (field_number (nth_error parts 2)).

(** [timeToSeconds] of SeasonStats (l. 46-63). *)
Definition timeToSeconds_season (timeStr : string) : jsnum :=
  if string_dec timeStr "" then JFin 0
  else if string_dec timeStr "N/A" then JFin 0
  else if includes_str "1900-01-01T" timeStr || includes_str "1900-01-02T" timeStr then
    let timePart := nth 1 (split_on "T"%char timeStr) EmptyString in
    hms_number (split_on ":"%char timePart)
  else
    let parts := split_on ":"%char timeStr in
    if (List.length parts =? 3)%nat then hms_number parts else JFin 0.

(** A non-empty string of decimal digits and its value. *)
Definition all_digits (s : string) : bool :=
  match all_radix_digits 10 s with Some _ => true | None => false end.

Definition decimal_value (s : string) : Z :=
  let '(v, _, _) := scan_digits 10 s 0%Z O in v.

(* ================================================================== *)
(** * Properties *)

(* ------------------------------------------------------------------ *)
(** ** Boolean comparisons on [Q] *)

Lemma Qlt_bool_iff (a b : Q) : Qlt_bool a b = true <-> a < b.
Proof.
  unfold Qlt_bool. rewrite negb_true_iff.
  split; intro H.
  - apply Qnot_le_lt. intro H'. apply Qle_bool_iff in H'. congruence.
  - destruct (Qle_bool b a) eqn:E; [|reflexivity].
    apply Qle_bool_iff in E. exfalso. apply (Qlt_not_le _ _ H E).
Qed.

Lemma Qlt_bool_false (a b : Q) : Qlt_bool a b = false <-> b <= a.
Proof.
  unfold Qlt_bool. rewrite negb_false_iff. apply Qle_bool_iff.
Qed.

(** For a non-negative [d], the guard [d > 0] and the guard [d <> 0]
    select the same branch. *)
Lemma guard_pos_nonzero (d : Q) (X : Q) :
  0 <= d ->
  (if Qlt_bool 0 d then X else 0) = (if Qeq_bool d 0 then 0 else X).
Proof.
  intro Hd.
  destruct (Qlt_bool 0 d) eqn:E1, (Qeq_bool d 0) eqn:E2; try reflexivity.
  - apply Qlt_bool_iff in E1. apply Qeq_bool_iff in E2.
    rewrite E2 in E1. exfalso. apply (Qlt_irrefl 0 E1).
  - apply Qlt_bool_false in E1.
    assert (d == 0) by (apply Qle_antisym; assumption).
    apply Qeq_bool_iff in H. congruence.
Qed.

(* ------------------------------------------------------------------ *)
(** ** C1: terrain classification *)

(** C1: for every activity whose distance is non-negative (the data model's
    [distanceMiles >= 0]), the classifier says trail exactly when the
    elevation ratio or the dirt percentage exceeds 50, both ratios taken as 0
    at distance 0; in particular a zero-distance activity is never trail. *)
Theorem isTrailRun_spec (a : RawActivity) :
  0 <= activityDistance a ->
  isTrailRun a =
    classifyTerrain_spec (activityDistance a) (elevationGain a)
                         (dirtDistance a / meters_per_mile)
  /\ (activityDistance a == 0 -> isTrailRun a = false).
Proof.
  intro Hd.
  assert (Hcode : isTrailRun a =
    classifyTerrain_spec (activityDistance a) (elevationGain a)
                         (dirtDistance a / meters_per_mile)).
  { unfold isTrailRun, classifyTerrain_spec, activityDistance in *.
    destruct (negb (Qeq_bool (distance1 a) 0)).
    - rewrite <- !(guard_pos_nonzero _ _ Hd). reflexivity.
    - destruct (distanceField a) as [d|].
      + rewrite <- !(guard_pos_nonzero _ _ Hd). reflexivity.
      + reflexivity. }
  split; [exact Hcode|].
  intro H0. rewrite Hcode. unfold classifyTerrain_spec.
  apply Qeq_bool_iff in H0. rewrite H0. reflexivity.
Qed.

(* ------------------------------------------------------------------ *)
(** ** C7: race time conversion *)

(** The string [timeToSeconds_bib] splits on ":". *)
Definition bib_time_part (s : string) : string :=
  if includes_char "T"%char s then nth 1 (split_on "T"%char s) EmptyString else s.

Lemma digit_char (c : ascii) (d : Z) :
  digit_value c = Some d -> (d < 10)%Z ->
  In c ["0"; "1"; "2"; "3"; "4"; "5"; "6"; "7"; "8"; "9"]%char.
Proof.
  destruct c as [[] [] [] [] [] [] [] []]; intros H Hd; vm_compute in H;
    try discriminate H; injection H as <-;
    first [exfalso; lia | repeat (first [left; reflexivity | right])].
Qed.

Lemma digit_char_facts (c : ascii) :
  In c ["0"; "1"; "2"; "3"; "4"; "5"; "6"; "7"; "8"; "9"]%char ->
  is_js_space c = false /\ radix_prefix c = None /\
  (char_eqb c "x"%char || char_eqb c "X"%char) = false.
Proof.
  intro H.
  destruct H as [<-|[<-|[<-|[<-|[<-|[<-|[<-|[<-|[<-|[<-|[]]]]]]]]]]];
    vm_compute; repeat split.
Qed.

Lemma scan_digits_cons (c : ascii) (r : string) (acc v : Z) (n k : nat) :
  scan_digits 10 (String c r) acc n = (v, k, EmptyString) ->
  exists d, digit_value c = Some d /\ (d < 10)%Z /\
    scan_digits 10 r (acc * 10 + d)%Z (S n) = (v, k, EmptyString).
Proof.
  simpl. destruct (digit_value c) as [d|]; [|discriminate].
  destruct (Z.ltb_spec d 10) as [Hlt|Hge]; [|discriminate].
  intro H. exists d. split; [reflexivity|]. split; [exact Hlt|exact H].
Qed.

Lemma trim_end_scan (s : string) (acc v : Z) (n k : nat) :
  scan_digits 10 s acc n = (v, k, EmptyString) -> trim_end s = s.
Proof.
  revert acc n. induction s as [|c r IH]; intros acc n H; [reflexivity|].
  apply scan_digits_cons in H. destruct H as (d & Hd & Hlt & Hr).
  simpl. rewrite (IH _ _ Hr).
  destruct r as [|x r']; [|reflexivity].
  destruct (digit_char_facts c (digit_char c d Hd Hlt)) as [Hsp _].
  rewrite Hsp. reflexivity.
Qed.

Lemma read_digits_scan (s : string) (acc v : Z) (n k : nat) (seen : bool) :
  scan_digits 10 s acc n = (v, k, EmptyString) -> (seen = true \/ (n < k)%nat) ->
  read_digits 10 s acc seen = Some v.
Proof.
  revert acc n seen. induction s as [|c r IH]; intros acc n seen H Hs.
  - simpl in H. injection H as -> ->. simpl.
    destruct seen; [reflexivity|]. destruct Hs as [Hs|Hs]; [discriminate|lia].
  - apply scan_digits_cons in H. destruct H as (d & Hd & Hlt & Hr).
    simpl. rewrite Hd. destruct (Z.ltb_spec d 10) as [_|Hge]; [|lia].
    apply (IH _ _ _ Hr). left. reflexivity.
Qed.

Lemma all_digits_scan (s : string) :
  all_digits s = true -> exists k, scan_digits 10 s 0%Z O = (decimal_value s, S k, EmptyString).
Proof.
  unfold all_digits, all_radix_digits, decimal_value.
  destruct (scan_digits 10 s 0%Z O) as [[v [|k]] rest]; [discriminate|].
  destruct rest; [|discriminate]. intros _. exists k. reflexivity.
Qed.

Lemma js_decimal_digits (s : string) (v : Z) (k : nat) :
  scan_digits 10 s 0%Z O = (v, S k, EmptyString) ->
  js_decimal s false = JFin (inject_Z v).
Proof.
  intro H. unfold js_decimal.
  destruct (string_dec s "Infinity") as [E|_]; [subst s; vm_compute in H; discriminate H|].
  unfold parse_unsigned_decimal. rewrite H. cbn.
  unfold Qmult, inject_Z. cbn. rewrite !Z.mul_1_r, Z.add_0_r. reflexivity.
Qed.

(** A string of decimal digits is read as the same integer by [Number]
    and by [parseInt]. *)
Lemma number_parseInt_digits (s : string) :
  all_digits s = true ->
  jsNumber s = JFin (inject_Z (decimal_value s)) /\ parseInt s = Some (decimal_value s).
Proof.
  intro H. destruct (all_digits_scan s H) as [k Hs].
  pose proof (js_decimal_digits s _ k Hs) as Hdec.
  pose proof (read_digits_scan s 0%Z _ O (S k) false Hs ltac:(right; lia)) as Hread.
  destruct s as [|c r]; [discriminate Hs|].
  pose proof Hs as Hs'. apply scan_digits_cons in Hs'.
  destruct Hs' as (d & Hd & Hlt & Hr).
  pose proof (digit_char c d Hd Hlt) as Hc.
  destruct (digit_char_facts c Hc) as [Hsp _].
  assert (Ht : trim_start (String c r) = String c r) by (simpl; rewrite Hsp; reflexivity).
  assert (Hx : forall x r', r = String x r' ->
             radix_prefix x = None /\ (char_eqb x "x"%char || char_eqb x "X"%char) = false).
  { intros x r' ->. apply scan_digits_cons in Hr. destruct Hr as (d' & Hd' & Hlt' & _).
    destruct (digit_char_facts x (digit_char x d' Hd' Hlt')) as [_ Hf]. exact Hf. }
  unfold jsNumber, parseInt. rewrite Ht, (trim_end_scan _ _ _ _ _ Hs).
  destruct Hc as [<-|[<-|[<-|[<-|[<-|[<-|[<-|[<-|[<-|[<-|[]]]]]]]]]]];
    try (destruct r as [|x r'];
         [|destruct (Hx x r' eq_refl) as [Hx1 Hx2]; cbv zeta iota beta; rewrite ?Hx1, ?Hx2]);
    cbv zeta iota beta; (split; [exact Hdec|]); rewrite Hread; unfold option_map; f_equal; apply Z.mul_1_l.
Qed.

Lemma hms_digits (vh vm vx : Z) :
  js_add (js_add (js_mul (JFin (inject_Z vh)) 3600) (js_mul (JFin (inject_Z vm)) 60))
         (JFin (inject_Z vx)) = JFin (inject_Z (vh * 3600 + vm * 60 + vx)).
Proof.
  cbn [js_add js_mul]. f_equal. unfold Qplus, Qmult, inject_Z. cbn [Qnum Qden].
  rewrite !Z.mul_1_r. reflexivity.
Qed.

Lemma js_add_nan_r (a : jsnum) : js_add a JNaN = JNaN.
Proof. destruct a; reflexivity. Qed.

(** C7 (as amended): both race time conversions are total functions,
    with different rules.
    BibBook: an empty string gives 0.  Otherwise the part after the
    first "T" (up to a second "T", if any), or the whole string when it
    has no "T", is split on ":".  Three fields give
    [parseInt(h)*3600 + parseInt(m)*60 + parseInt(s)], which is NaN
    when one of the fields has no leading integer.  Any other number
    of fields gives 0.
    SeasonStats: an empty string and "N/A" give 0.  A string containing
    "1900-01-01T" or "1900-01-02T" is read from the part after its first
    "T", split on ":": the first three fields give
    [Number(h)*3600 + Number(m)*60 + Number(s)], fewer than three give
    NaN.  Any other string split on ":" into exactly three fields gives
    the same [Number] formula, and into any other number of fields 0.
    In both, fields made of decimal digits give
    [hours*3600 + minutes*60 + seconds]. *)
Theorem timeToSeconds_cases (s : string) :
  ((s = EmptyString -> timeToSeconds_bib s = Some 0%Z) /\
   (forall h m x vh vm vx,
       s <> EmptyString ->
       split_on ":"%char (bib_time_part s) = [h; m; x] ->
       parseInt h = Some vh -> parseInt m = Some vm -> parseInt x = Some vx ->
       timeToSeconds_bib s = Some (vh * 3600 + vm * 60 + vx)%Z) /\
   (forall h m x,
       s <> EmptyString ->
       split_on ":"%char (bib_time_part s) = [h; m; x] ->
       (parseInt h = None \/ parseInt m = None \/ parseInt x = None) ->
       timeToSeconds_bib s = None) /\
   (s <> EmptyString ->
       List.length (split_on ":"%char (bib_time_part s)) <> 3%nat ->
       timeToSeconds_bib s = Some 0%Z)) /\
  ((s = EmptyString \/ s = "N/A"%string -> timeToSeconds_season s = JFin 0) /\
   (s <> EmptyString -> s <> "N/A"%string ->
       includes_str "1900-01-01T" s || includes_str "1900-01-02T" s = true ->
       (forall h m x rest,
          split_on ":"%char (nth 1 (split_on "T"%char s) EmptyString) = h :: m :: x :: rest ->
          timeToSeconds_season s =
            js_add (js_add (js_mul (jsNumber h) 3600) (js_mul (jsNumber m) 60)) (jsNumber x)) /\
       ((List.length (split_on ":"%char (nth 1 (split_on "T"%char s) EmptyString)) < 3)%nat ->
          timeToSeconds_season s = JNaN)) /\
   (s <> EmptyString -> s <> "N/A"%string ->
       includes_str "1900-01-01T" s || includes_str "1900-01-02T" s = false ->
       (forall h m x,
          split_on ":"%char s = [h; m; x] ->
          timeToSeconds_season s =
            js_add (js_add (js_mul (jsNumber h) 3600) (js_mul (jsNumber m) 60)) (jsNumber x)) /\
       (List.length (split_on ":"%char s) <> 3%nat -> timeToSeconds_season s = JFin 0))) /\
  (forall h m x,
     all_digits h = true -> all_digits m = true -> all_digits x = true ->
     hms_seconds h m x = Some (decimal_value h * 3600 + decimal_value m * 60 + decimal_value x)%Z /\
     js_add (js_add (js_mul (jsNumber h) 3600) (js_mul (jsNumber m) 60)) (jsNumber x) =
       JFin (inject_Z (decimal_value h * 3600 + decimal_value m * 60 + decimal_value x))).
Proof.
  split; [|split].
  - unfold timeToSeconds_bib, bib_time_part.
    split; [intros ->; reflexivity|].
    split; [|split].
    + intros h m x vh vm vx Hne Hsplit Hh Hm Hx.
      destruct s as [|c r]; [congruence|].
      rewrite Hsplit. unfold hms_seconds. rewrite Hh, Hm, Hx. reflexivity.
    + intros h m x Hne Hsplit Hnan.
      destruct s as [|c r]; [congruence|].
      rewrite Hsplit. unfold hms_seconds.
      destruct Hnan as [H|[H|H]];
        destruct (parseInt h), (parseInt m), (parseInt x);
        try discriminate; reflexivity.
    + intros Hne Hlen.
      destruct s as [|c r]; [congruence|].
      destruct (split_on ":"%char _) as [|a [|b [|d [|e l]]]];
        try reflexivity; simpl in Hlen; lia.
  - unfold timeToSeconds_season.
    split; [|split].
    + intros [->| ->]; reflexivity.
    + intros Hne Hna H19.
      destruct (string_dec s "") as [E|_]; [contradiction|].
      destruct (string_dec s "N/A") as [E|_]; [contradiction|].
      rewrite H19. split.
      * intros h m x rest Hsplit. rewrite Hsplit. reflexivity.
      * intro Hlen. unfold hms_number.
        destruct (split_on ":"%char _) as [|a [|b [|d l]]];
          try (simpl in Hlen; lia); cbn [nth_error field_number]; apply js_add_nan_r.
    + intros Hne Hna H19.
      destruct (string_dec s "") as [E|_]; [contradiction|].
      destruct (string_dec s "N/A") as [E|_]; [contradiction|].
      rewrite H19. split.
      * intros h m x Hsplit. rewrite Hsplit. reflexivity.
      * intro Hlen. destruct (Nat.eqb_spec (List.length (split_on ":"%char s)) 3) as [E|_];
          [contradiction|reflexivity].
  - intros h m x Hh Hm Hx.
    destruct (number_parseInt_digits h Hh) as [Nh Ph].
    destruct (number_parseInt_digits m Hm) as [Nm Pm].
    destruct (number_parseInt_digits x Hx) as [Nx Px].
    split.
    + unfold hms_seconds. rewrite Ph, Pm, Px. reflexivity.
    + rewrite Nh, Nm, Nx. apply hms_digits.
Qed.

(* ------------------------------------------------------------------ *)
(** ** C2: best time per distance class *)

Section BestOfProofs.

Variable toSec : string -> option Z.

(** A race that, when it has a positive time, is not faster than [tb]. *)
Definition not_faster (tb : Z) (r : RawRace) : Prop :=
  forall t, toSec (raceTime r) = Some t -> (0 < t)%Z -> (tb <= t)%Z.

(** A race that, when it has a positive time, is slower than [tb]. *)
Definition slower (tb : Z) (r : RawRace) : Prop :=
  forall t, toSec (raceTime r) = Some t -> (0 < t)%Z -> (tb < t)%Z.

Lemma fold_bestStep (l : list RawRace) (b : RawRace) (tb : Z) :
  toSec (raceTime b) = Some tb -> (0 < tb)%Z ->
  exists b' tb',
    fold_left (bestStep toSec) l (b, Some tb) = (b', Some tb') /\
    toSec (raceTime b') = Some tb' /\ (0 < tb')%Z /\
    ((b' = b /\ tb' = tb /\ Forall (not_faster tb) l) \/
     (exists pre post, l = pre ++ b' :: post /\ (tb' < tb)%Z /\
        Forall (slower tb') pre /\ Forall (not_faster tb') post)).
Proof.
  revert b tb. induction l as [|x l IH]; intros b tb Hb Hpos; simpl.
  - exists b, tb. repeat split; auto.
  - unfold bestStep at 2. simpl.
    destruct (toSec (raceTime x)) as [tx|] eqn:Ex.
    + unfold js_ltZ, js_posZ.
      destruct ((tx <? tb)%Z && (0 <? tx)%Z) eqn:Etake.
      * apply andb_true_iff in Etake as [Hlt Hp].
        apply Z.ltb_lt in Hlt. apply Z.ltb_lt in Hp.
        destruct (IH x tx Ex Hp) as (b' & tb' & Hf & Hb' & Hpos' & Hcase).
        exists b', tb'. rewrite Hf. repeat split; auto.
        right. destruct Hcase as [(-> & -> & Hall)|(pre & post & Hl & Hlt' & Hpre & Hpost)].
        -- exists [], l. repeat split; auto.
        -- exists (x :: pre), post. subst l. repeat split; auto; [lia|].
           constructor; auto. intros t Ht Htp. rewrite Ex in Ht.
           injection Ht as <-. lia.
      * assert (Hx : not_faster tb x).
        { intros t Ht Htp. rewrite Ex in Ht. injection Ht as <-.
          apply andb_false_iff in Etake as [H|H];
            [apply Z.ltb_ge in H; lia | apply Z.ltb_ge in H; lia]. }
        destruct (IH b tb Hb Hpos) as (b' & tb' & Hf & Hb' & Hpos' & Hcase).
        exists b', tb'. rewrite Hf. repeat split; auto.
        destruct Hcase as [(-> & -> & Hall)|(pre & post & Hl & Hlt' & Hpre & Hpost)].
        -- left. repeat split; auto.
        -- right. exists (x :: pre), post. subst l. repeat split; auto.
           constructor; auto. intros t Ht Htp. specialize (Hx t Ht Htp). lia.
    + assert (Hx : not_faster tb x).
      { intros t Ht. rewrite Ex in Ht. discriminate. }
      simpl.
      destruct (IH b tb Hb Hpos) as (b' & tb' & Hf & Hb' & Hpos' & Hcase).
      exists b', tb'. rewrite Hf. repeat split; auto.
      destruct Hcase as [(-> & -> & Hall)|(pre & post & Hl & Hlt' & Hpre & Hpost)].
      * left. repeat split; auto.
      * right. exists (x :: pre), post. subst l. repeat split; auto.
        constructor; auto. intros t Ht. rewrite Ex in Ht. discriminate.
Qed.

End BestOfProofs.

(** C2 (as amended): when the first race of a class has a positive time,
    the best-times loop returns the first-encountered race whose time is
    minimum among the races of the class with a positive time: every race
    before it with a positive time is strictly slower, and every race after
    it with a positive time is not faster.  The loop is the same for any
    time conversion (BibBook's and SeasonStats'). *)
Theorem bestOf_first_minimum (toSec : string -> option Z)
    (r0 : RawRace) (rest : list RawRace) (t0 : Z) :
  toSec (raceTime r0) = Some t0 -> (0 < t0)%Z ->
  exists best tb pre post,
    bestOf toSec (r0 :: rest) = Some (best, Some tb) /\
    r0 :: rest = pre ++ best :: post /\
    toSec (raceTime best) = Some tb /\ (0 < tb)%Z /\
    Forall (slower toSec tb) pre /\ Forall (not_faster toSec tb) post.
Proof.
  intros H0 Hpos. unfold bestOf. rewrite H0.
  destruct (fold_bestStep toSec (r0 :: rest) r0 t0 H0 Hpos)
    as (b' & tb' & Hf & Hb' & Hpos' & Hcase).
  exists b', tb'. rewrite Hf.
  destruct Hcase as [(-> & -> & Hall)|(pre & post & Hl & Hlt & Hpre & Hpost)].
  - exists [], rest. inversion Hall; subst. repeat split; auto.
  - exists pre, post. repeat split; auto.
Qed.

(* ------------------------------------------------------------------ *)
(** ** C3: personal-best progression *)

Lemma fold_min_shift (l : list Z) (a b : Z) :
  fold_left Z.min l (Z.min a b) = Z.min a (fold_left Z.min l b).
Proof.
  revert a b. induction l as [|x l IH]; intros a b; simpl; [reflexivity|].
  rewrite <- Z.min_assoc. apply IH.
Qed.

Lemma fold_min_le_seed (l : list Z) (a : Z) : (fold_left Z.min l a <= a)%Z.
Proof.
  revert a. induction l as [|x l IH]; intro a; simpl; [lia|].
  specialize (IH (Z.min a x)). lia.
Qed.

Lemma fold_min_app_le (l1 l2 : list Z) (a : Z) :
  (fold_left Z.min (l1 ++ l2) a <= fold_left Z.min l1 a)%Z.
Proof. rewrite fold_left_app. apply fold_min_le_seed. Qed.

Lemma nth_error_combine {A B : Type} (xs : list A) (ys : list B) (i : nat) (x : A) (y : B) :
  nth_error (combine xs ys) i = Some (x, y) ->
  nth_error xs i = Some x /\ nth_error ys i = Some y.
Proof.
  revert ys i. induction xs as [|a xs IH]; intros ys i E;
    destruct ys as [|b ys]; destruct i; simpl in *; try discriminate.
  - injection E as -> ->. auto.
  - apply IH. exact E.
Qed.

Lemma nth_error_progressRows (l : list (RawRace * Z)) (i : nat) (row : ProgressRow) :
  nth_error (progressRows l) i = Some row ->
  exists t,
    nth_error (map snd l) i = Some t /\
    row = mkProgressRow (S i) t
            (match i with
             | O => t
             | _ => fold_left Z.min (firstn i (map snd l)) t
             end).
Proof.
  unfold progressRows. intro H.
  rewrite nth_error_map in H.
  destruct (nth_error (combine _ _) i) as [[k t]|] eqn:E; [|discriminate].
  simpl in H. injection H as <-.
  assert (Hk : nth_error (seq 0 (List.length (map snd l))) i = Some k
               /\ nth_error (map snd l) i = Some t).
  { apply nth_error_combine. exact E. }
  destruct Hk as [Hk Ht].
  assert (i < List.length (map snd l))%nat by (apply nth_error_Some; congruence).
  rewrite nth_error_seq in Hk. destruct (Nat.ltb_spec i (List.length (map snd l))); [|lia].
  injection Hk as <-. exists t. split; auto.
Qed.

Lemma map_time_progressRows (l : list (RawRace * Z)) :
  map rowTimeSeconds (progressRows l) = map snd l.
Proof.
  apply nth_error_ext. intro i.
  rewrite nth_error_map.
  destruct (nth_error (progressRows l) i) as [row|] eqn:E.
  - destruct (nth_error_progressRows l i row E) as (t & Ht & ->). simpl.
    now rewrite Ht.
  - symmetry. apply nth_error_None. apply nth_error_None in E.
    unfold progressRows in E. rewrite length_map, length_combine, length_seq in E.
    lia.
Qed.

Lemma firstn_S_nth (ts : list Z) (i : nat) (t : Z) :
  nth_error ts i = Some t -> firstn (S i) ts = firstn i ts ++ [t].
Proof.
  revert ts. induction i as [|i IH]; intros [|x ts] H; simpl in *; try discriminate.
  - injection H as ->. reflexivity.
  - f_equal. rewrite (IH ts H). reflexivity.
Qed.

Lemma prefix_min_rows (ts : list Z) (i : nat) (t : Z) :
  nth_error ts i = Some t ->
  prefix_min ts i =
    match i with O => t | _ => fold_left Z.min (firstn i ts) t end.
Proof.
  intro H. unfold prefix_min. rewrite (firstn_S_nth ts i t H).
  destruct i as [|k].
  - destruct ts; simpl in *; [discriminate|]. reflexivity.
  - destruct ts as [|x ts]; [discriminate|]. simpl.
    rewrite fold_left_app. simpl.
    rewrite fold_min_shift. apply Z.min_comm.
Qed.

Lemma prefix_min_antitone (ts : list Z) (i j : nat) :
  (i <= j)%nat -> (j < List.length ts)%nat -> (prefix_min ts j <= prefix_min ts i)%Z.
Proof.
  intros Hij Hj. unfold prefix_min.
  assert (Hsplit : firstn (S j) ts = firstn (S i) ts ++ firstn (j - i) (skipn (S i) ts)).
  { rewrite <- (firstn_skipn (S i) (firstn (S j) ts)).
    rewrite firstn_firstn, skipn_firstn_comm.
    replace (Nat.min (S i) (S j)) with (S i) by lia.
    replace (S j - S i)%nat with (j - i)%nat by lia. reflexivity. }
  rewrite Hsplit.
  destruct ts as [|x ts]; simpl in Hj; [lia|].
  simpl. apply fold_min_app_le.
Qed.

(** C3: in the progression series the personal-best column at index [i]
    is the minimum of the times at indices [0..i]; it never exceeds the
    time of the same row, and it never increases along the series. *)
Theorem raceProgressData_running_min (races : list RawRace) (sel : DistanceLabel) :
  let rows := raceProgressData races sel in
  let times := map rowTimeSeconds rows in
  (forall i row, nth_error rows i = Some row ->
     personalBest row = prefix_min times i /\
     (personalBest row <= rowTimeSeconds row)%Z) /\
  (forall i j ri rj, (i <= j)%nat ->
     nth_error rows i = Some ri -> nth_error rows j = Some rj ->
     (personalBest rj <= personalBest ri)%Z).
Proof.
  intros rows times.
  assert (Hrow : forall i row, nth_error rows i = Some row ->
            personalBest row = prefix_min times i /\
            (personalBest row <= rowTimeSeconds row)%Z).
  { intros i row H. unfold rows, raceProgressData in H.
    destruct (nth_error_progressRows _ i row H) as (t & Ht & ->).
    unfold times, rows, raceProgressData. rewrite map_time_progressRows.
    rewrite (prefix_min_rows _ i t Ht). simpl. split; [reflexivity|].
    destruct i; [lia|]. destruct (firstn (S i) _) as [|x xs]; simpl; [lia|].
    rewrite fold_min_shift. lia. }
  split; [exact Hrow|].
  intros i j ri rj Hij Hi Hj.
  destruct (Hrow i ri Hi) as [-> _]. destruct (Hrow j rj Hj) as [-> _].
  apply prefix_min_antitone; [exact Hij|].
  unfold times. rewrite length_map. apply nth_error_Some. congruence.
Qed.

(* ------------------------------------------------------------------ *)
(** ** C4: distance classes *)

Lemma within_band_true (d v : Q) :
  within_band d v = true <-> v - 0.1 < d /\ d < v + 0.1.
Proof.
  unfold within_band. rewrite Qlt_bool_iff, Qabs_diff_Qlt_condition.
  split; intros [H1 H2]; split; lra.
Qed.

Lemma Qabs_bounds (x : Q) : x <= Qabs x /\ - x <= Qabs x.
Proof.
  split; [apply Qle_Qabs|]. rewrite <- Qabs_opp. apply Qle_Qabs.
Qed.

Ltac canonical_cases c :=
  destruct c as [| | | | |?]; simpl; try discriminate.

(** Two canonical targets are the same class or more than 0.2 mile apart. *)
Lemma canonical_far (a b : DistanceLabel) :
  canonical_label a = true -> canonical_label b = true ->
  a = b \/ getDistanceValue a + 0.2 <= getDistanceValue b
        \/ getDistanceValue b + 0.2 <= getDistanceValue a.
Proof.
  intros Ha Hb.
  destruct a, b; try discriminate; try (left; reflexivity); right;
    first [left; apply Qle_bool_iff; reflexivity
          | right; apply Qle_bool_iff; reflexivity].
Qed.

Lemma bands_disjoint (d : Q) (a b : DistanceLabel) :
  canonical_label a = true -> canonical_label b = true ->
  within_band d (getDistanceValue a) = true ->
  within_band d (getDistanceValue b) = true -> a = b.
Proof.
  intros Ha Hb Hda Hdb.
  destruct (canonical_far a b Ha Hb) as [->|Hfar]; [reflexivity|].
  apply within_band_true in Hda, Hdb.
  exfalso. lra.
Qed.

Lemma distanceLabel_cases (d : Q) :
  (distanceLabel d = Miles d /\
   forall c, canonical_label c = true -> within_band d (getDistanceValue c) = false)
  \/ (canonical_label (distanceLabel d) = true /\
      within_band d (getDistanceValue (distanceLabel d)) = true).
Proof.
  unfold distanceLabel.
  destruct (within_band d 26.2) eqn:E1; [right; auto|].
  destruct (within_band d 13.1) eqn:E2; [right; auto|].
  destruct (within_band d 3.1) eqn:E3; [right; auto|].
  destruct (within_band d 6.21371) eqn:E4; [right; auto|].
  destruct (within_band d 9.3) eqn:E5; [right; auto|].
  left. split; [reflexivity|]. intros c Hc. canonical_cases c; assumption.
Qed.

(** C4 (as amended): in the progression view a race whose distance lies
    within 0.1 mile of one of 26.2, 13.1, 6.21371, 9.3 or 3.1 miles gets
    that class, which is also the nearest canonical distance (the bands are
    disjoint); a race in no band is labelled by its raw mileage.  The
    SeasonStats race table ([getRaceCategory]) knows only the Marathon,
    Half and 5K bands and labels every other race "Other", including 10K
    and 15K races. *)
Theorem distance_classes (d : Q) :
  (forall c, canonical_label c = true ->
     within_band d (getDistanceValue c) = true -> distanceLabel d = c) /\
  (forall c, canonical_label c = true -> distanceLabel d = c ->
     Qabs (d - getDistanceValue c) < 0.1 /\
     forall c', canonical_label c' = true ->
       Qabs (d - getDistanceValue c) <= Qabs (d - getDistanceValue c')) /\
  ((forall c, canonical_label c = true -> within_band d (getDistanceValue c) = false) ->
     distanceLabel d = Miles d) /\
  getRaceCategory d =
    match distanceLabel d with
    | Marathon => "Marathon"%string
    | HalfMarathon => "Half"%string
    | FiveK => "5K"%string
    | _ => "Other"%string
    end.
Proof.
  split; [|split; [|split]].
  - intros c Hc Hband.
    destruct (distanceLabel_cases d) as [[_ Hnone]|[Hcan Hin]].
    + rewrite Hnone in Hband by exact Hc. discriminate.
    + exact (bands_disjoint d _ c Hcan Hc Hin Hband).
  - intros c Hc Hlab.
    destruct (distanceLabel_cases d) as [[Hm _]|[_ Hin]].
    + rewrite Hlab in Hm. rewrite Hm in Hc. discriminate.
    + rewrite Hlab in Hin. clear Hlab.
      assert (Hlt : Qabs (d - getDistanceValue c) < 0.1)
        by (unfold within_band in Hin; apply Qlt_bool_iff in Hin; exact Hin).
      split; [exact Hlt|].
      intros c' Hc'.
      destruct (canonical_far c c' Hc Hc') as [->|Hfar]; [apply Qle_refl|].
      apply within_band_true in Hin.
      destruct (Qabs_bounds (d - getDistanceValue c')). lra.
  - intro Hnone.
    destruct (distanceLabel_cases d) as [[Hm _]|[Hcan Hin]]; [exact Hm|].
    rewrite (Hnone _ Hcan) in Hin. discriminate.
  - unfold getRaceCategory, distanceLabel.
    destruct (within_band d 26.2); [reflexivity|].
    destruct (within_band d 13.1); [reflexivity|].
    destruct (within_band d 3.1); [reflexivity|].
    destruct (within_band d 6.21371); [reflexivity|].
    destruct (within_band d 9.3); reflexivity.
Qed.

(* ------------------------------------------------------------------ *)
(** ** C8: medal display *)

(** C8: for placements that are ranks (1 or more when present), both
    copies of the medal rule show gold for an overall podium finish
    whatever the divisional place, otherwise gold, silver or bronze for a
    divisional place of 1, 2 or 3, and no medal otherwise. *)
Theorem getMedalEmoji_policy (race : RawRace) :
  (forall p, overall_place race = Some p -> (1 <= p)%Z) ->
  getMedalEmoji_bib race = medal_spec race /\
  getMedalEmoji_season race = medal_spec race.
Proof.
  intro Hrank.
  unfold getMedalEmoji_bib, getMedalEmoji_season, medal_spec, isPodium, division_is.
  destruct (overall_place race) as [p|].
  - specialize (Hrank p eq_refl).
    destruct (p =? 0)%Z eqn:E0; [apply Z.eqb_eq in E0; lia|]. simpl.
    destruct (p <=? 3)%Z; destruct (division_place race) as [q|];
      try (destruct (q =? 1)%Z, (q =? 2)%Z, (q =? 3)%Z); split; reflexivity.
  - destruct (division_place race) as [q|];
      try (destruct (q =? 1)%Z, (q =? 2)%Z, (q =? 3)%Z); split; reflexivity.
Qed.

(* ------------------------------------------------------------------ *)
(** ** Calendar lemmas *)

Lemma dayNumber_addDays (t n : Z) : dayNumber (addDays t n) = (dayNumber t + n)%Z.
Proof. unfold dayNumber, addDays. apply Z.div_add. unfold ms_per_day. lia. Qed.

Lemma dayNumber_mul (d : Z) : dayNumber (d * ms_per_day) = d.
Proof. unfold dayNumber. apply Z.div_mul. unfold ms_per_day. lia. Qed.

Lemma startOfDay_bounds (t : Z) :
  (startOfDay t <= t < startOfDay t + ms_per_day)%Z.
Proof.
  unfold startOfDay, dayNumber, ms_per_day.
  pose proof (Z.div_mod t 86400000 ltac:(lia)).
  pose proof (Z.mod_pos_bound t 86400000 ltac:(lia)). lia.
Qed.

Lemma startOfDay_addDays (t n : Z) :
  startOfDay (addDays t n) = (startOfDay t + n * ms_per_day)%Z.
Proof. unfold startOfDay. rewrite dayNumber_addDays. lia. Qed.

Lemma startOfWeek_eq (t wso : Z) :
  (0 <= wso < 7)%Z ->
  startOfWeek t wso =
    ((dayNumber t - (dayNumber t + 4 - wso) mod 7) * ms_per_day)%Z.
Proof.
  intro Hw. unfold startOfWeek, getDay, startOfDay.
  rewrite dayNumber_addDays. f_equal.
  destruct (Z.ltb_spec ((dayNumber t + 4) mod 7) wso);
    Z.to_euclidean_division_equations; lia.
Qed.

Lemma getDay_startOfWeek (t wso : Z) :
  (0 <= wso < 7)%Z -> getDay (startOfWeek t wso) = wso.
Proof.
  intro Hw. rewrite (startOfWeek_eq t wso Hw). unfold getDay.
  rewrite dayNumber_mul. Z.to_euclidean_division_equations; lia.
Qed.

Lemma startOfDay_startOfWeek (t wso : Z) :
  (0 <= wso < 7)%Z -> startOfDay (startOfWeek t wso) = startOfWeek t wso.
Proof.
  intro Hw. rewrite (startOfWeek_eq t wso Hw). unfold startOfDay.
  rewrite dayNumber_mul. reflexivity.
Qed.

Lemma startOfWeek_bounds (t wso : Z) :
  (0 <= wso < 7)%Z ->
  (startOfWeek t wso <= t < addDays (startOfWeek t wso) 7)%Z.
Proof.
  intro Hw. rewrite (startOfWeek_eq t wso Hw).
  pose proof (startOfDay_bounds t) as Hb. unfold startOfDay in Hb.
  pose proof (Z.mod_pos_bound (dayNumber t + 4 - wso) 7 ltac:(lia)).
  unfold addDays. unfold ms_per_day in *. lia.
Qed.

Lemma startOfWeek_addDays (t wso k : Z) :
  (0 <= wso < 7)%Z ->
  startOfWeek (addDays t (7 * k)) wso = addDays (startOfWeek t wso) (7 * k).
Proof.
  intro Hw. rewrite !(startOfWeek_eq _ wso Hw), dayNumber_addDays.
  unfold addDays, ms_per_day. Z.to_euclidean_division_equations; lia.
Qed.

Lemma getDay_addDays_week (t k : Z) : getDay (addDays t (7 * k)) = getDay t.
Proof.
  unfold getDay. rewrite dayNumber_addDays.
  Z.to_euclidean_division_equations; lia.
Qed.

(** The last millisecond of a week that starts at midnight of its first
    day is one week later, minus 1. *)
Lemma endOfWeek_start (ws wso : Z) :
  (0 <= wso < 7)%Z -> getDay ws = wso -> startOfDay ws = ws ->
  endOfWeek ws wso = (ws + 7 * ms_per_day - 1)%Z.
Proof.
  intros Hw Hd Hs. unfold endOfWeek. rewrite Hd, Z.ltb_irrefl.
  rewrite startOfDay_addDays, Hs. unfold ms_per_day. lia.
Qed.

(** Every month has at least one day. *)
Lemma month_nonempty (y m : Z) :
  (0 <= m < 12)%Z -> (newDate y m 1 <= newDate y (m + 1) 0)%Z.
Proof.
  intro Hm. unfold newDate.
  apply Z.mul_le_mono_nonneg_r; [unfold ms_per_day; lia|].
  assert (m = 0 \/ m = 1 \/ m = 2 \/ m = 3 \/ m = 4 \/ m = 5 \/ m = 6 \/
          m = 7 \/ m = 8 \/ m = 9 \/ m = 10 \/ m = 11)%Z as Hc by lia.
  repeat destruct Hc as [-> | Hc]; subst; unfold days_from_civil; simpl;
    Z.to_euclidean_division_equations; lia.
Qed.

Lemma eachWeekOfInterval_spec (start end_ : Z) :
  (start <= end_)%Z ->
  exists n,
    eachWeekOfInterval start end_ =
      map (fun k => addDays (startOfWeek start 0) (7 * Z.of_nat k)) (seq 0 (S n)) /\
    addDays (startOfWeek start 0) (7 * Z.of_nat n) = startOfWeek end_ 0.
Proof.
  intro Hle. unfold eachWeekOfInterval.
  assert (Hd : (dayNumber start <= dayNumber end_)%Z)
    by (unfold dayNumber; apply Z.div_le_mono; [unfold ms_per_day; lia | exact Hle]).
  rewrite !(startOfWeek_eq _ 0 ltac:(lia)).
  set (S1 := (dayNumber start - (dayNumber start + 4 - 0) mod 7)%Z).
  set (S2 := (dayNumber end_ - (dayNumber end_ + 4 - 0) mod 7)%Z).
  assert (H7 : exists n0, (0 <= n0)%Z /\ S2 = (S1 + 7 * n0)%Z).
  { exists ((S2 - S1) / 7)%Z. unfold S1, S2.
    Z.to_euclidean_division_equations; split; lia. }
  destruct H7 as (n0 & Hn0 & HS).
  assert (Hcount : ((S2 * ms_per_day - S1 * ms_per_day) / (7 * ms_per_day) + 1)%Z = (n0 + 1)%Z).
  { f_equal. rewrite HS. unfold ms_per_day.
    replace ((S1 + 7 * n0) * 86400000 - S1 * 86400000)%Z with (n0 * (7 * 86400000))%Z by lia.
    apply Z.div_mul. lia. }
  rewrite Hcount.
  exists (Z.to_nat n0).
  replace (Z.to_nat (n0 + 1)) with (S (Z.to_nat n0)) by lia.
  split; [reflexivity|].
  unfold addDays. rewrite HS. rewrite Z2Nat.id by lia. unfold ms_per_day. lia.
Qed.

Lemma eachDayOfInterval_week (ws : Z) :
  getDay ws = 0%Z -> startOfDay ws = ws ->
  eachDayOfInterval ws (endOfWeek ws 0) = map (fun k => addDays ws (Z.of_nat k)) (seq 0 7).
Proof.
  intros Hd Hs. unfold eachDayOfInterval.
  rewrite (endOfWeek_start ws 0 ltac:(lia) Hd Hs), Hs.
  replace ((ws + 7 * ms_per_day - 1 - ws) / ms_per_day + 1)%Z with 7%Z.
  - reflexivity.
  - unfold ms_per_day.
    replace (ws + 7 * 86400000 - 1 - ws)%Z with (7 * 86400000 - 1)%Z by lia.
    reflexivity.
Qed.

Lemma bucket_of_nil : is_zero_bucket (bucket_of []).
Proof. repeat split; vm_compute; reflexivity. Qed.

Lemma month_bucket_of_nil : is_zero_bucket (month_bucket_of []).
Proof. repeat split; vm_compute; reflexivity. Qed.

Lemma map_fst_combine {A B : Type} (l1 : list A) (l2 : list B) :
  List.length l1 = List.length l2 -> map fst (combine l1 l2) = l1.
Proof.
  revert l2. induction l1 as [|a l1 IH]; intros [|b l2] H; simpl in *;
    try discriminate; [reflexivity|]. f_equal. apply IH. lia.
Qed.

Lemma map_snd_combine {A B : Type} (l1 : list A) (l2 : list B) :
  List.length l1 = List.length l2 -> map snd (combine l1 l2) = l2.
Proof.
  revert l2. induction l1 as [|a l1 IH]; intros [|b l2] H; simpl in *;
    try discriminate; [reflexivity|]. f_equal. apply IH. lia.
Qed.

Lemma weeklyData_shape (raw : list RawActivity) (y m : Z) :
  let weeks := eachWeekOfInterval (newDate y m 1) (newDate y (m + 1) 0) in
  map (fun '(i, _, _) => i) (weeklyData raw y m) = seq 0 (List.length weeks) /\
  map (fun '(_, w, _) => w) (weeklyData raw y m) = weeks.
Proof.
  intro weeks. unfold weeklyData. fold weeks.
  rewrite !map_map. split.
  - transitivity (map fst (combine (seq 0 (List.length weeks)) weeks)).
    + apply map_ext. intros [i w]. reflexivity.
    + apply map_fst_combine, length_seq.
  - transitivity (map snd (combine (seq 0 (List.length weeks)) weeks)).
    + apply map_ext. intros [i w]. reflexivity.
    + apply map_snd_combine, length_seq.
Qed.

Lemma seq_length_map {A B : Type} (f : A -> nat) (l : list A) (k : list B) :
  map f l = seq 0 (List.length k) -> List.length l = List.length k.
Proof.
  intro H. apply (f_equal (@List.length nat)) in H.
  rewrite length_map, length_seq in H. exact H.
Qed.

Lemma weeks_are_week_starts (y m ws : Z) :
  In ws (eachWeekOfInterval (newDate y m 1) (newDate y (m + 1) 0)) ->
  getDay ws = 0%Z /\ startOfDay ws = ws.
Proof.
  unfold eachWeekOfInterval. intro Hin. apply in_map_iff in Hin.
  destruct Hin as (k & <- & _).
  rewrite getDay_addDays_week, getDay_startOfWeek by lia. split; [reflexivity|].
  rewrite startOfDay_addDays, startOfDay_startOfWeek by lia.
  unfold addDays. lia.
Qed.

(** C5: every bucketed view returns one bucket per calendar period of the
    requested range, in chronological order, and a period without
    activities gives a bucket with zero runs, miles and hours and null
    paces.  Months of a year: InteractiveRunningChart's [monthlyData]
    and SeasonStats' [monthlyData] have the months 0..11 in order.  Weeks
    of a month: [weeklyData] is indexed 0, 1, ... and its week starts are
    the consecutive Sundays from the week of the first day of the month
    to the week of its last day.  Days of a week: for a week start (a
    Sunday at midnight, which every week of [weeklyData] is),
    [dailyData] has its seven consecutive days. *)
Theorem bucket_ranges_complete (raw : list RawActivity) (y : Z) :
  map (fun '(m, _, _) => m) (monthlyData raw y) = map Z.of_nat (seq 0 12) /\
  Forall (fun '(m, _, b) => chartMonthRunning raw y m = [] -> is_zero_bucket b)
    (monthlyData raw y) /\
  map smMonthNumber (seasonMonthlyData raw y) = map Z.of_nat (seq 0 12) /\
  Forall (fun e => seasonMonthRunning raw y (smMonthNumber e) = [] ->
                   is_zero_bucket (smBucket e) /\ smAvgPace e = None)
    (seasonMonthlyData raw y) /\
  (forall m, (0 <= m < 12)%Z ->
     let first := startOfWeek (newDate y m 1) 0 in
     map (fun '(i, _, _) => i) (weeklyData raw y m)
       = seq 0 (List.length (weeklyData raw y m)) /\
     (exists n,
        map (fun '(_, w, _) => w) (weeklyData raw y m)
          = map (fun k => addDays first (7 * Z.of_nat k)) (seq 0 (S n)) /\
        addDays first (7 * Z.of_nat n) = startOfWeek (newDate y (m + 1) 0) 0) /\
     (first <= newDate y m 1 < addDays first 7)%Z /\
     Forall (fun '(_, w, b) => weekActivities raw y m w = [] -> is_zero_bucket b)
       (weeklyData raw y m)) /\
  (forall m ws, In ws (map (fun '(_, w, _) => w) (weeklyData raw y m)) ->
     getDay ws = 0%Z /\ startOfDay ws = ws) /\
  (forall ws, getDay ws = 0%Z -> startOfDay ws = ws ->
     map fst (dailyData raw ws) = map (fun k => addDays ws (Z.of_nat k)) (seq 0 7) /\
     Forall (fun '(d, b) => dayActivities raw ws d = [] -> is_zero_bucket b)
       (dailyData raw ws)).
Proof.
  split; [unfold monthlyData; rewrite map_map; reflexivity|].
  split.
  { unfold monthlyData. apply Forall_map, Forall_forall. intros month _ H.
    rewrite H. apply month_bucket_of_nil. }
  split; [unfold seasonMonthlyData; rewrite map_map; reflexivity|].
  split.
  { unfold seasonMonthlyData. apply Forall_map, Forall_forall. intros month _. simpl.
    intro H. rewrite H. split; [apply bucket_of_nil|reflexivity]. }
  split.
  { intros m Hm first. destruct (weeklyData_shape raw y m) as [Hi Hw].
    split.
    { rewrite Hi. f_equal. symmetry. exact (seq_length_map (fun '(i, _, _) => i) (weeklyData raw y m)
      (eachWeekOfInterval (newDate y m 1) (newDate y (m + 1) 0)) Hi). }
    split.
    { destruct (eachWeekOfInterval_spec _ _ (month_nonempty y m Hm)) as (n & Hn & Hl).
      exists n. rewrite Hw. split; [exact Hn | exact Hl]. }
    split; [apply startOfWeek_bounds; lia|].
    unfold weeklyData. apply Forall_map, Forall_forall. intros [i w] _ H.
    rewrite H. apply bucket_of_nil. }
  split.
  { intros m ws Hin. destruct (weeklyData_shape raw y m) as [_ Hw].
    rewrite Hw in Hin. exact (weeks_are_week_starts y m ws Hin). }
  intros ws Hd Hs. split.
  - unfold dailyData. rewrite map_map. simpl. rewrite map_id.
    apply eachDayOfInterval_week; assumption.
  - unfold dailyData. apply Forall_map, Forall_forall. intros d _ H.
    rewrite H. apply bucket_of_nil.
Qed.

(* ------------------------------------------------------------------ *)
(** ** The last four weeks of TrainingSummaryChart *)

Lemma weeklySummary_week (acts : list StravaActivity) (now : Z) (i : nat) :
  week (weeklySummary acts now i) = addDays (startOfWeek now 1) (- 7 * Z.of_nat i).
Proof.
  change (week (weeklySummary acts now i)) with (startOfWeek (subWeeks now (Z.of_nat i)) 1).
  unfold subWeeks.
  replace (- 7 * Z.of_nat i)%Z with (7 * - Z.of_nat i)%Z by lia.
  apply startOfWeek_addDays. lia.
Qed.

Lemma weeklySummary_runCount (acts : list StravaActivity) (now : Z) (i : nat) :
  runCount (weeklySummary acts now i) =
    List.length (filter (fun a => match sStartDate a with
                                  | Some d => (week (weeklySummary acts now i) <=? d)%Z &&
                                              (d <? addDays (week (weeklySummary acts now i)) 7)%Z
                                  | None => false
                                  end) acts).
Proof.
  assert (Hw := weeklySummary_week acts now i).
  set (w := week (weeklySummary acts now i)) in *.
  change (runCount (weeklySummary acts now i)) with
    (List.length (filter (fun act => match sStartDate act with
                        | Some d => (w <=? d)%Z && (d <=? endOfWeek w 1)%Z
                        | None => false end) acts)).
  assert (Hd : getDay w = 1%Z).
  { rewrite Hw. replace (- 7 * Z.of_nat i)%Z with (7 * - Z.of_nat i)%Z by lia.
    rewrite getDay_addDays_week. apply getDay_startOfWeek. lia. }
  assert (Hs : startOfDay w = w).
  { apply startOfDay_startOfWeek. lia. }
  set (e := endOfWeek w 1).
  assert (He : e = (w + 7 * ms_per_day - 1)%Z) by exact (endOfWeek_start w 1 ltac:(lia) Hd Hs).
  f_equal. apply filter_ext. intros a. destruct (sStartDate a) as [d|]; [|reflexivity].
  f_equal. rewrite He. unfold addDays.
  destruct (Z.leb_spec d (w + 7 * ms_per_day - 1)), (Z.ltb_spec d (w + 7 * ms_per_day));
    reflexivity || lia.
Qed.

(** C9: [generateWeeklySummaries] returns four summaries, one per
    Monday-starting week: the week [W] containing [now] and the three
    weeks before it, oldest first, labelled "3 weeks ago", "2 weeks ago",
    "Last Week" and "This Week".  [W] is a Monday at midnight with
    [W <= now < W + 7 days], and each summary counts the activities that
    start within its seven days. *)
Theorem generateWeeklySummaries_weeks (acts : list StravaActivity) (now : Z) :
  let W := startOfWeek now 1 in
  let out := generateWeeklySummaries acts now in
  map week out = [addDays W (-21); addDays W (-14); addDays W (-7); W] /\
  map weekLabel out = ["3 weeks ago"; "2 weeks ago"; "Last Week"; "This Week"]%string /\
  getDay W = 1%Z /\ startOfDay W = W /\ (W <= now < addDays W 7)%Z /\
  Forall (fun s =>
            runCount s =
              List.length (filter (fun a => match sStartDate a with
                                            | Some d => (week s <=? d)%Z && (d <? addDays (week s) 7)%Z
                                            | None => false
                                            end) acts)) out.
Proof.
  cbv zeta. unfold generateWeeklySummaries.
  split.
  { cbn [map]. rewrite !weeklySummary_week.
    replace (addDays (startOfWeek now 1) (- 7 * Z.of_nat 0)) with (startOfWeek now 1)
      by (unfold addDays; lia).
    reflexivity. }
  split; [reflexivity|].
  split; [apply getDay_startOfWeek; lia|].
  split; [apply startOfDay_startOfWeek; lia|].
  split; [apply startOfWeek_bounds; lia|].
  apply Forall_map, Forall_forall. intros i _. apply weeklySummary_runCount.
Qed.

(* ------------------------------------------------------------------ *)
(** ** Reported paces *)

Lemma round1_nonneg (x : Q) : 0 <= x -> 0 <= round1 x.
Proof.
  intro Hx. unfold round1.
  apply Qle_shift_div_l; [reflexivity|].
  rewrite Qmult_0_l. change 0 with (inject_Z 0). rewrite <- Zle_Qle.
  change 0%Z with (Qfloor 0).
  apply Qfloor_resp_le.
  apply (Qle_trans _ (x * 10)).
  - apply (Qmult_le_0_compat x 10 Hx). discriminate.
  - rewrite <- (Qplus_0_r (x * 10)) at 1. apply Qplus_le_r. discriminate.
Qed.

Lemma report_pace_of (h m : Q) :
  0 <= h -> pace_reported h m (report_pace (pace_of h m)).
Proof.
  intro Hh. unfold pace_of.
  destruct (Qlt_bool 0 m) eqn:E.
  - apply Qlt_bool_iff in E.
    assert (Hm0 : Qeq_bool m 0 = false).
    { apply not_true_iff_false. intro Heq. apply Qeq_bool_iff in Heq.
      rewrite Heq in E. discriminate. }
    unfold js_div. rewrite Hm0. simpl.
    destruct (Qeq_bool (h * 60 / m) 0) eqn:Ez; simpl.
    + left. split; [right|reflexivity].
      apply Qeq_bool_iff in Ez.
      destruct (Qle_lt_or_eq 0 h Hh) as [Hlt|Heq]; [|symmetry; exact Heq].
      exfalso. assert (Hp : 0 < h * 60 / m).
      { apply Qlt_shift_div_l; [exact E|]. rewrite Qmult_0_l.
        apply (Qmult_lt_0_compat h 60 Hlt). reflexivity. }
      rewrite Ez in Hp. discriminate.
    + right. split; [exact E|]. split; [|reflexivity].
      intro Heq. apply not_true_iff_false in Ez. apply Ez, Qeq_bool_iff.
      rewrite Heq. unfold Qdiv. ring.
  - left. split; [left; apply Qlt_bool_false; exact E|reflexivity].
Qed.

Lemma pace_reported_nonneg (h m : Q) (p : option jsnum) :
  0 <= h -> pace_reported h m p -> pace_nonneg p.
Proof.
  intros Hh [[_ ->]|(Hm & _ & ->)]; [left; reflexivity|].
  right. eexists. split; [reflexivity|]. apply round1_nonneg.
  apply Qle_shift_div_l; [exact Hm|]. rewrite Qmult_0_l.
  apply (Qmult_le_0_compat h 60 Hh). discriminate.
Qed.


Lemma fold_hours_nonneg (acts : list Act) (s : Q) :
  0 <= s -> Forall (fun a => 0 <= actHours a) acts ->
  0 <= fold_left (fun sum act => sum + actHours act) acts s.
Proof.
  revert s. induction acts as [|a acts IH]; intros s Hs Hall; simpl; [exact Hs|].
  inversion Hall; subst. apply IH; [|assumption].
  rewrite <- (Qplus_0_r 0). apply Qplus_le_compat; assumption.
Qed.

Lemma Forall_filter_nonneg (f : Act -> bool) (acts : list Act) :
  Forall (fun a => 0 <= actHours a) acts ->
  Forall (fun a => 0 <= actHours a) (filter f acts).
Proof.
  rewrite !Forall_forall. intros H a Hin. apply filter_In in Hin. apply H, Hin.
Qed.

Lemma bucket_of_paces (acts : list Act) :
  Forall (fun a => 0 <= actHours a) acts ->
  bucket_paces_reported acts (bucket_of acts) /\
  bucket_paces_reported acts (month_bucket_of acts) /\
  bucket_paces_ok (bucket_of acts) /\ bucket_paces_ok (month_bucket_of acts).
Proof.
  intro Hall.
  assert (Ht : 0 <= sumHours (trailActs acts))
    by (apply fold_hours_nonneg; [discriminate|apply Forall_filter_nonneg, Hall]).
  assert (Hr : 0 <= sumHours (roadActs acts))
    by (apply fold_hours_nonneg; [discriminate|apply Forall_filter_nonneg, Hall]).
  pose proof (report_pace_of _ (sumDistance (trailActs acts)) Ht) as Pt.
  pose proof (report_pace_of _ (sumDistance (roadActs acts)) Hr) as Pr.
  split; [split; [exact Pt|exact Pr]|].
  split; [split; [exact Pt|exact Pr]|].
  split; split; [exact (pace_reported_nonneg _ _ _ Ht Pt)|exact (pace_reported_nonneg _ _ _ Hr Pr)
                |exact (pace_reported_nonneg _ _ _ Ht Pt)|exact (pace_reported_nonneg _ _ _ Hr Pr)].
Qed.

Lemma runningActs_nonneg (raw : list RawActivity) :
  Forall (fun a => 0 <= movingTime a) raw ->
  Forall (fun a => 0 <= actHours a) (runningActs raw).
Proof.
  intro H. unfold runningActs. apply Forall_filter_nonneg.
  apply Forall_map. rewrite Forall_forall in *. intros a Hin.
  apply filter_In in Hin. simpl. unfold activityHours.
  apply Qle_shift_div_l; [reflexivity|]. rewrite Qmult_0_l. apply H, Hin.
Qed.

(** C10 (amended): with non-negative moving times, the trail and road
    paces of every bucket of the yearly, monthly, weekly and daily views
    of InteractiveRunningChart and of SeasonStats' monthly view are null
    when the subset's mileage is not positive or its hours are 0, and
    otherwise the subset's hours * 60 / miles rounded to one decimal;
    so each pace is null or a finite number >= 0. *)
Theorem bucket_paces_null_or_nonneg (raw : list RawActivity) :
  Forall (fun a => 0 <= movingTime a) raw ->
  Forall (fun '(year, b) => bucket_paces_reported (yearRunning raw year) b /\ bucket_paces_ok b)
    (yearlyData raw) /\
  (forall y, Forall (fun '(m, _, b) =>
                       bucket_paces_reported (chartMonthRunning raw y m) b /\ bucket_paces_ok b)
               (monthlyData raw y)) /\
  (forall y m, Forall (fun '(_, w, b) =>
                         bucket_paces_reported (weekActivities raw y m w) b /\ bucket_paces_ok b)
                 (weeklyData raw y m)) /\
  (forall ws, Forall (fun '(d, b) =>
                        bucket_paces_reported (dayActivities raw ws d) b /\ bucket_paces_ok b)
                (dailyData raw ws)) /\
  (forall y, Forall (fun e => bucket_paces_reported (seasonMonthRunning raw y (smMonthNumber e))
                                (smBucket e) /\ bucket_paces_ok (smBucket e))
               (seasonMonthlyData raw y)).
Proof.
  intro Hraw. pose proof (runningActs_nonneg raw Hraw) as Hr.
  split.
  { unfold yearlyData. apply Forall_map, Forall_forall. intros year _.
    destruct (bucket_of_paces (yearRunning raw year)) as (H1 & _ & H3 & _);
      [apply Forall_filter_nonneg, Hr|].
    split; assumption. }
  split.
  { intro y. unfold monthlyData. apply Forall_map, Forall_forall. intros month _.
    destruct (bucket_of_paces (chartMonthRunning raw y month)) as (_ & H2 & _ & H4);
      [apply Forall_filter_nonneg, Forall_filter_nonneg, Hr|].
    split; assumption. }
  split.
  { intros y m. unfold weeklyData. apply Forall_map, Forall_forall. intros [i w] _.
    destruct (bucket_of_paces (weekActivities raw y m w)) as (H1 & _ & H3 & _);
      [apply Forall_filter_nonneg, Forall_filter_nonneg, Hr|].
    split; assumption. }
  split.
  { intro ws. unfold dailyData. apply Forall_map, Forall_forall. intros d _.
    destruct (bucket_of_paces (dayActivities raw ws d)) as (H1 & _ & H3 & _);
      [apply Forall_filter_nonneg, Forall_filter_nonneg, Hr|].
    split; assumption. }
  intro y. unfold seasonMonthlyData. apply Forall_map, Forall_forall. intros month _.
  simpl.
  destruct (bucket_of_paces (seasonMonthRunning raw y month)) as (H1 & _ & H3 & _);
    [apply Forall_filter_nonneg, Forall_filter_nonneg, Hr|].
  split; assumption.
Qed.

(* ------------------------------------------------------------------ *)
(** ** Season average pace *)

(** C6: SeasonStats' season-level [avgPace] guards on the total hours,
    not on the total mileage.  A 2024 whose only run has 30 minutes of
    moving time and a recorded distance of 0 gets [Infinity] as its
    average pace, while the monthly view of the same run, which guards on
    the mileage, reports null for January. *)
Theorem runningStats_avgPace_zero_miles :
  runningStats_avgPace [tread] 2024 = JPosInf /\
  sumDistance (yearRunning [tread] 2024) == 0 /\
  0 < sumHours (yearRunning [tread] 2024) /\
  option_map smAvgPace (nth_error (seasonMonthlyData [tread] 2024) 0) = Some None.
Proof.
  split; [vm_compute; reflexivity|].
  split; [vm_compute; reflexivity|].
  split; [apply Qlt_bool_iff; vm_compute; reflexivity|].
  vm_compute. reflexivity.
Qed.

(* ------------------------------------------------------------------ *)
(** ** Counterexamples *)

(** C2: the minimum over all rows of the class is the "N/A" row, whose
    time converts to 0; [bestTimes] skips it (its guard keeps positive
    times only) and returns the 3:30:00 race. *)
Lemma bestTimes_skips_zero_time :
  timeToSeconds_bib (raceTime raceB) = Some 0%Z /\
  bestTimes_bib [raceA; raceB] = [("Marathon"%string, (raceA, Some 12600%Z))].
Proof. split; vm_compute; reflexivity. Qed.

(** C4: a 6.2-mile race is in the 10K band, yet SeasonStats files it as
    "Other"; so is a 20-mile race, rather than by its mileage. *)
Lemma getRaceCategory_other :
  within_band 6.2 6.21371 = true /\ distanceLabel 6.2 = TenK /\
  getRaceCategory 6.2 = "Other"%string /\
  distanceLabel 20 = Miles 20 /\ getRaceCategory 20 = "Other"%string.
Proof. repeat split; vm_compute; reflexivity. Qed.

(** C7: three BibBook fields that are not numbers give NaN, not 0; in
    SeasonStats a date-time outside 1900 is split on ":" as a whole, so
    its first field "2020-01-01T03" is NaN, and a 1900 time with two
    fields gives NaN, not 0. *)
Lemma timeToSeconds_nan :
  timeToSeconds_bib "a:b:c" = None /\
  timeToSeconds_season "2020-01-01T03:30:00" = JNaN /\
  timeToSeconds_season "1900-01-01T3:30" = JNaN.
Proof. vm_compute. repeat split. Qed.

(** C10: a 10-mile trail run with 24 seconds of moving time has a pace of
    0.04 min/mile, which rounds to 0 and is reported as 0, not null. *)
Lemma trailPace_rounds_to_zero :
  exists q, option_map (fun '(_, _, b) => trailPace b) (nth_error (monthlyData [glitch] 2024) 0)
              = Some (Some (JFin q)) /\ q == 0.
Proof. eexists. split; [vm_compute; reflexivity|reflexivity]. Qed.

(* ------------------------------------------------------------------ *)
(** ** Instances of the theorems *)

Lemma isTrailRun_spec_witness :
  0 <= activityDistance glitch /\
  isTrailRun glitch =
    classifyTerrain_spec (activityDistance glitch) (elevationGain glitch)
                         (dirtDistance glitch / meters_per_mile).
Proof.
  assert (H : 0 <= activityDistance glitch) by (apply Qle_bool_iff; vm_compute; reflexivity).
  split; [exact H|]. exact (proj1 (isTrailRun_spec glitch H)).
Defined.

Lemma timeToSeconds_cases_witness :
  timeToSeconds_bib "3:30:00" = Some (3 * 3600 + 30 * 60 + 0)%Z /\
  timeToSeconds_season "1900-01-01T03:30:00" = JFin (inject_Z (3 * 3600 + 30 * 60 + 0)).
Proof.
  destruct (timeToSeconds_cases "3:30:00") as ((_ & Hb & _) & _).
  destruct (timeToSeconds_cases "1900-01-01T03:30:00") as (_ & (_ & Hs & _) & Hd).
  split.
  - apply (Hb "3"%string "30"%string "00"%string); [discriminate | vm_compute; reflexivity
        | vm_compute; reflexivity | vm_compute; reflexivity | vm_compute; reflexivity].
  - destruct (Hs ltac:(discriminate) ltac:(discriminate) ltac:(vm_compute; reflexivity))
      as [Hf _].
    rewrite (Hf "03"%string "30"%string "00"%string [] ltac:(vm_compute; reflexivity)).
    destruct (Hd "03"%string "30"%string "00"%string
                 ltac:(vm_compute; reflexivity) ltac:(vm_compute; reflexivity)
                 ltac:(vm_compute; reflexivity)) as [_ Hn].
    rewrite Hn. reflexivity.
Defined.

Lemma bestOf_first_minimum_witness :
  (timeToSeconds_bib (raceTime raceA) = Some 12600%Z /\ (0 < 12600)%Z) /\
  exists best tb pre post,
    bestOf timeToSeconds_bib [raceA; raceB] = Some (best, Some tb) /\
    [raceA; raceB] = pre ++ best :: post /\
    timeToSeconds_bib (raceTime best) = Some tb /\ (0 < tb)%Z /\
    Forall (slower timeToSeconds_bib tb) pre /\ Forall (not_faster timeToSeconds_bib tb) post.
Proof.
  assert (H1 : timeToSeconds_bib (raceTime raceA) = Some 12600%Z) by (vm_compute; reflexivity).
  split; [split; [exact H1|lia]|].
  exact (bestOf_first_minimum timeToSeconds_bib raceA [raceB] 12600 H1 ltac:(lia)).
Defined.

Lemma raceProgressData_running_min_witness :
  exists ri rj,
    nth_error (raceProgressData [raceC3; raceA; raceC1] Marathon) 1 = Some ri /\
    nth_error (raceProgressData [raceC3; raceA; raceC1] Marathon) 2 = Some rj /\
    (personalBest rj <= personalBest ri)%Z.
Proof.
  destruct (raceProgressData_running_min [raceC3; raceA; raceC1] Marathon) as [_ H].
  eexists. eexists. split; [vm_compute; reflexivity|]. split; [vm_compute; reflexivity|].
  apply (H 1%nat 2%nat); [lia | vm_compute; reflexivity | vm_compute; reflexivity].
Defined.

Lemma distance_classes_witness :
  canonical_label TenK = true /\ within_band 6.2 (getDistanceValue TenK) = true /\
  distanceLabel 6.2 = TenK.
Proof.
  assert (H1 : canonical_label TenK = true) by reflexivity.
  assert (H2 : within_band 6.2 (getDistanceValue TenK) = true) by (vm_compute; reflexivity).
  split; [exact H1|]. split; [exact H2|].
  destruct (distance_classes 6.2) as (H & _). exact (H TenK H1 H2).
Defined.

Lemma bucket_ranges_complete_witness :
  (0 <= 5 < 12)%Z /\
  map (fun '(i, _, _) => i) (weeklyData [] 2024 5) = seq 0 (List.length (weeklyData [] 2024 5)).
Proof.
  assert (Hm : (0 <= 5 < 12)%Z) by lia.
  split; [exact Hm|].
  destruct (bucket_ranges_complete [] 2024) as (_ & _ & _ & _ & Hw & _).
  exact (proj1 (Hw 5%Z Hm)).
Defined.

Lemma getMedalEmoji_policy_witness :
  (forall p, overall_place raceD = Some p -> (1 <= p)%Z) /\
  getMedalEmoji_bib raceD = medal_spec raceD /\
  getMedalEmoji_season raceD = medal_spec raceD.
Proof.
  assert (H : forall p, overall_place raceD = Some p -> (1 <= p)%Z).
  { intros p Hp. vm_compute in Hp. injection Hp as <-. lia. }
  split; [exact H|]. exact (getMedalEmoji_policy raceD H).
Defined.

Lemma bucket_paces_null_or_nonneg_witness :
  Forall (fun a => 0 <= movingTime a) [glitch] /\
  Forall (fun '(m, _, b) =>
            bucket_paces_reported (chartMonthRunning [glitch] 2024 m) b /\ bucket_paces_ok b)
    (monthlyData [glitch] 2024).
Proof.
  assert (H : Forall (fun a => 0 <= movingTime a) [glitch]).
  { constructor; [apply Qle_bool_iff; vm_compute; reflexivity|constructor]. }
  split; [exact H|].
  destruct (bucket_paces_null_or_nonneg [glitch] H) as (_ & Hm & _).
  exact (Hm 2024%Z).
Defined.

(* ------------------------------------------------------------------ *)
(** ** Further properties: PerformanceLab *)
(* ------------------------------------------------------------------ *)
(** ** Decimal strings and [parseInt] *)

Lemma digit_value_char (d : nat) :
  (d < 10)%nat -> digit_value (ascii_of_nat (48 + d)) = Some (Z.of_nat d).
Proof. intro H. do 10 (destruct d as [|d]; [reflexivity|]). lia. Qed.

Lemma digit_char_not (d : nat) (c : ascii) :
  (d < 10)%nat -> (57 < nat_of_ascii c)%nat -> char_eqb (ascii_of_nat (48 + d)) c = false.
Proof.
  intros Hd Hc. unfold char_eqb. destruct (ascii_dec _ c) as [E|]; [|reflexivity].
  exfalso. subst c. rewrite nat_ascii_embedding in Hc by lia. lia.
Qed.

Lemma digits_of_nat_S (f n : nat) (acc : string) :
  digits_of_nat (S f) n acc =
    if (n <? 10)%nat then String (ascii_of_nat (48 + n mod 10)) acc
    else digits_of_nat f (n / 10) (String (ascii_of_nat (48 + n mod 10)) acc).
Proof. reflexivity. Qed.

Lemma read_digits_cons (radix : Z) (c : ascii) (r : string) (a v : Z) (seen : bool) :
  digit_value c = Some v -> (v < radix)%Z ->
  read_digits radix (String c r) a seen = read_digits radix r (a * radix + v)%Z true.
Proof.
  intros Hc Hv. cbn [read_digits]. rewrite Hc.
  destruct (Z.ltb_spec v radix); [reflexivity|lia].
Qed.

Lemma includes_char_cons (c x : ascii) (r : string) :
  includes_char c (String x r) = char_eqb x c || includes_char c r.
Proof. reflexivity. Qed.

Lemma read_digits_digits (f n : nat) (acc : string) :
  (n < f)%nat ->
  read_digits 10 (digits_of_nat f n acc) 0 false = read_digits 10 acc (Z.of_nat n) true.
Proof.
  revert n acc. induction f as [|f IH]; intros n acc Hn; [lia|].
  rewrite digits_of_nat_S.
  assert (Hm : (n mod 10 < 10)%nat) by (apply Nat.mod_upper_bound; lia).
  destruct (Nat.ltb_spec n 10) as [Hlt|Hge].
  - rewrite (read_digits_cons _ _ _ _ _ _ (digit_value_char _ Hm)) by lia.
    rewrite Nat.mod_small by lia. reflexivity.
  - rewrite IH by (apply Nat.Div0.div_lt_upper_bound; lia).
    rewrite (read_digits_cons _ _ _ _ _ _ (digit_value_char _ Hm)) by lia.
    f_equal. pose proof (Nat.div_mod_eq n 10). lia.
Qed.

Lemma digits_head (f n : nat) (acc : string) :
  (n < f)%nat ->
  exists d r, digits_of_nat f n acc = String (ascii_of_nat (48 + d)) r /\ (d < 10)%nat /\
              (d = 0%nat -> n = 0%nat /\ r = acc).
Proof.
  revert n acc. induction f as [|f IH]; intros n acc Hn; [lia|].
  rewrite digits_of_nat_S.
  destruct (Nat.ltb_spec n 10) as [Hlt|Hge].
  - exists (n mod 10), acc. rewrite Nat.mod_small by lia. repeat split; lia.
  - destruct (IH (n / 10)%nat (String (ascii_of_nat (48 + n mod 10)) acc)) as (d & r & E & Hd & H0);
      [apply Nat.Div0.div_lt_upper_bound; lia|].
    exists d, r. split; [exact E|]. split; [exact Hd|].
    intro Hz. destruct (H0 Hz) as [Hq _]. exfalso.
    pose proof (Nat.div_mod_eq n 10). pose proof (Nat.mod_upper_bound n 10). lia.
Qed.

Lemma includes_char_digits (c : ascii) (f n : nat) (acc : string) :
  (57 < nat_of_ascii c)%nat -> (n < f)%nat ->
  includes_char c (digits_of_nat f n acc) = includes_char c acc.
Proof.
  intro Hc. revert n acc. induction f as [|f IH]; intros n acc Hn; [lia|].
  rewrite digits_of_nat_S.
  assert (Hm : (n mod 10 < 10)%nat) by (apply Nat.mod_upper_bound; lia).
  destruct (Nat.ltb_spec n 10).
  - rewrite includes_char_cons, (digit_char_not _ _ Hm Hc). reflexivity.
  - rewrite IH by (apply Nat.Div0.div_lt_upper_bound; lia).
    rewrite includes_char_cons, (digit_char_not _ _ Hm Hc). reflexivity.
Qed.

Lemma parseInt_decimal (d : nat) (r : string) :
  (d < 10)%nat ->
  (d = 0%nat -> r = EmptyString) ->
  parseInt (String (ascii_of_nat (48 + d)) r) = read_digits 10 (String (ascii_of_nat (48 + d)) r) 0 false.
Proof.
  intros Hd H0.
  assert (Hopt : forall o : option Z, option_map (fun v => (1 * v)%Z) o = o)
    by (intros [[|p|p]|]; reflexivity).
  destruct d as [|d]; [rewrite (H0 eq_refl); reflexivity|].
  do 9 (destruct d as [|d]; [apply Hopt|]). lia.
Qed.

Lemma parseInt_string_of_nat (k : nat) : parseInt (string_of_nat k) = Some (Z.of_nat k).
Proof.
  unfold string_of_nat.
  destruct (digits_head (S k) k EmptyString ltac:(lia)) as (d & r & E & Hd & H0).
  rewrite E, parseInt_decimal by (auto; intro Hz; apply (H0 Hz)).
  rewrite <- E, read_digits_digits by lia. reflexivity.
Qed.

Lemma string_of_nat_nonempty (k : nat) : string_of_nat k <> EmptyString.
Proof.
  unfold string_of_nat. destruct (digits_head (S k) k EmptyString ltac:(lia)) as (d & r & E & _).
  rewrite E. discriminate.
Qed.

Lemma includes_char_string_of_nat (c : ascii) (k : nat) :
  (57 < nat_of_ascii c)%nat -> includes_char c (string_of_nat k) = false.
Proof. intro Hc. unfold string_of_nat. rewrite includes_char_digits by (auto; lia). reflexivity. Qed.

(** The two-digit fields of [formatTime]. *)
Lemma pad_field (k : nat) :
  (k < 60)%nat ->
  parseInt (padStart2 (string_of_nat k)) = Some (Z.of_nat k) /\
  includes_char ":"%char (padStart2 (string_of_nat k)) = false.
Proof. intro H. do 60 (destruct k as [|k]; [split; vm_compute; reflexivity|]). lia. Qed.

Lemma split_on_no_sep (c : ascii) (s : string) :
  includes_char c s = false -> split_on c s = [s].
Proof.
  induction s as [|x s IH]; simpl; [reflexivity|].
  intro H. apply orb_false_iff in H as [Hx Hs]. rewrite Hx, (IH Hs). reflexivity.
Qed.

Lemma split_on_app_sep (c : ascii) (s1 s2 : string) :
  includes_char c s1 = false ->
  split_on c (s1 ++ String c s2) = s1 :: split_on c s2.
Proof.
  induction s1 as [|x s1 IH]; simpl; intro H.
  - unfold char_eqb. destruct (ascii_dec c c); [reflexivity|congruence].
  - apply orb_false_iff in H as [Hx Hs]. rewrite Hx, (IH Hs). reflexivity.
Qed.

Lemma string_of_Z_nonneg (z : Z) : (0 <= z)%Z -> string_of_Z z = string_of_nat (Z.to_nat z).
Proof. intro H. unfold string_of_Z. destruct (Z.ltb_spec z 0); [lia|reflexivity]. Qed.

Lemma pad_field_Z (z : Z) :
  (0 <= z < 60)%Z ->
  parseInt (padStart2 (string_of_Z z)) = Some z /\
  includes_char ":"%char (padStart2 (string_of_Z z)) = false.
Proof.
  intro H. rewrite string_of_Z_nonneg by lia.
  destruct (pad_field (Z.to_nat z)) as [H1 H2]; [lia|].
  rewrite Z2Nat.id in H1 by lia. auto.
Qed.

(** PerformanceLab [formatTime] and [timeToSeconds] (l. 381-396): for a
    non-negative whole number of seconds, reading back the formatted
    [h:mm:ss] string gives the number again. *)
Lemma formatTime_trend_roundtrip (n : Z) :
  (0 <= n)%Z -> timeToSeconds_trend (formatTime_trend n) = Some n.
Proof.
  intro Hn. unfold formatTime_trend.
  rewrite (Z.rem_mod_nonneg n 3600), (Z.rem_mod_nonneg n 60) by lia.
  pose proof (Z.mod_pos_bound n 3600 ltac:(lia)).
  assert (Hm : (0 <= (n mod 3600) / 60 < 60)%Z) by (split; [apply Z.div_pos|apply Z.div_lt_upper_bound]; lia).
  assert (Hs : (0 <= n mod 60 < 60)%Z) by (apply Z.mod_pos_bound; lia).
  destruct (pad_field_Z _ Hm) as [Pm Im]. destruct (pad_field_Z _ Hs) as [Ps Is].
  assert (Hh : (0 <= n / 3600)%Z) by (apply Z.div_pos; lia).
  rewrite (string_of_Z_nonneg (n / 3600)) by exact Hh.
  set (hs := string_of_nat (Z.to_nat (n / 3600))).
  set (ms := padStart2 (string_of_Z (n mod 3600 / 60))) in *.
  set (ss := padStart2 (string_of_Z (n mod 60))) in *.
  assert (Ih : includes_char ":"%char hs = false) by (apply includes_char_string_of_nat; vm_compute; lia).
  assert (Ph : parseInt hs = Some (n / 3600)%Z)
    by (unfold hs; rewrite parseInt_string_of_nat, Z2Nat.id by exact Hh; reflexivity).
  assert (Hne : hs <> EmptyString) by apply string_of_nat_nonempty.
  unfold timeToSeconds_trend.
  destruct (hs ++ ":" ++ ms ++ ":" ++ ss)%string eqn:E.
  { destruct hs; [congruence|discriminate]. }
  rewrite <- E.
  change (":" ++ ms ++ ":" ++ ss)%string with (String ":" (ms ++ String ":" ss)).
  rewrite split_on_app_sep by exact Ih.
  rewrite split_on_app_sep by exact Im.
  rewrite split_on_no_sep by exact Is.
  unfold hms_seconds. rewrite Ph, Pm, Ps. f_equal.
  pose proof (Z.div_mod n 3600 ltac:(lia)). pose proof (Z.div_mod (n mod 3600) 60 ltac:(lia)).
  assert (n mod 60 = (n mod 3600) mod 60)%Z.
  { replace 3600%Z with (60 * 60)%Z by reflexivity. rewrite Z.rem_mul_r by lia. 
    rewrite Z.mul_comm. rewrite Z.mod_add by lia. rewrite Z.mod_mod by lia. reflexivity. }
  lia.
Qed.

Lemma formatTime_trend_roundtrip_witness :
  (0 <= 8053)%Z /\ timeToSeconds_trend (formatTime_trend 8053) = Some 8053%Z.
Proof. split; [lia|]. apply formatTime_trend_roundtrip. lia. Defined.

Lemma insert_by_date_perm (x : RawRace * Z) (l : list (RawRace * Z)) :
  Permutation (insert_by_date x l) (x :: l).
Proof.
  induction l as [|y l IH]; simpl; [reflexivity|].
  destruct (raceDate (fst y) <? raceDate (fst x))%Z; [|reflexivity].
  rewrite IH. apply perm_swap.
Qed.

Lemma sort_by_date_perm (l : list (RawRace * Z)) : Permutation (sort_by_date l) l.
Proof.
  induction l as [|x l IH]; simpl; [reflexivity|].
  rewrite insert_by_date_perm, IH. reflexivity.
Qed.

Lemma progressRaces_pos (races : list RawRace) (target : Q) :
  Forall (fun p => (0 < snd p)%Z) (progressRaces races target).
Proof.
  induction races as [|race races IH]; simpl; [constructor|].
  apply Forall_app. split; [|exact IH].
  destruct (_ && _); [|constructor].
  destruct (timeToSeconds_trend (raceTimeStr race)) as [t|]; [|constructor].
  destruct (Z.ltb_spec 0 t); repeat constructor; simpl; lia.
Qed.

Lemma raceProgressData_pos (races : list RawRace) (sel : DistanceLabel) :
  Forall (fun t => (0 < t)%Z) (map rowTimeSeconds (raceProgressData races sel)).
Proof.
  unfold raceProgressData. rewrite map_time_progressRows.
  apply Forall_map.
  apply (Permutation_Forall (Permutation_sym (sort_by_date_perm _))).
  apply progressRaces_pos.
Qed.

Lemma fold_min_in (l : list Z) (a : Z) : In (fold_left Z.min l a) (a :: l).
Proof.
  revert a. induction l as [|x l IH]; intro a; simpl; [auto|].
  destruct (IH (Z.min a x)) as [E|E].
  - rewrite <- E. destruct (Z.min_spec a x) as [[_ ->]|[_ ->]]; auto.
  - auto.
Qed.

Lemma fold_max_in (l : list Z) (a : Z) : In (fold_left Z.max l a) (a :: l).
Proof.
  revert a. induction l as [|x l IH]; intro a; simpl; [auto|].
  destruct (IH (Z.max a x)) as [E|E].
  - rewrite <- E. destruct (Z.max_spec a x) as [[_ ->]|[_ ->]]; auto.
  - auto.
Qed.

Lemma fold_min_lb (l : list Z) (a y : Z) : In y (a :: l) -> (fold_left Z.min l a <= y)%Z.
Proof.
  revert a. induction l as [|x l IH]; intros a Hy; simpl in *.
  - destruct Hy as [->|[]]; lia.
  - destruct Hy as [Hy|[Hy|Hy]]; [subst a|subst x|].
    + transitivity (Z.min y x); [apply fold_min_le_seed|lia].
    + transitivity (Z.min a y); [apply fold_min_le_seed|lia].
    + apply IH. auto.
Qed.

Lemma fold_max_ge_seed (l : list Z) (a : Z) : (a <= fold_left Z.max l a)%Z.
Proof.
  revert a. induction l as [|x l IH]; intro a; simpl; [lia|].
  transitivity (Z.max a x); [lia|apply IH].
Qed.

Lemma fold_max_ub (l : list Z) (a y : Z) : In y (a :: l) -> (y <= fold_left Z.max l a)%Z.
Proof.
  revert a. induction l as [|x l IH]; intros a Hy; simpl in *.
  - destruct Hy as [->|[]]; lia.
  - destruct Hy as [Hy|[Hy|Hy]]; [subst a|subst x|].
    + transitivity (Z.max y x); [lia|apply fold_max_ge_seed].
    + transitivity (Z.max a y); [lia|apply fold_max_ge_seed].
    + apply IH. auto.
Qed.

Lemma fold_add_bounds (l : list Z) (acc lo hi : Z) :
  Forall (fun t => lo <= t <= hi)%Z l ->
  (acc + Z.of_nat (List.length l) * lo <= fold_left Z.add l acc <= acc + Z.of_nat (List.length l) * hi)%Z.
Proof.
  revert acc. induction l as [|x l IH]; intros acc H; [simpl; lia|].
  cbn [fold_left List.length]. inversion H as [|? ? Hx Hl]; subst. specialize (IH (acc + x)%Z Hl).
  rewrite Nat2Z.inj_succ, !Z.mul_succ_l. lia.
Qed.

Lemma inject_Z_lt0 (z : Z) : (0 < z)%Z -> 0 < inject_Z z.
Proof. intro H. unfold Qlt; simpl. lia. Qed.

Lemma inject_Z_le0 (z : Z) : (0 <= z)%Z -> 0 <= inject_Z z.
Proof. intro H. unfold Qle; simpl. lia. Qed.

Lemma Qdiv_nonneg_lt1 (a b : Q) : 0 <= a -> a < b -> 0 <= a / b /\ a / b < 1.
Proof.
  intros Ha Hab. assert (Hb : 0 < b) by lra. split.
  - apply Qle_shift_div_l; [exact Hb|lra].
  - apply Qlt_shift_div_r; [exact Hb|lra].
Qed.

(** PerformanceLab [performanceMetrics] (l. 480-503) on the rows of
    [raceProgressData]: there are none exactly when there are no rows;
    otherwise [totalRaces] counts the rows, both improvement percentages
    are finite and in [0, 100), and [consistency] is finite and at most
    100. *)
Theorem performanceMetrics_bounds (races : list RawRace) (sel : DistanceLabel) :
  match performanceMetrics (raceProgressData races sel) with
  | None => raceProgressData races sel = []
  | Some m =>
      totalRaces m = List.length (raceProgressData races sel) /\
      (exists q, improvementFromFirstToPR m = JFin q /\ 0 <= q < 100) /\
      (exists q, improvementFromAvg m = JFin q /\ 0 <= q < 100) /\
      (exists c, consistency m = JFin c /\ c <= 100)
  end.
Proof.
  pose proof (raceProgressData_pos races sel) as Hpos.
  set (rows := raceProgressData races sel) in *. clearbody rows.
  unfold performanceMetrics.
  destruct (map rowTimeSeconds rows) as [|first rest] eqn:E.
  { destruct rows; [reflexivity|discriminate]. }
  rewrite Forall_forall in Hpos.
  set (best := fold_left Z.min rest first).
  set (mx := fold_left Z.max rest first).
  set (S := fold_left Z.add (first :: rest) 0%Z).
  set (n := Z.of_nat (List.length (first :: rest))).
  assert (Hbest_pos : (0 < best)%Z) by (apply Hpos, fold_min_in).
  assert (Hbest_first : (best <= first)%Z) by (apply fold_min_lb; left; reflexivity).
  assert (Hrange : Forall (fun t => best <= t <= mx)%Z (first :: rest)).
  { apply Forall_forall. intros y Hy. split; [apply fold_min_lb|apply fold_max_ub]; exact Hy. }
  pose proof (fold_add_bounds _ 0 _ _ Hrange) as HS. fold S n in HS.
  assert (Hn : (1 <= n)%Z) by (unfold n; simpl; lia).
  assert (Hbm : (best <= mx)%Z) by (inversion Hrange as [|? ? H1 _]; lia).
  assert (HnQ : 0 < inject_Z n) by (apply inject_Z_lt0; lia).
  assert (Havg_lo : inject_Z best <= inject_Z S / inject_Z n).
  { apply Qle_shift_div_l; [exact HnQ|]. rewrite <- inject_Z_mult, <- Zle_Qle. lia. }
  assert (Havg_hi : inject_Z S / inject_Z n <= inject_Z mx).
  { apply Qle_shift_div_r; [exact HnQ|]. rewrite <- inject_Z_mult, <- Zle_Qle. lia. }
  assert (Hb0 : 0 < inject_Z best) by (apply inject_Z_lt0; lia).
  set (avg := inject_Z S / inject_Z n) in *.
  assert (Hdiv : forall a b, 0 < b -> js_div a b = JFin (a / b)).
  { intros a b Hb. unfold js_div. destruct (Qeq_bool b 0) eqn:Eb; [|reflexivity].
    apply Qeq_bool_iff in Eb. lra. }
  cbn [totalRaces improvementFromFirstToPR improvementFromAvg consistency].
  split; [|split; [|split]].
  - reflexivity.
  - assert (Hf : 0 < inject_Z first) by (apply inject_Z_lt0; lia).
    unfold js_times100. rewrite Hdiv by exact Hf. eexists; split; [reflexivity|].
    destruct (Qdiv_nonneg_lt1 (inject_Z (first - best)) (inject_Z first)) as [A B].
    + apply inject_Z_le0. lia.
    + rewrite <- Zlt_Qlt. lia.
    + set (x := inject_Z (first - best) / inject_Z first) in *. split; lra.
  - unfold js_times100. rewrite Hdiv by lra. eexists; split; [reflexivity|].
    destruct (Qdiv_nonneg_lt1 (avg - inject_Z best) avg) as [A B]; [lra|lra|].
    set (x := (avg - inject_Z best) / avg) in *. split; lra.
  - unfold js_times100, js_one_minus. rewrite Hdiv by lra. eexists; split; [reflexivity|].
    assert (0 <= inject_Z (mx - best) / avg).
    { apply Qle_shift_div_l; [lra|]. rewrite Qmult_0_l. apply inject_Z_le0. lia. }
    set (x := inject_Z (mx - best) / avg) in *. lra.
Qed.

(** PerformanceLab [yAxisDomain] (l. 505-518) on the rows of
    [raceProgressData]: with no rows the domain is left to the chart
    ([['auto', 'auto']]); otherwise it is a pair [(lo, hi)] with
    [0 <= lo] that contains every plotted time. *)
Theorem yAxisDomain_contains (races : list RawRace) (sel : DistanceLabel) :
  match yAxisDomain (raceProgressData races sel) with
  | None => raceProgressData races sel = []
  | Some (lo, hi) =>
      0 <= lo /\
      Forall (fun row => lo <= inject_Z (rowTimeSeconds row) <= hi) (raceProgressData races sel)
  end.
Proof.
  pose proof (raceProgressData_pos races sel) as Hpos.
  set (rows := raceProgressData races sel) in *. clearbody rows.
  unfold yAxisDomain.
  destruct (map rowTimeSeconds rows) as [|first rest] eqn:E.
  { destruct rows; [reflexivity|discriminate]. }
  set (mn := fold_left Z.min rest first). set (mx := fold_left Z.max rest first).
  assert (Hmm : (mn <= mx)%Z).
  { transitivity first; [apply fold_min_lb|apply fold_max_ub]; left; reflexivity. }
  assert (Hmn0 : (0 < mn)%Z) by (rewrite Forall_forall in Hpos; apply Hpos, fold_min_in).
  assert (Hpad : 0 <= inject_Z (mx - mn) * (1 # 10)).
  { assert (0 <= inject_Z (mx - mn)) by (apply inject_Z_le0; lia). lra. }
  split.
  - unfold js_max0. destruct (Qle_bool _ 0) eqn:Eb; [lra|].
    assert (C : ~ (inject_Z mn - inject_Z (mx - mn) * (1 # 10) <= 0))
      by (rewrite <- Qle_bool_iff; congruence).
    apply Qnot_le_lt in C. lra.
  - apply Forall_forall. intros row Hrow.
    assert (Ht : In (rowTimeSeconds row) (first :: rest)) by (rewrite <- E; apply in_map, Hrow).
    pose proof (fold_min_lb _ _ _ Ht) as H1. pose proof (fold_max_ub _ _ _ Ht) as H2.
    fold mn in H1. fold mx in H2.
    rewrite Zle_Qle in H1, H2. split.
    + unfold js_max0. destruct (Qle_bool _ 0); [|lra].
      assert (0 < inject_Z (rowTimeSeconds row)) by (apply inject_Z_lt0; rewrite Forall_forall in Hpos; apply Hpos, Ht). lra.
    + lra.
Qed.

(* ------------------------------------------------------------------ *)
(** ** Further properties: BibBook *)

Lemma bestOf_some_iff (f : string -> option Z) (l : list RawRace) :
  Nat.ltb 0 (List.length l) = match bestOf f l with Some _ => true | None => false end.
Proof. destruct l; reflexivity. Qed.

(** BibBook [distanceChartData] (l. 128-133) and [bestTimes] (l. 75-104):
    the distance chart lists exactly the classes that have a best
    performance, in the same order. *)
Theorem distanceChartData_keys (races : list RawRace) :
  map fst (distanceChartData races) = map fst (bestTimes_bib races).
Proof.
  unfold distanceChartData, distanceBreakdown, bestTimes_bib.
  cbn [flat_map filter].
  rewrite !(bestOf_some_iff timeToSeconds_bib).
  repeat match goal with
  | |- context [match bestOf ?f ?l with Some _ => _ | None => _ end] =>
      destruct (bestOf f l)
  end; reflexivity.
Qed.

(** BibBook [distanceBreakdown] (l. 38-45): the five distance bands do
    not overlap, so the counts add up to at most the number of valid
    races. *)
Theorem distanceBreakdown_total (races : list RawRace) :
  (list_sum (map snd (distanceBreakdown races)) <= List.length (validRaces races))%nat.
Proof.
  unfold distanceBreakdown, list_sum. cbn [map snd fold_right].
  induction (validRaces races) as [|r l IH]; [simpl; lia|].
  cbn [filter List.length].
  destruct (within_band (raceDistance r) 26.2) eqn:H1;
  destruct (within_band (raceDistance r) 13.1) eqn:H2;
  destruct (within_band (raceDistance r) 6.21371) eqn:H3;
  destruct (within_band (raceDistance r) 3.1) eqn:H4;
  destruct (within_band (raceDistance r) 9.3) eqn:H5;
  cbn [List.length]; try lia;
  exfalso; repeat match goal with H : within_band _ _ = true |- _ => apply within_band_true in H end; lra.
Qed.

Lemma bestStep_inv (f : string -> option Z) (P : RawRace * option Z -> Prop) (l : list RawRace) acc :
  P acc -> (forall r, In r l -> P (r, f (raceTime r))) -> P (fold_left (bestStep f) l acc).
Proof.
  revert acc. induction l as [|x l IH]; intros acc Hacc Hl; simpl; [exact Hacc|].
  apply IH; [|intros r Hr; apply Hl; right; exact Hr].
  unfold bestStep. destruct (_ && _); [apply Hl; left; reflexivity|exact Hacc].
Qed.

Lemma bestOf_member (f : string -> option Z) (l : list RawRace) b t :
  bestOf f l = Some (b, t) -> In b l /\ t = f (raceTime b).
Proof.
  destruct l as [|r0 l]; [discriminate|]. intro E.
  change (Some (fold_left (bestStep f) (r0 :: l) (r0, f (raceTime r0))) = Some (b, t)) in E.
  injection E as E.
  pose (P := fun acc : RawRace * option Z => In (fst acc) (r0 :: l) /\ snd acc = f (raceTime (fst acc))).
  assert (HP : P (fold_left (bestStep f) (r0 :: l) (r0, f (raceTime r0)))).
  { apply bestStep_inv; unfold P; simpl; auto. }
  exact (eq_ind _ P HP _ E).
Qed.

(** BibBook [bestTimes] (l. 75-104): every entry names a race with a
    time, of the class the key stands for (within 0.1 mile of its
    distance), and its [timeSeconds] is that race's converted time. *)
Theorem bestTimes_bib_entries (races : list RawRace) :
  Forall (fun '(name, (best, secs)) =>
            In best (validRaces races) /\
            secs = timeToSeconds_bib (raceTime best) /\
            exists target,
              In (name, target)
                 [("Marathon"%string, 26.2); ("Half Marathon"%string, 13.1);
                  ("10K"%string, 6.21371); ("5K"%string, 3.1); ("15K"%string, 9.3)] /\
              within_band (raceDistance best) target = true)
         (bestTimes_bib races).
Proof.
  apply Forall_forall. intros [name [best secs]] Hx.
  unfold bestTimes_bib in Hx. apply in_flat_map in Hx as [[n target] [Hin Hx]].
  destruct (bestOf _ _) as [[b t]|] eqn:E in Hx; [|destruct Hx].
  destruct Hx as [Hx|[]]. injection Hx as <- <- <-.
  apply bestOf_member in E as [Hb Ht]. apply filter_In in Hb as [Hv Hw].
  split; [exact Hv|]. split; [exact Ht|]. exists target. split; [exact Hin|exact Hw].
Qed.

(** BibBook race table (l. 468-498): every race that earns a medal
    emoji gets it displayed, and the medal cell is rendered empty exactly
    for a race off the overall podium whose division place is negative. *)
Theorem medalSlot_cases (race : RawRace) :
  (getMedalEmoji_bib race <> None -> medalSlot race = Some (getMedalEmoji_bib race)) /\
  (medalSlot race = Some None <->
   isPodium race = false /\ exists p, division_place race = Some p /\ (p < 0)%Z).
Proof.
  unfold medalSlot, getMedalEmoji_bib, isAgGroupPodium, division_is.
  destruct (isPodium race) eqn:Hp; rewrite ?orb_true_r, ?orb_false_r.
  - split; [reflexivity|]. split; [discriminate|intros [H _]; discriminate].
  - destruct (division_place race) as [p|] eqn:Hd.
    + destruct (Z.eqb_spec p 1); [subst; split; [reflexivity|split; [discriminate|intros [_ (q & Hq & Hq')]; injection Hq; lia]]|].
      destruct (Z.eqb_spec p 2); [subst; split; [reflexivity|split; [discriminate|intros [_ (q & Hq & Hq')]; injection Hq; lia]]|].
      destruct (Z.eqb_spec p 3); [subst; split; [reflexivity|split; [discriminate|intros [_ (q & Hq & Hq')]; injection Hq; lia]]|].
      split; [intro C; congruence|].
      destruct (Z.eqb_spec p 0); destruct (Z.leb_spec p 3); simpl.
      * split; [discriminate|intros [_ (q & Hq & Hq')]; injection Hq; lia].
      * split; [discriminate|intros [_ (q & Hq & Hq')]; injection Hq; lia].
      * split; [intros _; split; [reflexivity|exists p; split; [reflexivity|lia]]|reflexivity].
      * split; [discriminate|intros [_ (q & Hq & Hq')]; injection Hq; lia].
    + split; [intro C; congruence|]. split; [discriminate|intros [_ (q & Hq & _)]; discriminate].
Qed.

Lemma getRaceCategory_cases (d : Q) :
  getRaceCategory d = "Marathon"%string \/ getRaceCategory d = "Half"%string \/
  getRaceCategory d = "5K"%string \/ getRaceCategory d = "Other"%string.
Proof. unfold getRaceCategory. destruct (within_band d 26.2), (within_band d 13.1), (within_band d 3.1); auto. Qed.

(** BibBook [filteredRacesForTable] (l. 166-174): the four category
    filters of the select box split the valid races (shown under "all")
    without overlap or loss, and any other filter value shows no race. *)
Theorem filteredRacesForTable_partition (races : list RawRace) :
  (List.length (filteredRacesForTable races "Marathon") +
   List.length (filteredRacesForTable races "Half") +
   List.length (filteredRacesForTable races "5K") +
   List.length (filteredRacesForTable races "Other") =
   List.length (filteredRacesForTable races "all"))%nat /\
  (forall raceFilter,
     In raceFilter ["all"; "Marathon"; "Half"; "5K"; "Other"]%string \/
     filteredRacesForTable races raceFilter = []).
Proof.
  split.
  - unfold filteredRacesForTable. cbn [String.eqb Ascii.eqb Bool.eqb].
    induction (validRaces races) as [|r l IH]; [reflexivity|].
    cbn [filter List.length].
    destruct (getRaceCategory_cases (raceDistance r)) as [E|[E|[E|E]]]; rewrite E;
      cbn [String.eqb Ascii.eqb Bool.eqb List.length]; lia.
  - intro f.
    destruct (in_dec string_dec f ["all"; "Marathon"; "Half"; "5K"; "Other"]%string) as [Hin|Hout];
      [left; exact Hin|right].
    unfold filteredRacesForTable.
    destruct (String.eqb_spec f "all") as [->|Hall]; [exfalso; apply Hout; left; reflexivity|].
    induction (validRaces races) as [|r l IH]; [reflexivity|].
    cbn [filter]. rewrite IH.
    destruct (getRaceCategory_cases (raceDistance r)) as [E|[E|[E|E]]]; rewrite E;
      match goal with |- context [String.eqb ?a f] => destruct (String.eqb_spec a f) as [Ef|] end;
      try reflexivity;
      exfalso; apply Hout; rewrite <- Ef; simpl; tauto.
Qed.

(* ------------------------------------------------------------------ *)
(** ** Further properties: SeasonStats runningStats *)

Lemma round1_mono (x y : Q) : x <= y -> round1 x <= round1 y.
Proof.
  intro H. unfold round1, Qdiv. apply Qmult_le_compat_r; [|unfold Qle; simpl; lia].
  rewrite <- Zle_Qle. apply Qfloor_resp_le. lra.
Qed.

Lemma filter_length_split {A} (f : A -> bool) (l : list A) :
  (List.length (filter f l) + List.length (filter (fun x => negb (f x)) l) = List.length l)%nat.
Proof. induction l as [|x l IH]; simpl; [reflexivity|]. destruct (f x); simpl; lia. Qed.

Lemma Qlt_bool_false_le (a b : Q) : Qlt_bool a b = false -> b <= a.
Proof.
  unfold Qlt_bool. intro H. apply negb_false_iff, Qle_bool_iff in H. exact H.
Qed.

Lemma Qlt_bool_true_lt (a b : Q) : Qlt_bool a b = true -> a < b.
Proof. intro H. apply Qlt_bool_iff. exact H. Qed.

(** SeasonStats [runningStats] (l. 133-137, 205-209): every run of the
    year is a trail run or a road run and not both, so the two counts
    add up to [totalRuns], and [trailPercentage] lies in [0, 100]. *)
Theorem runningStats_trail_split (raw : list RawActivity) (selectedYear : Z) :
  (rsTrailRuns (runningStats raw selectedYear) + rsRoadRuns (runningStats raw selectedYear) =
   rsTotalRuns (runningStats raw selectedYear))%nat /\
  0 <= rsTrailPercentage (runningStats raw selectedYear) <= 100.
Proof.
  unfold runningStats.
  destruct (fold_left (biggestWeekStep _) _ _) as [[bm bd] br].
  destruct (fold_left longestRunStep _ _) as [ld ldt].
  destruct (fold_left fastestPaceStep _ _) as [[fp fpd] fdist].
  cbn [rsTrailRuns rsRoadRuns rsTotalRuns rsTrailPercentage].
  set (acts := seasonYearActivities raw selectedYear).
  pose proof (filter_length_split actIsTrail acts) as Hsplit.
  unfold trailActs, roadActs. split; [exact Hsplit|].
  assert (H100 : round1 100 <= 100) by (vm_compute; discriminate).
  assert (H0 : 0 <= round1 0) by (vm_compute; discriminate).
  destruct (Nat.ltb_spec 0 (List.length acts)) as [Hn|Hn].
  - set (t := List.length (filter actIsTrail acts)) in *.
    set (n := List.length acts) in *.
    assert (Hq : 0 <= inject_Z (Z.of_nat t) / inject_Z (Z.of_nat n) <= 1).
    { assert (Hnq : 0 < inject_Z (Z.of_nat n)) by (apply inject_Z_lt0; lia).
      split.
      - apply Qle_shift_div_l; [exact Hnq|]. rewrite Qmult_0_l. apply inject_Z_le0. lia.
      - apply Qle_shift_div_r; [exact Hnq|]. rewrite Qmult_1_l, <- Zle_Qle. lia. }
    split.
    + apply round1_nonneg. lra.
    + eapply Qle_trans; [apply round1_mono|exact H100]. lra.
  - split; [exact H0|]. eapply Qle_trans; [apply round1_mono|exact H100]. lra.
Qed.

Lemma longestRun_fold (l : list Act) (acc : Q * option Z) :
  fst acc <= fst (fold_left longestRunStep l acc) /\
  Forall (fun act => actDistance act <= fst (fold_left longestRunStep l acc)) l /\
  (fold_left longestRunStep l acc = acc \/
   exists act, In act l /\ fold_left longestRunStep l acc = (actDistance act, actDate act)).
Proof.
  revert acc. induction l as [|a l IH]; intro acc; simpl.
  - split; [lra|]. split; [constructor|left; reflexivity].
  - destruct (Qlt_bool (fst acc) (actDistance a)) eqn:E.
    + replace (longestRunStep acc a) with (actDistance a, actDate a)
        by (unfold longestRunStep; rewrite E; reflexivity).
      apply Qlt_bool_true_lt in E.
      destruct (IH (actDistance a, actDate a)) as (H1 & H2 & H3). simpl in H1.
      split; [lra|]. split; [constructor; [exact H1|exact H2]|].
      right. destruct H3 as [H3|(act & Hin & H3)]; [exists a; auto|exists act; auto].
    + replace (longestRunStep acc a) with acc
        by (unfold longestRunStep; rewrite E; reflexivity).
      apply Qlt_bool_false_le in E.
      destruct (IH acc) as (H1 & H2 & H3).
      split; [exact H1|]. split; [constructor; [lra|exact H2]|].
      destruct H3 as [H3|(act & Hin & H3)]; [left; exact H3|right; exists act; auto].
Qed.

Lemma sumDistance_le (l : list Act) (s L : Q) :
  Forall (fun act => actDistance act <= L) l ->
  fold_left (fun sum act => sum + actDistance act) l s <= s + inject_Z (Z.of_nat (List.length l)) * L.
Proof.
  revert s. induction l as [|a l IH]; intros s H; cbn [fold_left List.length].
  - change (inject_Z (Z.of_nat 0)) with 0. lra.
  - inversion H as [|? ? Ha Hl]; subst.
    specialize (IH (s + actDistance a) Hl).
    rewrite Nat2Z.inj_succ, <- Z.add_1_r, inject_Z_plus, Qmult_plus_distr_l.
    change (inject_Z 1) with 1. rewrite Qmult_1_l.
    set (X := inject_Z (Z.of_nat (List.length l)) * L) in *. lra.
Qed.

(** SeasonStats [runningStats] (l. 143, 148, 164-171, 192, 196-197): the longest
    run shown is not negative, not shorter than the average run shown
    nor than any run of the year (each rounded to 0.1 mile), and it is
    either 0 dated at the start of the year or the distance and date of
    one of the year's runs. *)
Theorem runningStats_longestRun (raw : list RawActivity) (selectedYear : Z) :
  0 <= rsLongestRun (runningStats raw selectedYear) /\
  rsAvgRunDistance (runningStats raw selectedYear) <= rsLongestRun (runningStats raw selectedYear) /\
  Forall (fun act => round1 (actDistance act) <= rsLongestRun (runningStats raw selectedYear))
         (seasonYearActivities raw selectedYear) /\
  ((rsLongestRun (runningStats raw selectedYear) = round1 0 /\
    rsLongestRunDate (runningStats raw selectedYear) = Some (startOfYear (newDate selectedYear 0 1))) \/
   exists act, In act (seasonYearActivities raw selectedYear) /\
     rsLongestRun (runningStats raw selectedYear) = round1 (actDistance act) /\
     rsLongestRunDate (runningStats raw selectedYear) = actDate act).
Proof.
  unfold runningStats.
  destruct (fold_left (biggestWeekStep _) _ _) as [[bm bd] br].
  set (acts := seasonYearActivities raw selectedYear).
  set (ys := startOfYear (newDate selectedYear 0 1)).
  destruct (longestRun_fold acts (0, Some ys)) as (H1 & H2 & H3).
  destruct (fold_left longestRunStep acts (0, Some ys)) as [L ldate] eqn:EL.
  destruct (fold_left fastestPaceStep _ _) as [[fp fpd] fdist].
  cbn [rsLongestRun rsAvgRunDistance rsLongestRunDate]. simpl fst in H1, H2.
  split; [apply round1_nonneg; exact H1|].
  split.
  - apply round1_mono.
    destruct (Nat.ltb_spec 0 (List.length acts)) as [Hn|Hn]; [|exact H1].
    assert (Hnq : 0 < inject_Z (Z.of_nat (List.length acts))) by (apply inject_Z_lt0; lia).
    apply Qle_shift_div_r; [exact Hnq|].
    pose proof (sumDistance_le acts 0 L H2). unfold sumDistance. lra.
  - split.
    + apply Forall_forall. intros act Hin. apply round1_mono.
      rewrite Forall_forall in H2. apply H2, Hin.
    + destruct H3 as [H3|(act & Hin & H3)].
      * injection H3 as -> ->. left. split; reflexivity.
      * injection H3 as -> ->. right. exists act. auto.
Qed.

Lemma fastestPace_fold (l : list Act) (acc : option Q * option Z * Q) :
  (fold_left fastestPaceStep l acc = acc \/
   exists act q, In act l /\ pace_candidate act = Some q /\
     fold_left fastestPaceStep l acc = (Some q, actDate act, actDistance act)) /\
  (forall p0, fst (fst acc) = Some p0 ->
     exists p, fst (fst (fold_left fastestPaceStep l acc)) = Some p /\ p <= p0) /\
  Forall (fun act => match pace_candidate act with
                     | Some q => exists p, fst (fst (fold_left fastestPaceStep l acc)) = Some p /\ p <= q
                     | None => True end) l.
Proof.
  revert acc. induction l as [|a l IH]; intro acc; simpl.
  - split; [left; reflexivity|]. split; [intros p0 H; exists p0; split; [exact H|lra]|constructor].
  - destruct (pace_candidate a) as [q|] eqn:Ea.
    + destruct (match fst (fst acc) with None => true | Some p => Qlt_bool q p end) eqn:Etake.
      * replace (fastestPaceStep acc a) with (Some q, actDate a, actDistance a)
          by (unfold fastestPaceStep; rewrite Ea, Etake; reflexivity).
        destruct (IH (Some q, actDate a, actDistance a)) as (H1 & H2 & H3).
        split; [|split; [|constructor; [rewrite Ea; apply H2; reflexivity|exact H3]]].
        -- right. destruct H1 as [H1|(act & q' & Hin & Hq & H1)];
             [exists a, q; auto|exists act, q'; auto].
        -- intros p0 Hp0. destruct (H2 q eq_refl) as (p & Hp & Hle). exists p. split; [exact Hp|].
           rewrite Hp0 in Etake. apply Qlt_bool_true_lt in Etake. lra.
      * replace (fastestPaceStep acc a) with acc
          by (unfold fastestPaceStep; rewrite Ea, Etake; reflexivity).
        destruct (fst (fst acc)) as [p1|] eqn:Ep1; [|discriminate].
        apply Qlt_bool_false_le in Etake.
        destruct (IH acc) as (H1 & H2 & H3).
        destruct (H2 p1 Ep1) as (p & Hp & Hle).
        split; [|split; [intros p0 Hp0; apply H2; rewrite Ep1; exact Hp0|
                         constructor; [rewrite Ea; exists p; split; [exact Hp|lra]|exact H3]]].
        destruct H1 as [H1|(act & q' & Hin & Hq & H1)]; [left; exact H1|right; exists act, q'; auto].
    + replace (fastestPaceStep acc a) with acc
        by (unfold fastestPaceStep; rewrite Ea; reflexivity).
      destruct (IH acc) as (H1 & H2 & H3).
      split; [|split; [exact H2|constructor; [rewrite Ea; exact I|exact H3]]].
      destruct H1 as [H1|(act & q' & Hin & Hq & H1)]; [left; exact H1|right; exists act, q'; auto].
Qed.

(** SeasonStats [runningStats] (l. 149, 172-178, 199-201): [fastestPace] is
    [null] exactly when no run of the year lasted more than 0 hours and
    more than 3 miles; otherwise it is the rounded pace of one such run,
    shown with that run's date and distance, and no such run has a
    smaller rounded pace. *)
Theorem runningStats_fastestPace (raw : list RawActivity) (selectedYear : Z) :
  match rsFastestPace (runningStats raw selectedYear) with
  | None => Forall (fun act => pace_candidate act = None) (seasonYearActivities raw selectedYear)
  | Some p =>
      (exists act q, In act (seasonYearActivities raw selectedYear) /\
         pace_candidate act = Some q /\ p = round1 q /\
         rsFastestPaceDate (runningStats raw selectedYear) = actDate act /\
         rsFastestPaceDistance (runningStats raw selectedYear) = round1 (actDistance act)) /\
      Forall (fun act => match pace_candidate act with
                         | Some q => p <= round1 q
                         | None => True end) (seasonYearActivities raw selectedYear)
  end.
Proof.
  unfold runningStats.
  destruct (fold_left (biggestWeekStep _) _ _) as [[bm bd] br].
  destruct (fold_left longestRunStep _ _) as [ld ldt].
  set (acts := seasonYearActivities raw selectedYear).
  set (ys := startOfYear (newDate selectedYear 0 1)).
  destruct (fastestPace_fold acts (None, Some ys, 0)) as (H1 & _ & H3).
  destruct (fold_left fastestPaceStep acts (None, Some ys, 0)) as [[fp fpd] fdist] eqn:EF.
  cbn [rsFastestPace rsFastestPaceDate rsFastestPaceDistance]. simpl fst in H3.
  destruct fp as [p|].
  - split.
    + destruct H1 as [H1|(act & q & Hin & Hq & H1)]; [discriminate|].
      injection H1 as -> -> ->. exists act, q. auto.
    + rewrite Forall_forall in H3 |- *. intros act Hin. specialize (H3 act Hin).
      destruct (pace_candidate act) as [q|]; [|exact I].
      destruct H3 as (p' & Hp' & Hle). injection Hp' as <-. apply round1_mono, Hle.
  - rewrite Forall_forall in H3 |- *. intros act Hin. specialize (H3 act Hin).
    destruct (pace_candidate act) as [q|]; [|reflexivity].
    destruct H3 as (p' & Hp' & _). discriminate.
Qed.

Lemma biggestWeek_fold (acts : list Act) (ws : list Z) (acc : Q * Z * nat) :
  fst (fst acc) <= fst (fst (fold_left (biggestWeekStep acts) ws acc)) /\
  Forall (fun w => sumDistance (filter (actWithin w (endOfWeek w 0)) acts)
                   <= fst (fst (fold_left (biggestWeekStep acts) ws acc))) ws /\
  (fold_left (biggestWeekStep acts) ws acc = acc \/
   exists w, In w ws /\
     fold_left (biggestWeekStep acts) ws acc =
       (sumDistance (filter (actWithin w (endOfWeek w 0)) acts), w,
        List.length (filter (actWithin w (endOfWeek w 0)) acts))).
Proof.
  revert acc. induction ws as [|w ws IH]; intro acc; simpl.
  - split; [lra|]. split; [constructor|left; reflexivity].
  - destruct (Qlt_bool (fst (fst acc)) (sumDistance (filter (actWithin w (endOfWeek w 0)) acts))) eqn:E.
    + replace (biggestWeekStep acts acc w) with
        (sumDistance (filter (actWithin w (endOfWeek w 0)) acts), w,
         List.length (filter (actWithin w (endOfWeek w 0)) acts))
        by (unfold biggestWeekStep; rewrite E; reflexivity).
      apply Qlt_bool_true_lt in E.
      destruct (IH (sumDistance (filter (actWithin w (endOfWeek w 0)) acts), w,
                    List.length (filter (actWithin w (endOfWeek w 0)) acts))) as (H1 & H2 & H3).
      simpl in H1.
      split; [lra|]. split; [constructor; [exact H1|exact H2]|].
      right. destruct H3 as [H3|(w' & Hin & H3)]; [exists w; auto|exists w'; auto].
    + replace (biggestWeekStep acts acc w) with acc
        by (unfold biggestWeekStep; rewrite E; reflexivity).
      apply Qlt_bool_false_le in E.
      destruct (IH acc) as (H1 & H2 & H3).
      split; [exact H1|]. split; [constructor; [lra|exact H2]|].
      destruct H3 as [H3|(w' & Hin & H3)]; [left; exact H3|right; exists w'; auto].
Qed.

(** SeasonStats [runningStats] (l. 146-161, 193-195): the biggest week
    shown is not negative and is at least the rounded mileage of every
    week of [eachWeekOfInterval(yearStart, yearEnd)]; its date and run
    count are the start of the year and 0, or the start and number of
    runs of one of those weeks. *)
Theorem runningStats_biggestWeek (raw : list RawActivity) (selectedYear : Z) :
  0 <= rsBiggestWeek (runningStats raw selectedYear) /\
  Forall (fun w => round1 (sumDistance (filter (actWithin w (endOfWeek w 0))
                                             (seasonYearActivities raw selectedYear)))
                   <= rsBiggestWeek (runningStats raw selectedYear))
         (eachWeekOfInterval (startOfYear (newDate selectedYear 0 1))
                             (endOfYear (startOfYear (newDate selectedYear 0 1)))) /\
  ((rsBiggestWeekDate (runningStats raw selectedYear) = startOfYear (newDate selectedYear 0 1) /\
    rsBiggestWeekRuns (runningStats raw selectedYear) = 0%nat) \/
   exists w, In w (eachWeekOfInterval (startOfYear (newDate selectedYear 0 1))
                                      (endOfYear (startOfYear (newDate selectedYear 0 1)))) /\
     rsBiggestWeekDate (runningStats raw selectedYear) = w /\
     rsBiggestWeekRuns (runningStats raw selectedYear) =
       List.length (filter (actWithin w (endOfWeek w 0)) (seasonYearActivities raw selectedYear))).
Proof.
  unfold runningStats.
  set (acts := seasonYearActivities raw selectedYear).
  set (ys := startOfYear (newDate selectedYear 0 1)).
  set (ws := eachWeekOfInterval ys (endOfYear ys)).
  destruct (biggestWeek_fold acts ws (0, ys, 0%nat)) as (H1 & H2 & H3).
  destruct (fold_left (biggestWeekStep acts) ws (0, ys, 0%nat)) as [[bm bd] br] eqn:EB.
  destruct (fold_left longestRunStep _ _) as [ld ldt].
  destruct (fold_left fastestPaceStep _ _) as [[fp fpd] fdist].
  cbn [rsBiggestWeek rsBiggestWeekDate rsBiggestWeekRuns]. simpl fst in H1, H2.
  split; [apply round1_nonneg; exact H1|].
  split.
  - rewrite Forall_forall in H2 |- *. intros w Hin. apply round1_mono, H2, Hin.
  - destruct H3 as [H3|(w & Hin & H3)].
    + injection H3 as _ -> ->. left. split; reflexivity.
    + injection H3 as _ -> ->. right. exists w. split; [exact Hin|split; reflexivity].
Qed.

(* ------------------------------------------------------------------ *)
(** ** Further properties: month bounds [new Date(year, month + 1, 0)] *)

Lemma newDate_day0 (y k : Z) : newDate y k 0 = (newDate y k 1 - ms_per_day)%Z.
Proof. unfold newDate, ms_per_day. lia. Qed.

Lemma newDate_month_step (y k : Z) :
  (0 <= k < 12)%Z -> (newDate y k 1 < newDate y (k + 1) 1)%Z.
Proof.
  intro Hk. pose proof (month_nonempty y k Hk) as H.
  rewrite newDate_day0 in H. unfold ms_per_day in H. lia.
Qed.

Lemma newDate_month_mono (y a b : Z) :
  (0 <= a <= b)%Z -> (b <= 12)%Z -> (newDate y a 1 <= newDate y b 1)%Z.
Proof.
  intros Hab Hb.
  replace b with (a + Z.of_nat (Z.to_nat (b - a)))%Z by lia.
  assert (Hn : (a + Z.of_nat (Z.to_nat (b - a)) <= 12)%Z) by lia.
  clear Hb. revert Hn. generalize (Z.to_nat (b - a)) as n.
  induction n as [|n IH]; intro Hn.
  - rewrite Z.add_0_r. lia.
  - rewrite Nat2Z.inj_succ in *.
    pose proof (newDate_month_step y (a + Z.of_nat n) ltac:(lia)) as H.
    replace (a + Z.of_nat n + 1)%Z with (a + Z.succ (Z.of_nat n))%Z in H by lia.
    specialize (IH ltac:(lia)). lia.
Qed.

Lemma lastDay_outside_month (y m m' t : Z) :
  (0 <= m < 12)%Z -> (newDate y (m + 1) 0 < t < newDate y (m + 1) 1)%Z ->
  (0 <= m' < 12)%Z ->
  isWithinInterval t (newDate y m' 1) (newDate y (m' + 1) 0) = false.
Proof.
  intros Hm Ht Hm'. unfold isWithinInterval.
  destruct (Z.le_gt_cases m' m) as [Hle|Hgt].
  - pose proof (newDate_month_mono y (m' + 1) (m + 1) ltac:(lia) ltac:(lia)).
    rewrite !newDate_day0 in *.
    destruct (Z.leb_spec t (newDate y (m' + 1) 1 - ms_per_day)); [lia|].
    apply andb_false_r.
  - pose proof (newDate_month_mono y (m + 1) m' ltac:(lia) ltac:(lia)).
    destruct (Z.leb_spec (newDate y m' 1) t); [lia|reflexivity].
Qed.

(** SeasonStats [monthlyData] (l. 249-323) and InteractiveRunningChart
    [weeklyData] (l. 184-239) bound a month by
    [new Date(year, month + 1, 0)], midnight at the start of its last
    day: a run dated after that midnight on the last day of a month is
    in no month of SeasonStats' monthly breakdown and in no week of any
    month's weekly breakdown. *)
Theorem lastDay_runs_excluded (raw : list RawActivity) (y m t : Z) (act : Act) :
  (0 <= m < 12)%Z ->
  (newDate y (m + 1) 0 < t < newDate y (m + 1) 1)%Z ->
  actDate act = Some t ->
  forall m', (0 <= m' < 12)%Z ->
    ~ In act (seasonMonthRunning raw y m') /\
    forall weekStart, ~ In act (weekActivities raw y m' weekStart).
Proof.
  intros Hm Ht Hd m' Hm'.
  pose proof (lastDay_outside_month y m m' t Hm Ht Hm') as Hout.
  assert (Hact : actWithin (newDate y m' 1) (newDate y (m' + 1) 0) act = false)
    by (unfold actWithin; rewrite Hd; exact Hout).
  split.
  - unfold seasonMonthRunning. intro Hin. apply filter_In in Hin as [_ Hw]. congruence.
  - intros ws Hin. unfold weekActivities in Hin.
    apply filter_In in Hin as [Hin _]. apply filter_In in Hin as [_ Hw]. congruence.
Qed.

Lemma lastDay_runs_excluded_witness :
  (0 <= 0 < 12)%Z /\
  (newDate 2024 (0 + 1) 0 < newDate 2024 0 31 + 12 * 3600000 < newDate 2024 (0 + 1) 1)%Z /\
  actDate (toAct lastDayRun) = Some (newDate 2024 0 31 + 12 * 3600000)%Z /\
  (forall m', (0 <= m' < 12)%Z ->
     ~ In (toAct lastDayRun) (seasonMonthRunning [lastDayRun] 2024 m') /\
     forall weekStart, ~ In (toAct lastDayRun) (weekActivities [lastDayRun] 2024 m' weekStart)).
Proof.
  assert (H1 : (0 <= 0 < 12)%Z) by lia.
  assert (H2 : (newDate 2024 (0 + 1) 0 < newDate 2024 0 31 + 12 * 3600000 < newDate 2024 (0 + 1) 1)%Z)
    by (vm_compute; split; reflexivity).
  assert (H3 : actDate (toAct lastDayRun) = Some (newDate 2024 0 31 + 12 * 3600000)%Z) by reflexivity.
  split; [exact H1|]. split; [exact H2|]. split; [exact H3|].
  exact (lastDay_runs_excluded [lastDayRun] 2024 0 _ (toAct lastDayRun) H1 H2 H3).
Defined.
(* ------------------------------------------------------------------ *)
(** ** Further properties: InteractiveRunningChart navigation *)

Lemma insert_year_in (y x : Z) (years : list Z) :
  In x (insert_year y years) -> x = y \/ In x years.
Proof.
  induction years as [|z l IH]; simpl.
  - intros [H|[]]. left. symmetry. exact H.
  - destruct (Z.eqb_spec y z) as [Heq|Hne].
    + intro H. right. exact H.
    + destruct (Z.ltb_spec y z) as [Hlt|Hge].
      * intros [H|H]; [left; symmetry; exact H|right; exact H].
      * intros [H|H]; [right; left; exact H|].
        destruct (IH H) as [H'|H']; [left; exact H'|right; right; exact H'].
Qed.

Lemma availableYears_from2016 (raw : list RawActivity) (year : Z) :
  In year (availableYears raw) -> (2016 <= year)%Z.
Proof.
  unfold availableYears.
  assert (Hacts : forall act, In act (runningActs raw) -> from2016 act = true).
  { intros act Hin. unfold runningActs in Hin. apply filter_In in Hin. exact (proj2 Hin). }
  revert Hacts.
  generalize (runningActs raw) as acts.
  assert (Hgen : forall acts (years : list Z),
             (forall act, In act acts -> from2016 act = true) ->
             (forall x, In x years -> (2016 <= x)%Z) ->
             forall x, In x (fold_left (fun years act =>
               match actDate act with
               | Some t => insert_year (getFullYear t) years
               | None => years
               end) acts years) -> (2016 <= x)%Z).
  { induction acts as [|a l IH]; intros years Hacts Hyears x; simpl.
    - apply Hyears.
    - apply IH.
      + intros act Hin. apply Hacts. right. exact Hin.
      + intros z Hz. specialize (Hacts a (or_introl eq_refl)). unfold from2016 in Hacts.
        destruct (actDate a) as [t|].
        * destruct (insert_year_in _ _ _ Hz) as [->|Hz'].
          -- apply Z.leb_le. exact Hacts.
          -- apply Hyears. exact Hz'.
        * discriminate. }
  intros acts Hacts. apply (Hgen acts [] Hacts). intros x [].
Qed.

Lemma yearLabel_parse (year : Z) :
  (0 <= year)%Z ->
  String.eqb (yearLabel year) "" = false /\ parseInt (yearLabel year) = Some year.
Proof.
  intro H. unfold yearLabel. rewrite string_of_Z_nonneg by exact H. split.
  - apply String.eqb_neq. apply string_of_nat_nonempty.
  - rewrite parseInt_string_of_nat. f_equal. lia.
Qed.

Lemma weekBarLabel_inj (a b : nat) : weekBarLabel a = weekBarLabel b -> a = b.
Proof.
  unfold weekBarLabel. intro H. simpl in H.
  injection H as H.
  apply (f_equal parseInt) in H. rewrite !parseInt_string_of_nat in H.
  injection H as H. lia.
Qed.

Lemma weekBarLabel_nonempty (i : nat) : String.eqb (weekBarLabel i) "" = false.
Proof. reflexivity. Qed.

Lemma weeklyData_week_start (raw : list RawActivity) (y m : Z) (i : nat) (ws : Z) (b : Bucket) :
  In (i, ws, b) (weeklyData raw y m) -> getDay ws = 0%Z /\ startOfDay ws = ws.
Proof.
  intro Hin. apply (weeks_are_week_starts y m ws).
  destruct (weeklyData_shape raw y m) as [_ Hw]. rewrite <- Hw.
  apply in_map_iff. exists (i, ws, b). split; [reflexivity|exact Hin].
Qed.

Lemma nth_error_seq_some (s len n k : nat) :
  nth_error (seq s len) n = Some k -> k = (s + n)%nat.
Proof.
  revert s n. induction len as [|len IH]; intros s n H; [destruct n; discriminate|].
  destruct n as [|n]; simpl in H.
  - injection H as H. lia.
  - apply IH in H. lia.
Qed.

Lemma weeklyData_index_unique (raw : list RawActivity) (y m : Z) (i : nat) (ws ws' : Z) (b b' : Bucket) :
  In (i, ws, b) (weeklyData raw y m) -> In (i, ws', b') (weeklyData raw y m) -> ws = ws'.
Proof.
  destruct (weeklyData_shape raw y m) as [Hi _].
  set (l := weeklyData raw y m) in *.
  assert (Hpos : forall k w c, In (k, w, c) l -> nth_error l k = Some (k, w, c)).
  { intros k w c Hin. apply In_nth_error in Hin. destruct Hin as [n Hn].
    assert (E : nth_error (map (fun '(k, _, _) => k) l) n = Some k).
    { rewrite nth_error_map, Hn. reflexivity. }
    rewrite Hi in E. apply nth_error_seq_some in E. simpl in E. subst k. exact Hn. }
  intros H1 H2. apply Hpos in H1. apply Hpos in H2. rewrite H1 in H2.
  injection H2 as H2. exact H2.
Qed.

Lemma monthlyData_numbers (raw : list RawActivity) (y monthNumber : Z) (name : string) (b : Bucket) :
  In (monthNumber, name, b) (monthlyData raw y) -> (0 <= monthNumber < 12)%Z.
Proof.
  unfold monthlyData. intro Hin. apply in_map_iff in Hin.
  destruct Hin as (month & E & Hm). injection E as E1 _ _. subst month.
  apply in_map_iff in Hm. destruct Hm as (k & <- & Hk). apply in_seq in Hk. lia.
Qed.

Lemma nav_invariant (raw : list RawActivity) (thisYear : Z) (pr : ChartProps) (st : ChartState) :
  chart_reachable raw thisYear (pr, st) ->
  (initialLevel pr = Years \/ initialLevel pr = Months) /\
  match drillDownLevel st with
  | Years => initialLevel pr = Years /\ selectedMonth st = None /\ selectedWeek st = None
  | Months => selectedMonth st = None /\ selectedWeek st = None
  | Weeks => (exists m, selectedMonth st = Some m /\ (0 <= m < 12)%Z) /\ selectedWeek st = None
  | Days => (exists m, selectedMonth st = Some m /\ (0 <= m < 12)%Z) /\
            exists weekStart weekIndex, selectedWeek st = Some (weekStart, weekIndex) /\
              getDay weekStart = 0%Z /\ startOfDay weekStart = weekStart
  end.
Proof.
  intro H. remember (pr, st) as s eqn:Es. revert pr st Es.
  induction H as [pr0 Hinit|s s' Hreach IH Hstep]; intros pr st Es.
  - injection Es as <- <-. split; [exact Hinit|].
    unfold initialState; simpl. destruct Hinit as [E|E]; rewrite E; simpl.
    + split; [reflexivity|split; reflexivity].
    + split; reflexivity.
  - destruct Hstep as [pr1 st1 st' year b Hin Hclick|pr1 st1 label|pr1 st1 label|pr1 st1 Hback|pr1 st1 year].
    + injection Es as <- <-. destruct (IH pr1 st1 eq_refl) as [Hl Hinv]. split; [exact Hl|].
      unfold yearlyView in Hin.
      destruct (level_eqb (drillDownLevel st1) Years) eqn:Elev; [|destruct Hin].
      unfold handleYearClick in Hclick.
      destruct (String.eqb (yearLabel year) "").
      * injection Hclick as <-. exact Hinv.
      * destruct (parseInt (yearLabel year)); [|discriminate].
        injection Hclick as <-. simpl. split; reflexivity.
    + injection Es as <- <-. destruct (IH pr1 st1 eq_refl) as [Hl Hinv]. split; [exact Hl|].
      unfold handleMonthClick.
      destruct (String.eqb label ""); [exact Hinv|].
      destruct (find _ (monthlyView raw pr1 st1)) as [[[monthNumber name] b]|] eqn:Ef; [|exact Hinv].
      apply find_some in Ef. destruct Ef as [Hin _].
      unfold monthlyView in Hin.
      destruct (level_eqb (drillDownLevel st1) Months); [|destruct Hin].
      simpl. split; [|reflexivity].
      exists monthNumber. split; [reflexivity|].
      exact (monthlyData_numbers _ _ _ _ _ Hin).
    + injection Es as <- <-. destruct (IH pr1 st1 eq_refl) as [Hl Hinv]. split; [exact Hl|].
      unfold handleWeekClick.
      destruct (String.eqb label ""); [exact Hinv|].
      destruct (find _ (weeklyView raw pr1 st1)) as [[[weekIndex weekStart] b]|] eqn:Ef; [|exact Hinv].
      apply find_some in Ef. destruct Ef as [Hin _].
      unfold weeklyView in Hin.
      destruct (drillDownLevel st1) eqn:Elev; try destruct Hin.
      destruct (selectedMonth st1) as [m|] eqn:Em; [|destruct Hin].
      simpl. split.
      * destruct Hinv as [Hm _]. exact Hm.
      * exists weekStart, weekIndex. split; [reflexivity|].
        exact (weeklyData_week_start _ _ _ _ _ _ Hin).
    + injection Es as <- <-. destruct (IH pr1 st1 eq_refl) as [Hl Hinv]. split; [exact Hl|].
      unfold handleBackClick.
      destruct (drillDownLevel st1) eqn:Elev; simpl.
      * rewrite Elev. exact Hinv.
      * destruct Hinv as [Hm Hw].
        destruct Hl as [E|E]; rewrite E; simpl.
        -- split; [reflexivity|split; [reflexivity|exact Hw]].
        -- split; [reflexivity|exact Hw].
      * destruct Hinv as [_ Hw]. split; [reflexivity|exact Hw].
      * destruct Hinv as [Hm _]. split; [exact Hm|reflexivity].
    + injection Es as <- <-. destruct (IH pr1 st1 eq_refl) as [Hl Hinv].
      simpl. split; [exact Hl|].
      destruct (drillDownLevel st1); exact Hinv.
Qed.

(** InteractiveRunningChart navigation (l. 20-24, 307-337, 866-877): in
    every state reachable by clicks on the rendered bars, the Back button
    and changes of the parent's [selectedYear], the selections match the
    level.  At 'years' (only when [initialLevel] is 'years') and 'months'
    nothing is selected; at 'weeks' a month 0..11 is selected and no week;
    at 'days' a month and a week are selected, the week starts on a Sunday
    at midnight, and the daily view lists exactly its seven days. *)
Theorem drilldown_state_invariant (raw : list RawActivity) (thisYear : Z)
    (pr : ChartProps) (st : ChartState) :
  chart_reachable raw thisYear (pr, st) ->
  match drillDownLevel st with
  | Years => initialLevel pr = Years /\ selectedMonth st = None /\ selectedWeek st = None
  | Months => selectedMonth st = None /\ selectedWeek st = None
  | Weeks => (exists m, selectedMonth st = Some m /\ (0 <= m < 12)%Z) /\ selectedWeek st = None
  | Days => (exists m, selectedMonth st = Some m /\ (0 <= m < 12)%Z) /\
            exists weekStart weekIndex, selectedWeek st = Some (weekStart, weekIndex) /\
              getDay weekStart = 0%Z /\
              map fst (dailyView raw st) = map (fun k => addDays weekStart (Z.of_nat k)) (seq 0 7)
  end.
Proof.
  intro H. destruct (nav_invariant raw thisYear pr st H) as [_ Hinv].
  destruct (drillDownLevel st) eqn:Elev; try exact Hinv.
  destruct Hinv as [Hm (weekStart & weekIndex & Hw & Hd & Hs)].
  split; [exact Hm|]. exists weekStart, weekIndex.
  split; [exact Hw|split; [exact Hd|]].
  unfold dailyView. rewrite Elev, Hw. unfold dailyData. rewrite map_map. simpl.
  rewrite map_id. apply eachDayOfInterval_week; assumption.
Qed.

Lemma drilldown_state_invariant_witness :
  chart_reachable [lastDayRun] 2026 (navProps, navDaysState) /\
  drillDownLevel navDaysState = Days /\
  ((exists m, selectedMonth navDaysState = Some m /\ (0 <= m < 12)%Z) /\
   exists weekStart weekIndex, selectedWeek navDaysState = Some (weekStart, weekIndex) /\
     getDay weekStart = 0%Z /\
     map fst (dailyView [lastDayRun] navDaysState) = map (fun k => addDays weekStart (Z.of_nat k)) (seq 0 7)).
Proof.
  assert (Hr : chart_reachable [lastDayRun] 2026 (navProps, navDaysState)).
  { eapply reach_step; [|apply step_week].
    eapply reach_step; [|apply step_month].
    eapply reach_step;
      [|apply (step_year [lastDayRun] 2026 navProps (initialState 2026 navProps)
                 navMonthsState 2024
                 (bucket_of (yearRunning [lastDayRun] 2024)))].
    - apply reach_init. left. reflexivity.
    - vm_compute. left. reflexivity.
    - vm_compute. reflexivity. }
  split; [exact Hr|].
  assert (Hd : drillDownLevel navDaysState = Days) by (vm_compute; reflexivity).
  split; [exact Hd|].
  pose proof (drilldown_state_invariant _ _ _ _ Hr) as Hi.
  rewrite Hd in Hi. exact Hi.
Defined.

(** InteractiveRunningChart Back button (l. 866-877, 887): from every
    reachable state, the Back button stays visible for exactly
    [depth(level) - depth(initialLevel)] clicks, after which the chart
    is at [initialLevel] with no month and no week selected.  With
    [initialLevel] 'years', leaving 'months' resets the year to
    [selectedYear || new Date().getFullYear()]; with [initialLevel]
    'months' the Back clicks leave the internal year unchanged. *)
Theorem back_returns_to_initial (raw : list RawActivity) (thisYear : Z)
    (pr : ChartProps) (st : ChartState) :
  chart_reachable raw thisYear (pr, st) ->
  let n := (level_depth (drillDownLevel st) - level_depth (initialLevel pr))%nat in
  (forall k, (k < n)%nat ->
     level_eqb (drillDownLevel (Nat.iter k (handleBackClick thisYear pr) st)) (initialLevel pr) = false) /\
  drillDownLevel (Nat.iter n (handleBackClick thisYear pr) st) = initialLevel pr /\
  selectedMonth (Nat.iter n (handleBackClick thisYear pr) st) = None /\
  selectedWeek (Nat.iter n (handleBackClick thisYear pr) st) = None /\
  (initialLevel pr = Years -> (0 < n)%nat ->
     selectedYearInternal (Nat.iter n (handleBackClick thisYear pr) st) =
     year_or (selectedYear pr) thisYear) /\
  (initialLevel pr = Months ->
     selectedYearInternal (Nat.iter n (handleBackClick thisYear pr) st) = selectedYearInternal st).
Proof.
  intros H n. destruct (nav_invariant raw thisYear pr st H) as [Hl Hinv].
  destruct st as [lvl yi sm sw]; simpl in Hinv, n.
  destruct Hl as [El|El]; unfold n; rewrite El; destruct lvl; simpl in Hinv |- *.
  - destruct Hinv as (_ & -> & ->).
    repeat split; intros; first [reflexivity | discriminate | lia].
  - destruct Hinv as (-> & ->).
    split; [intros k Hk; destruct k as [|k]; [reflexivity|lia]|].
    unfold handleBackClick; simpl; rewrite ?El; repeat split; intros; first [reflexivity | discriminate | lia].
  - destruct Hinv as ((m & -> & _) & ->).
    split; [intros k Hk; destruct k as [|[|k]]; [reflexivity|reflexivity|lia]|].
    unfold handleBackClick; simpl; rewrite ?El; repeat split; intros; first [reflexivity | discriminate | lia].
  - destruct Hinv as ((m & -> & _) & (ws & i & -> & _)).
    split; [intros k Hk; destruct k as [|[|[|k]]]; [reflexivity|reflexivity|reflexivity|lia]|].
    unfold handleBackClick; simpl; rewrite ?El; repeat split; intros; first [reflexivity | discriminate | lia].
  - destruct Hinv as [E _]. congruence.
  - destruct Hinv as (-> & ->).
    repeat split; intros; first [reflexivity | discriminate | lia].
  - destruct Hinv as ((m & -> & _) & ->).
    split; [intros k Hk; destruct k as [|k]; [reflexivity|lia]|].
    unfold handleBackClick; simpl; rewrite ?El; repeat split; intros; first [reflexivity | discriminate | lia].
  - destruct Hinv as ((m & -> & _) & (ws & i & -> & _)).
    split; [intros k Hk; destruct k as [|[|k]]; [reflexivity|reflexivity|lia]|].
    unfold handleBackClick; simpl; rewrite ?El; repeat split; intros; first [reflexivity | discriminate | lia].
Qed.

Lemma back_returns_to_initial_witness :
  chart_reachable [lastDayRun] 2026 (navProps, navDaysState) /\
  drillDownLevel (Nat.iter 3 (handleBackClick 2026 navProps) navDaysState) = Years /\
  selectedYearInternal (Nat.iter 3 (handleBackClick 2026 navProps) navDaysState) = 2026%Z.
Proof.
  assert (Hr : chart_reachable [lastDayRun] 2026 (navProps, navDaysState)).
  { eapply reach_step; [|apply step_week].
    eapply reach_step; [|apply step_month].
    eapply reach_step;
      [|apply (step_year [lastDayRun] 2026 navProps (initialState 2026 navProps)
                 navMonthsState 2024
                 (bucket_of (yearRunning [lastDayRun] 2024)))].
    - apply reach_init. left. reflexivity.
    - vm_compute. left. reflexivity.
    - vm_compute. reflexivity. }
  split; [exact Hr|].
  destruct (back_returns_to_initial _ _ _ _ Hr) as (_ & Hlev & _ & _ & Hy & _).
  assert (Hd : drillDownLevel navDaysState = Days) by (vm_compute; reflexivity).
  rewrite Hd in Hlev, Hy.
  split; [exact Hlev|exact (Hy eq_refl ltac:(cbn; lia))].
Defined.

(** InteractiveRunningChart [handleYearClick] (l. 307-316) on the years
    view: clicking the bar of a year opens the months view of that year
    with nothing selected (the labels, [year.toString()], always parse
    back to the year, every year of [availableYears] being >= 2016). *)
Theorem yearClick_opens_year (raw : list RawActivity) (st : ChartState) (year : Z) (b : Bucket) :
  In (year, b) (yearlyView raw st) ->
  handleYearClick (yearLabel year) st = Some (mkChartState Months year None None).
Proof.
  intro Hin. unfold yearlyView in Hin.
  destruct (level_eqb (drillDownLevel st) Years); [|destruct Hin].
  assert (Hy : In year (availableYears raw)).
  { unfold yearlyData in Hin. apply in_map_iff in Hin.
    destruct Hin as (y & E & Hy). injection E as -> _. exact Hy. }
  apply availableYears_from2016 in Hy.
  destruct (yearLabel_parse year ltac:(lia)) as [Hne Hp].
  unfold handleYearClick. rewrite Hne, Hp. reflexivity.
Qed.

Lemma yearClick_opens_year_witness :
  In (2024%Z, bucket_of (yearRunning [lastDayRun] 2024)) (yearlyView [lastDayRun] (initialState 2026 navProps)) /\
  handleYearClick (yearLabel 2024) (initialState 2026 navProps) = Some navMonthsState.
Proof.
  assert (Hin : In (2024%Z, bucket_of (yearRunning [lastDayRun] 2024))
                   (yearlyView [lastDayRun] (initialState 2026 navProps)))
    by (vm_compute; left; reflexivity).
  split; [exact Hin|].
  exact (yearClick_opens_year _ _ _ _ Hin).
Defined.

(** InteractiveRunningChart [handleMonthClick] (l. 318-327) on the
    months view: clicking the bar labelled with the name of month m
    (0..11) opens the weeks view of month m, with no week selected and
    the year kept. *)
Theorem monthClick_selects_month (raw : list RawActivity) (pr : ChartProps) (st : ChartState) (m : Z) :
  drillDownLevel st = Months -> (0 <= m < 12)%Z ->
  handleMonthClick raw pr (monthName m) st =
  mkChartState Weeks (selectedYearInternal st) (Some m) None.
Proof.
  intros Hl Hm. unfold handleMonthClick, monthlyView. rewrite Hl.
  assert (Hk : exists k, m = Z.of_nat k /\ (k < 12)%nat) by (exists (Z.to_nat m); split; lia).
  destruct Hk as (k & -> & Hk).
  do 12 (destruct k as [|k]; [reflexivity|]). lia.
Qed.

Lemma monthClick_selects_month_witness :
  handleMonthClick [lastDayRun] navProps (monthName 0) navMonthsState =
  mkChartState Weeks 2024 (Some 0%Z) None.
Proof. apply (monthClick_selects_month [lastDayRun] navProps navMonthsState 0); [reflexivity|lia]. Defined.

(** InteractiveRunningChart [handleWeekClick] (l. 329-337) on the weeks
    view of month m: clicking the bar of any entry of weeklyData, labelled
    [Week ${weekIndex + 1}], opens the days view of exactly that week
    (its weekStart and weekIndex), keeping the year and the month. *)
Theorem weekClick_selects_week (raw : list RawActivity) (pr : ChartProps) (st : ChartState)
    (m : Z) (weekIndex : nat) (weekStart : Z) (b : Bucket) :
  drillDownLevel st = Weeks -> selectedMonth st = Some m ->
  In (weekIndex, weekStart, b) (weeklyData raw (currentYear pr st) m) ->
  handleWeekClick raw pr (weekBarLabel weekIndex) st =
  mkChartState Days (selectedYearInternal st) (Some m) (Some (weekStart, weekIndex)).
Proof.
  intros Hl Hm Hin. unfold handleWeekClick. rewrite weekBarLabel_nonempty.
  unfold weeklyView. rewrite Hl, Hm.
  destruct (find _ (weeklyData raw (currentYear pr st) m)) as [[[i' ws'] b']|] eqn:Ef.
  - apply find_some in Ef. destruct Ef as [Hin' Heq].
    apply String.eqb_eq, weekBarLabel_inj in Heq. subst i'.
    rewrite (weeklyData_index_unique _ _ _ _ _ _ _ _ Hin' Hin). reflexivity.
  - apply (find_none _ _ Ef) in Hin. rewrite String.eqb_refl in Hin. discriminate.
Qed.

Lemma weekClick_selects_week_witness :
  handleWeekClick [lastDayRun] navProps (weekBarLabel 1)
    (handleMonthClick [lastDayRun] navProps "Jan" navMonthsState) =
  mkChartState Days 2024 (Some 0%Z) (Some (newDate 2024 0 7, 1%nat)).
Proof.
  apply (weekClick_selects_week [lastDayRun] navProps
           (handleMonthClick [lastDayRun] navProps "Jan" navMonthsState) 0 1 (newDate 2024 0 7)
           (bucket_of (weekActivities [lastDayRun] 2024 0 (newDate 2024 0 7)))).
  - vm_compute. reflexivity.
  - vm_compute. reflexivity.
  - vm_compute. right. left. reflexivity.
Defined.

(** ** Further properties: available years *)

Lemma insert_year_in_iff (y x : Z) (years : list Z) :
  In x (insert_year y years) <-> x = y \/ In x years.
Proof.
  split; [apply insert_year_in|].
  induction years as [|z l IH]; simpl.
  - intros [H|[]]. left. symmetry. exact H.
  - destruct (Z.eqb_spec y z) as [Heq|Hne].
    + intros [H|H]; [left; congruence|exact H].
    + destruct (Z.ltb_spec y z) as [Hlt|Hge].
      * intros [H|H]; [left; symmetry; exact H|right; exact H].
      * intros [H|[H|H]].
        -- right. apply IH. left. exact H.
        -- left. exact H.
        -- right. apply IH. right. exact H.
Qed.

Lemma insert_year_sorted (y : Z) (years : list Z) :
  Sorted Z.lt years -> Sorted Z.lt (insert_year y years).
Proof.
  induction years as [|z l IH]; simpl; intro Hs.
  - repeat constructor.
  - destruct (Z.eqb_spec y z) as [Heq|Hne]; [exact Hs|].
    destruct (Z.ltb_spec y z) as [Hlt|Hge].
    + constructor; [exact Hs|constructor; exact Hlt].
    + apply Sorted_inv in Hs. destruct Hs as [Hl Hh].
      constructor; [exact (IH Hl)|].
      destruct l as [|w l']; simpl.
      * constructor. lia.
      * inversion Hh as [|? ? Hzw]. subst.
        destruct (Z.eqb_spec y w); [constructor; exact Hzw|].
        destruct (Z.ltb_spec y w); constructor; lia.
Qed.

(** InteractiveRunningChart [availableYears] (l. 53-66): the list is
    strictly increasing (no year twice, oldest first) and holds exactly
    the calendar years of the dated running activities from 2016 on. *)
Theorem availableYears_sorted_exact (raw : list RawActivity) :
  Sorted Z.lt (availableYears raw) /\
  forall year, In year (availableYears raw) <->
    exists act t, In act (runningActs raw) /\ actDate act = Some t /\ getFullYear t = year.
Proof.
  unfold availableYears.
  assert (Hgen : forall acts (years : list Z), Sorted Z.lt years ->
    let r := fold_left (fun years act =>
               match actDate act with
               | Some t => insert_year (getFullYear t) years
               | None => years
               end) acts years in
    Sorted Z.lt r /\
    forall year, In year r <->
      In year years \/ exists act t, In act acts /\ actDate act = Some t /\ getFullYear t = year).
  { induction acts as [|a l IH]; intros years Hs; simpl.
    - split; [exact Hs|]. intro year. split; [intro H; left; exact H|].
      intros [H|(act & t & [] & _)]. exact H.
    - destruct (actDate a) as [t|] eqn:Ea.
      + destruct (IH (insert_year (getFullYear t) years) (insert_year_sorted _ _ Hs)) as [Hs' Hi].
        split; [exact Hs'|]. intro year. rewrite Hi, insert_year_in_iff. split.
        * intros [[H|H]|(act & t' & Hin & Hd & Hy)].
          -- right. exists a, t. split; [left; reflexivity|split; [exact Ea|symmetry; exact H]].
          -- left. exact H.
          -- right. exists act, t'. split; [right; exact Hin|split; assumption].
        * intros [H|(act & t' & [<-|Hin] & Hd & Hy)].
          -- left. right. exact H.
          -- left. left. rewrite Ea in Hd. injection Hd as <-. symmetry. exact Hy.
          -- right. exists act, t'. split; [exact Hin|split; assumption].
      + destruct (IH years Hs) as [Hs' Hi].
        split; [exact Hs'|]. intro year. rewrite Hi. split.
        * intros [H|(act & t' & Hin & Hd & Hy)]; [left; exact H|].
          right. exists act, t'. split; [right; exact Hin|split; assumption].
        * intros [H|(act & t' & [<-|Hin] & Hd & Hy)]; [left; exact H| |].
          -- rewrite Ea in Hd. discriminate.
          -- right. exists act, t'. split; [exact Hin|split; assumption]. }
  destruct (Hgen (runningActs raw) [] (Sorted_nil _)) as [Hs Hi].
  split; [exact Hs|]. intro year. rewrite Hi. split.
  - intros [[]|H]. exact H.
  - intro H. right. exact H.
Qed.

(** ** Further properties: SeasonStats fitnessStats *)

Lemma fold_sum_filter_le {A : Type} (f : A -> Q) (p : A -> bool) (l : list A) :
  Forall (fun a => 0 <= f a) l ->
  forall s1 s2, 0 <= s1 -> s1 <= s2 ->
  0 <= fold_left (fun s a => s + f a) (filter p l) s1 /\
  fold_left (fun s a => s + f a) (filter p l) s1 <= fold_left (fun s a => s + f a) l s2.
Proof.
  induction l as [|a l IH]; intros Hf s1 s2 H1 H12; simpl.
  - split; assumption.
  - inversion Hf as [|? ? Ha Hl]; subst.
    destruct (p a); simpl; apply IH; try assumption; lra.
Qed.

Lemma js_round_mono (x y : Q) : x <= y -> (js_round x <= js_round y)%Z.
Proof. intro H. unfold js_round. apply Qfloor_resp_le. lra. Qed.

Lemma js_round_0_100 (x : Q) : 0 <= x -> x <= 100 -> (0 <= js_round x <= 100)%Z.
Proof.
  intros H0 H1. split.
  - change 0%Z with (js_round 0). apply js_round_mono. exact H0.
  - change 100%Z with (js_round 100). apply js_round_mono. exact H1.
Qed.

(** SeasonStats [fitnessStats] (l. 214-247): when no activity has a
    negative moving time, the rounded cross-training hours lie between 0
    and the rounded total hours, the cross-training percentage lies in
    [0, 100], and the number of distinct activity types is at most the
    number of activities and positive when there is any. *)
Theorem fitnessStats_bounds (raw : list RawActivity) (selectedYear : Z) :
  Forall (fun a => 0 <= movingTime a) raw ->
  let fs := fitnessStats raw selectedYear in
  (0 <= crossTrainingHours fs <= fsTotalHours fs)%Z /\
  (0 <= crossTrainingPercent fs <= 100)%Z /\
  (uniqueActivityTypes fs <= totalActivities fs)%nat /\
  ((0 < totalActivities fs)%nat -> (0 < uniqueActivityTypes fs)%nat).
Proof.
  intros Hraw fs. unfold fs, fitnessStats. cbn [crossTrainingHours fsTotalHours
    crossTrainingPercent uniqueActivityTypes totalActivities].
  set (all := fitnessYearActivities raw selectedYear).
  assert (Hall : Forall (fun a => 0 <= activityHours a) all).
  { apply Forall_forall. intros a Ha.
    unfold all, fitnessYearActivities in Ha. apply filter_In in Ha. destruct Ha as [Ha _].
    apply filter_In in Ha. destruct Ha as [Ha _].
    rewrite Forall_forall in Hraw. specialize (Hraw a Ha).
    unfold activityHours. apply Qle_shift_div_l; [reflexivity|]. lra. }
  destruct (fold_sum_filter_le activityHours (fun act => negb (isRunningActivity (activityType act)))
              all Hall 0 0 (Qle_refl 0) (Qle_refl 0)) as [Hc0 Hct].
  fold (sumActivityHours (filter (fun act => negb (isRunningActivity (activityType act))) all)) in Hc0, Hct.
  fold (sumActivityHours all) in Hct.
  set (cross := sumActivityHours (filter (fun act => negb (isRunningActivity (activityType act))) all)) in *.
  set (total := sumActivityHours all) in *.
  split; [split|split; [|split]].
  - change 0%Z with (js_round 0). apply js_round_mono. exact Hc0.
  - apply js_round_mono. exact Hct.
  - apply js_round_0_100.
    + destruct (Qlt_bool 0 total) eqn:Et; [|apply Qle_refl].
      apply Qlt_bool_true_lt in Et.
      apply Qmult_le_0_compat; [|discriminate].
      apply Qle_shift_div_l; [exact Et|]. lra.
    + destruct (Qlt_bool 0 total) eqn:Et; [|discriminate].
      apply Qlt_bool_true_lt in Et.
      assert (Hq : cross / total <= 1) by (apply Qle_shift_div_r; [exact Et|lra]).
      set (q := cross / total) in *. lra.
  - rewrite <- (length_map activityType all).
    apply NoDup_incl_length; [apply NoDup_nodup|].
    intros x Hx. apply nodup_In in Hx. exact Hx.
  - rewrite <- (length_map activityType). destruct (map activityType all) as [|t ts] eqn:Em.
    + simpl. lia.
    + intros _. assert (Hin : In t (nodup string_dec (t :: ts))) by (apply nodup_In; left; reflexivity).
      destruct (nodup string_dec (t :: ts)); [destruct Hin|simpl; lia].
Qed.

Lemma fitnessStats_bounds_witness :
  Forall (fun a => 0 <= movingTime a) [lastDayRun] /\
  (0 <= crossTrainingPercent (fitnessStats [lastDayRun] 2024) <= 100)%Z.
Proof.
  assert (H : Forall (fun a => 0 <= movingTime a) [lastDayRun]).
  { constructor; [|constructor]. cbv [lastDayRun movingTime]. lra. }
  split; [exact H|].
  destruct (fitnessStats_bounds [lastDayRun] 2024 H) as (_ & Hp & _). exact Hp.
Defined.

(** ** Further properties: SeasonStats race table *)

Lemma insert_race_perm (x : RawRace) (l : list RawRace) : Permutation (insert_race x l) (x :: l).
Proof.
  induction l as [|y l IH]; simpl; [reflexivity|].
  destruct (raceDate y <? raceDate x)%Z; [|reflexivity].
  rewrite IH. apply perm_swap.
Qed.

Lemma sort_races_perm (l : list RawRace) : Permutation (sort_races l) l.
Proof.
  induction l as [|x l IH]; simpl; [reflexivity|].
  rewrite insert_race_perm. apply perm_skip. exact IH.
Qed.

Lemma insert_race_sorted (x : RawRace) (l : list RawRace) :
  Sorted (fun a b => (raceDate a <= raceDate b)%Z) l ->
  Sorted (fun a b => (raceDate a <= raceDate b)%Z) (insert_race x l).
Proof.
  induction l as [|y l IH]; simpl; intro Hs.
  - repeat constructor.
  - destruct (Z.ltb_spec (raceDate y) (raceDate x)) as [Hlt|Hge].
    + apply Sorted_inv in Hs. destruct Hs as [Hl Hh].
      constructor; [exact (IH Hl)|].
      destruct l as [|w l']; simpl.
      * constructor. lia.
      * inversion Hh as [|? ? Hyw]; subst.
        destruct (Z.ltb_spec (raceDate w) (raceDate x)); constructor; lia.
    + constructor; [exact Hs|constructor; lia].
Qed.

Lemma sort_races_sorted (l : list RawRace) :
  Sorted (fun a b => (raceDate a <= raceDate b)%Z) (sort_races l).
Proof.
  induction l as [|x l IH]; simpl; [constructor|].
  apply insert_race_sorted. exact IH.
Qed.

Lemma insert_race_same_date (d : Z) (x : RawRace) (l : list RawRace) :
  filter (fun r => (raceDate r =? d)%Z) (insert_race x l) =
  if (raceDate x =? d)%Z then x :: filter (fun r => (raceDate r =? d)%Z) l
  else filter (fun r => (raceDate r =? d)%Z) l.
Proof.
  induction l as [|y l IH]; simpl.
  - destruct (raceDate x =? d)%Z; reflexivity.
  - destruct (Z.ltb_spec (raceDate y) (raceDate x)) as [Hlt|Hge]; simpl.
    + rewrite IH.
      destruct (Z.eqb_spec (raceDate y) d) as [Hy|Hy];
        destruct (Z.eqb_spec (raceDate x) d) as [Hx|Hx]; try reflexivity; lia.
    + destruct (raceDate x =? d)%Z; reflexivity.
Qed.

Lemma sort_races_same_date (d : Z) (l : list RawRace) :
  filter (fun r => (raceDate r =? d)%Z) (sort_races l) = filter (fun r => (raceDate r =? d)%Z) l.
Proof.
  induction l as [|x l IH]; simpl; [reflexivity|].
  rewrite insert_race_same_date, IH. reflexivity.
Qed.

(** SeasonStats [yearRaces] (l. 453-457): the races of the selected
    year, each exactly once, in date order; races of the same date keep
    their order in [data.races] (the sort is stable). *)
Theorem seasonYearRaces_sorted (races : list RawRace) (selectedYear : Z) :
  let inYear := filter (fun race => (getFullYear (raceDate race) =? selectedYear)%Z) races in
  Permutation (seasonYearRaces races selectedYear) inYear /\
  Sorted (fun a b => (raceDate a <= raceDate b)%Z) (seasonYearRaces races selectedYear) /\
  forall d, filter (fun r => (raceDate r =? d)%Z) (seasonYearRaces races selectedYear) =
            filter (fun r => (raceDate r =? d)%Z) inYear.
Proof.
  intro inYear. unfold seasonYearRaces. fold inYear.
  split; [apply sort_races_perm|split; [apply sort_races_sorted|]].
  intro d. apply sort_races_same_date.
Qed.

Lemma band_26_13 (x : Q) : within_band x 13.1 = true -> within_band x 26.2 = false.
Proof.
  intro H. apply within_band_true in H. destruct (within_band x 26.2) eqn:E; [|reflexivity].
  apply within_band_true in E. exfalso. lra.
Qed.

Lemma band_26_3 (x : Q) : within_band x 3.1 = true -> within_band x 26.2 = false.
Proof.
  intro H. apply within_band_true in H. destruct (within_band x 26.2) eqn:E; [|reflexivity].
  apply within_band_true in E. exfalso. lra.
Qed.

Lemma band_13_3 (x : Q) : within_band x 3.1 = true -> within_band x 13.1 = false.
Proof.
  intro H. apply within_band_true in H. destruct (within_band x 13.1) eqn:E; [|reflexivity].
  apply within_band_true in E. exfalso. lra.
Qed.

(** SeasonStats [filteredRacesForTable] (l. 507-527) with the options of
    its select (l. 796-800): 'All' lists the year's races, and each of
    'Marathon', 'Half', '5K' and 'Other' lists, in the same order, exactly
    the year's races to which [getRaceCategory] (l. 77-82) gives that
    category. *)
Theorem seasonFilteredRaces_category (races : list RawRace) (selectedYear : Z) :
  seasonFilteredRacesForTable races selectedYear "All" = seasonYearRaces races selectedYear /\
  forall c, In c ["Marathon"; "Half"; "5K"; "Other"]%string ->
    seasonFilteredRacesForTable races selectedYear c =
    filter (fun race => String.eqb (getRaceCategory (raceDistance race)) c)
      (seasonYearRaces races selectedYear).
Proof.
  split; [reflexivity|].
  intros c Hc.
  destruct Hc as [<-|[<-|[<-|[<-|[]]]]]; unfold seasonFilteredRacesForTable; simpl;
    apply filter_ext; intro race; unfold getRaceCategory;
    destruct (within_band (raceDistance race) 26.2) eqn:E1;
    destruct (within_band (raceDistance race) 13.1) eqn:E2;
    destruct (within_band (raceDistance race) 3.1) eqn:E3;
    try reflexivity;
    try (rewrite (band_26_13 _ E2) in E1; discriminate);
    try (rewrite (band_26_3 _ E3) in E1; discriminate);
    try (rewrite (band_13_3 _ E3) in E2; discriminate).
Qed.

(** ** Further properties: the weeks of a month *)

Lemma list_sum_map_add {A : Type} (f g : A -> nat) (l : list A) :
  list_sum (map (fun x => (f x + g x)%nat) l) = (list_sum (map f l) + list_sum (map g l))%nat.
Proof. induction l as [|x l IH]; simpl; [reflexivity|]. rewrite IH. lia. Qed.

Lemma list_sum_indicator {A : Type} (p : A -> bool) (l : list A) :
  list_sum (map (fun x => if p x then 1%nat else 0%nat) l) = List.length (filter p l).
Proof. induction l as [|x l IH]; simpl; [reflexivity|]. destruct (p x); simpl; rewrite IH; reflexivity. Qed.

Lemma sum_counts_swap {A B : Type} (P : B -> A -> bool) (K : list B) (L : list A) :
  list_sum (map (fun k => List.length (filter (P k) L)) K) =
  list_sum (map (fun a => List.length (filter (fun k => P k a) K)) L).
Proof.
  induction L as [|a L IH]; simpl.
  - induction K as [|k K IHK]; simpl; [reflexivity|]. exact IHK.
  - rewrite <- list_sum_indicator, <- IH, <- list_sum_map_add.
    f_equal. apply map_ext. intro k. destruct (P k a); reflexivity.
Qed.

Lemma count_seq_eq (q : Z) (N s : nat) :
  List.length (filter (fun k => (Z.of_nat k =? q)%Z) (seq s N)) =
  if ((Z.of_nat s <=? q)%Z && (q <? Z.of_nat (s + N))%Z)%bool then 1%nat else 0%nat.
Proof.
  revert s. induction N as [|N IH]; intro s; simpl.
  - destruct (Z.leb_spec (Z.of_nat s) q), (Z.ltb_spec q (Z.of_nat (s + 0))); simpl; try reflexivity; lia.
  - destruct (Z.eqb_spec (Z.of_nat s) q) as [E|E]; cbn [List.length]; rewrite IH;
      destruct (Z.leb_spec (Z.of_nat (S s)) q), (Z.ltb_spec q (Z.of_nat (S s + N)));
      destruct (Z.leb_spec (Z.of_nat s) q), (Z.ltb_spec q (Z.of_nat (s + S N))); simpl; lia.
Qed.

Lemma sum_ones {A : Type} (f : A -> nat) (l : list A) :
  (forall a, In a l -> f a = 1%nat) -> list_sum (map f l) = List.length l.
Proof.
  induction l as [|a l IH]; intro H; simpl; [reflexivity|].
  rewrite H by (left; reflexivity). rewrite IH by (intros b Hb; apply H; right; exact Hb). reflexivity.
Qed.

(** InteractiveRunningChart [weeklyData] (l. 184-239) and SeasonStats
    [weeklyData] (l. 326-384, the same filters): the week bars of a month
    count every run of the month exactly once; their [runs] add up to the
    number of running activities between [new Date(y, m, 1)] and
    [new Date(y, m + 1, 0)]. *)
Theorem weeklyData_runs_total (raw : list RawActivity) (y m : Z) :
  (0 <= m < 12)%Z ->
  list_sum (map (fun '(_, _, b) => runs b) (weeklyData raw y m)) =
  List.length (filter (actWithin (newDate y m 1) (newDate y (m + 1) 0)) (runningActs raw)).
Proof.
  intro Hm.
  set (ms := newDate y m 1). set (me := newDate y (m + 1) 0).
  set (M := filter (actWithin ms me) (runningActs raw)).
  destruct (eachWeekOfInterval_spec ms me (month_nonempty y m Hm)) as (n & Hw & Hlast).
  set (s0 := startOfWeek ms 0) in *.
  assert (E : map (fun '(_, _, b) => runs b) (weeklyData raw y m) =
              map (fun ws => List.length (filter (actWithin ws (endOfWeek ws 0)) M))
                  (eachWeekOfInterval ms me)).
  { unfold weeklyData. cbv zeta. fold ms me. rewrite map_map.
    transitivity (map (fun ws => List.length (filter (actWithin ws (endOfWeek ws 0)) M))
                    (map snd (combine (seq 0 (List.length (eachWeekOfInterval ms me)))
                                      (eachWeekOfInterval ms me)))).
    - rewrite map_map. apply map_ext. intros [i ws]. reflexivity.
    - rewrite map_snd_combine by apply length_seq. reflexivity. }
  rewrite E, Hw, map_map.
  rewrite (sum_counts_swap (fun k a => actWithin (addDays s0 (7 * Z.of_nat k))
                               (endOfWeek (addDays s0 (7 * Z.of_nat k)) 0) a)).
  apply sum_ones. intros a Ha.
  unfold M in Ha. apply filter_In in Ha. destruct Ha as [_ Ha].
  unfold actWithin in Ha |- *. destruct (actDate a) as [t|]; [|discriminate].
  unfold isWithinInterval in Ha. apply andb_true_iff in Ha.
  destruct Ha as [Ha1 Ha2]. apply Z.leb_le in Ha1. apply Z.leb_le in Ha2.
  pose proof (startOfWeek_bounds ms 0 ltac:(lia)) as Hb1.
  pose proof (startOfWeek_bounds me 0 ltac:(lia)) as Hb2.
  fold s0 in Hb1. rewrite <- Hlast in Hb2.
  set (q := ((t - s0) / (7 * ms_per_day))%Z).
  rewrite (filter_ext _ (fun k => (Z.of_nat k =? q)%Z)).
  - rewrite count_seq_eq.
    assert (Hq : (0 <= q <= Z.of_nat n)%Z).
    { unfold q, addDays in *. unfold ms_per_day in *. split.
      - apply Z.div_pos; lia.
      - apply Z.lt_succ_r. apply Z.div_lt_upper_bound; lia. }
    destruct (Z.leb_spec (Z.of_nat 0) q), (Z.ltb_spec q (Z.of_nat (0 + S n))); simpl; lia.
  - intro k.
    assert (Hd : getDay (addDays s0 (7 * Z.of_nat k)) = 0%Z)
      by (unfold s0; rewrite getDay_addDays_week, getDay_startOfWeek by lia; reflexivity).
    assert (Hs : startOfDay (addDays s0 (7 * Z.of_nat k)) = addDays s0 (7 * Z.of_nat k))
      by (unfold s0; rewrite startOfDay_addDays, startOfDay_startOfWeek by lia; unfold addDays; lia).
    rewrite (endOfWeek_start _ 0 ltac:(lia) Hd Hs).
    unfold isWithinInterval, q, addDays. unfold ms_per_day.
    pose proof (Z.div_mod (t - s0) (7 * 86400000) ltac:(lia)).
    pose proof (Z.mod_pos_bound (t - s0) (7 * 86400000) ltac:(lia)).
    destruct (Z.leb_spec (s0 + 7 * Z.of_nat k * 86400000) t),
             (Z.leb_spec t (s0 + 7 * Z.of_nat k * 86400000 + 7 * 86400000 - 1)),
             (Z.eqb_spec (Z.of_nat k) ((t - s0) / (7 * 86400000))); simpl; try reflexivity; nia.
Qed.

Lemma weeklyData_runs_total_witness :
  list_sum (map (fun '(_, _, b) => runs b) (weeklyData [lastDayRun] 2024 1)) =
  List.length (filter (actWithin (newDate 2024 1 1) (newDate 2024 (1 + 1) 0)) (runningActs [lastDayRun])).
Proof. apply weeklyData_runs_total. lia. Defined.

(** InteractiveRunningChart [dailyData] (l. 241-305) and SeasonStats
    [dailyData] (l. 386-451, the same filters): for a week that starts on
    a Sunday at midnight, as every selected week does, the seven day bars
    count every run of the week exactly once; their [runs] add up to the
    number of running activities between [weekStart] and
    [endOfWeek(weekStart)]. *)
Theorem dailyData_runs_total (raw : list RawActivity) (weekStart : Z) :
  getDay weekStart = 0%Z -> startOfDay weekStart = weekStart ->
  list_sum (map (fun '(_, b) => runs b) (dailyData raw weekStart)) =
  List.length (filter (actWithin weekStart (endOfWeek weekStart 0)) (runningActs raw)).
Proof.
  intros Hd Hs.
  set (W := filter (actWithin weekStart (endOfWeek weekStart 0)) (runningActs raw)).
  unfold dailyData. rewrite (eachDayOfInterval_week weekStart Hd Hs), !map_map.
  transitivity (list_sum (map (fun k => List.length
      (filter (fun act => match actDate act with
                          | Some t => isSameDay t (addDays weekStart (Z.of_nat k))
                          | None => false end) W)) (seq 0 7))).
  { reflexivity. }
  rewrite (sum_counts_swap (fun k act => match actDate act with
                          | Some t => isSameDay t (addDays weekStart (Z.of_nat k))
                          | None => false end)).
  apply sum_ones. intros a Ha.
  unfold W in Ha. apply filter_In in Ha. destruct Ha as [_ Ha].
  unfold actWithin in Ha. destruct (actDate a) as [t|]; [|discriminate].
  rewrite (endOfWeek_start weekStart 0 ltac:(lia) Hd Hs) in Ha.
  unfold isWithinInterval in Ha. apply andb_true_iff in Ha.
  destruct Ha as [Ha1 Ha2]. apply Z.leb_le in Ha1. apply Z.leb_le in Ha2.
  set (q := ((t - weekStart) / ms_per_day)%Z).
  rewrite (filter_ext _ (fun k => (Z.of_nat k =? q)%Z)).
  - rewrite count_seq_eq.
    assert (Hq : (0 <= q < 7)%Z).
    { unfold q. unfold ms_per_day in *. split.
      - apply Z.div_pos; lia.
      - apply Z.div_lt_upper_bound; lia. }
    destruct (Z.leb_spec (Z.of_nat 0) q), (Z.ltb_spec q (Z.of_nat (0 + 7))); simpl; lia.
  - intro k. unfold isSameDay. rewrite startOfDay_addDays, Hs.
    unfold startOfDay, dayNumber in *. unfold q, ms_per_day in *.
    pose proof (Z.div_mod t 86400000 ltac:(lia)).
    pose proof (Z.mod_pos_bound t 86400000 ltac:(lia)).
    pose proof (Z.div_mod (t - weekStart) 86400000 ltac:(lia)).
    pose proof (Z.mod_pos_bound (t - weekStart) 86400000 ltac:(lia)).
    destruct (Z.eqb_spec (t / 86400000 * 86400000) (weekStart + Z.of_nat k * 86400000)),
             (Z.eqb_spec (Z.of_nat k) ((t - weekStart) / 86400000)); try reflexivity; lia.
Qed.

Lemma dailyData_runs_total_witness :
  getDay (newDate 2024 0 28) = 0%Z /\ startOfDay (newDate 2024 0 28) = newDate 2024 0 28 /\
  list_sum (map (fun '(_, b) => runs b) (dailyData [lastDayRun] (newDate 2024 0 28))) =
  List.length (filter (actWithin (newDate 2024 0 28) (endOfWeek (newDate 2024 0 28) 0))
                 (runningActs [lastDayRun])).
Proof.
  assert (Hd : getDay (newDate 2024 0 28) = 0%Z) by (vm_compute; reflexivity).
  assert (Hs : startOfDay (newDate 2024 0 28) = newDate 2024 0 28) by (vm_compute; reflexivity).
  split; [exact Hd|split; [exact Hs|]].
  exact (dailyData_runs_total [lastDayRun] (newDate 2024 0 28) Hd Hs).
Defined.
